(** * UpdateTrackedBranch: the notifier of [ci/updateTrackedBranch.py]

    A shallow embedding of the script's [main] routine and of the printing
    helpers it calls, followed by the properties of the trigger-then-poll
    exchange with the Critic server.

    Conventions of the embedding.
    - A Python [str] is a Rocq [string] holding the UTF-8 bytes of its
      text.  A lone surrogate, which [json.loads] yields from an escape such
      as [\ud800] and which UTF-8 cannot encode, is held as the three bytes
      ED A0..BF 80..BF that UTF-8 leaves unused: [line.encode("utf-8")] is
      the identity on a string without such bytes and raises
      [UnicodeEncodeError] on one with.
    - Wall-clock time ([time.time()], timeouts, [time.sleep]) is a rational
      number of seconds.
    - The outside world (clock, HTTP server, local git) is an arbitrary
      deterministic environment; every call made to it is recorded, with its
      result, in the trace of the run.  Writing to standard output does not
      fail.
    - The script is Python 3 (f-string at line 219, [text=True] at line 214):
      ["%s" % some_bytes] renders the bytes literal [b'...'].
    - The [while] loop of lines 279-303 is followed for a bounded number of
      passes ([fuel]); a run cut short there has the outcome [OutOfFuel] and
      the trace it produced so far.
    - [run] is the call [main(args)] of line 311; [script] is that call
      after [pars_arguments] has logged its debug line (line 171).  The
      trace holds the calls of [print_and_log]: the four lines the module
      puts into [log] when it is loaded (lines 98-101) come before them in
      the log and are never written. *)

From Stdlib Require Import QArith Qminmax Ascii.
From stdpp Require Import gmap strings list pretty.

Local Set Warnings "-register-all".
Local Open Scope string_scope.
Local Open Scope list_scope.

(** ** Python values and the pieces of the runtime the script relies on *)

(** What [json.loads] can return. *)
Inductive pyval : Type :=
  | PyNone
  | PyBool (b : bool)
  | PyInt (n : Z)
  | PyFloat (q : Q)
  | PyStr (s : string)
  | PyList (l : list pyval)
  | PyDict (d : gmap string pyval).

(** Python truth value, as used by [not data["update_successful"]]. *)
Definition truthy (v : pyval) : bool :=
  match v with
  | PyNone => false
  | PyBool b => b
  | PyInt n => negb (n =? 0)%Z
  | PyFloat q => negb (Qeq_bool q 0)
  | PyStr s => negb (String.eqb s "")
  | PyList l => negb (Nat.eqb (length l) 0)
  | PyDict d => negb (Nat.eqb (size d) 0)
  end.

(** [data["status"] != "ok"] is false exactly on the string ["ok"]. *)
Definition is_ok (v : pyval) : bool :=
  match v with
  | PyStr s => String.eqb s "ok"
  | _ => false
  end.

(** Truth value of an optional command-line string ([None] and [""] are
    false). *)
Definition str_truthy (o : option string) : bool :=
  match o with
  | Some s => negb (String.eqb s "")
  | None => false
  end.

(** [s * n] for a one-character string [s]. *)
Fixpoint str_repeat (c : ascii) (n : nat) : string :=
  match n with
  | O => ""
  | S n' => String c (str_repeat c n')
  end.

(** [s.endswith("/")] *)
Fixpoint endswith_slash (s : string) : bool :=
  match s with
  | "" => false
  | String c "" => Ascii.eqb c "/"
  | String _ rest => endswith_slash rest
  end.

(** *** [str.splitlines()]

    Line boundaries of Python's [str.splitlines]: LF, CR, CR LF, VT, FF, FS,
    GS, RS, NEL (U+0085), LS (U+2028) and PS (U+2029); the last three are
    recognised by their UTF-8 encodings C2 85, E2 80 A8 and E2 80 A9.  The
    breaks are not kept, and a trailing empty piece is dropped. *)
Definition is_break1 (c : ascii) : bool :=
  let n := nat_of_ascii c in
  (Nat.eqb n 10 || Nat.eqb n 11 || Nat.eqb n 12 ||
   Nat.eqb n 28 || Nat.eqb n 29 || Nat.eqb n 30)%bool.

Definition snoc_char (s : string) (c : ascii) : string := s +:+ String c "".

Fixpoint splitlines_from (cur : string) (s : string) : list string :=
  match s with
  | "" => if String.eqb cur "" then [] else [cur]
  | String c rest =>
      if Nat.eqb (nat_of_ascii c) 13 then
        match rest with
        | String c' rest' =>
            if Nat.eqb (nat_of_ascii c') 10
            then cur :: splitlines_from "" rest'
            else cur :: splitlines_from "" rest
        | "" => cur :: splitlines_from "" rest
        end
      else if is_break1 c then cur :: splitlines_from "" rest
      else
        match rest with
        | String c2 rest2 =>
            if (Nat.eqb (nat_of_ascii c) 194 && Nat.eqb (nat_of_ascii c2) 133)%bool
            then cur :: splitlines_from "" rest2
            else
              match rest2 with
              | String c3 rest3 =>
                  if (Nat.eqb (nat_of_ascii c) 226 && Nat.eqb (nat_of_ascii c2) 128
                      && (Nat.eqb (nat_of_ascii c3) 168 || Nat.eqb (nat_of_ascii c3) 169))%bool
                  then cur :: splitlines_from "" rest3
                  else splitlines_from (snoc_char cur c) rest
              | "" => splitlines_from (snoc_char cur c) rest
              end
        | "" => splitlines_from (snoc_char cur c) rest
        end
  end.

Definition splitlines (s : string) : list string := splitlines_from "" s.

(** *** [str(bytes)]: the bytes literal

    CPython's [PyBytes_Repr] with smart quotes: the literal is delimited by
    ['] unless the bytes contain ['] and no double quote; the delimiter and
    the backslash are escaped, so are TAB, LF and CR, and every byte below
    0x20 or from 0x7f on is written [\xNN]. *)
Definition dquote : ascii := "034"%char.
Definition squote : ascii := "'"%char.
Definition backslash : ascii := "\"%char.

Fixpoint contains_char (c : ascii) (s : string) : bool :=
  match s with
  | "" => false
  | String c' rest => (Ascii.eqb c c' || contains_char c rest)%bool
  end.

Definition hexdigit (n : nat) : ascii :=
  if Nat.ltb n 10 then ascii_of_nat (48 + n) else ascii_of_nat (87 + n).

Definition bytes_quote (b : string) : ascii :=
  if (contains_char squote b && negb (contains_char dquote b))%bool
  then dquote else squote.

Definition repr_byte (quote c : ascii) : string :=
  let n := nat_of_ascii c in
  if (Ascii.eqb c quote || Ascii.eqb c backslash)%bool then String backslash (String c "")
  else if Nat.eqb n 9 then "\t"
  else if Nat.eqb n 10 then "\n"
  else if Nat.eqb n 13 then "\r"
  else if (Nat.ltb n 32 || Nat.leb 127 n)%bool
       then String backslash (String "x" (String (hexdigit (n / 16)) (String (hexdigit (n mod 16)) "")))
  else String c "".

Fixpoint repr_bytes_body (quote : ascii) (b : string) : string :=
  match b with
  | "" => ""
  | String c rest => repr_byte quote c +:+ repr_bytes_body quote rest
  end.

Definition bytes_str (b : string) : string :=
  let q := bytes_quote b in
  String "b" (String q (repr_bytes_body q b +:+ String q "")).

(** *** [str.encode("utf-8")]

    A lone surrogate U+D800..U+DFFF is held as ED A0..BF 80..BF; the byte ED
    is followed by 80..9F in the encoding of any other character. *)
Fixpoint has_surrogate (s : string) : bool :=
  match s with
  | String c ((String c' _) as rest) =>
      (Nat.eqb (nat_of_ascii c) 237 && Nat.leb 160 (nat_of_ascii c')
         && Nat.leb (nat_of_ascii c') 191
       || has_surrogate rest)%bool
  | _ => false
  end.

Definition encodable (s : string) : bool := negb (has_surrogate s).

(** [line.encode("utf-8")]: the bytes of the line, or [None] where Python
    raises [UnicodeEncodeError]. *)
Definition encode_utf8 (line : string) : option string :=
  if encodable line then Some line else None.

(** Whether a printing loop gets through all of [lines], and the lines it
    gets through. *)
Definition all_encodable (lines : list string) : bool := forallb encodable lines.

Fixpoint encoded_prefix (lines : list string) : list string :=
  match lines with
  | [] => []
  | line :: rest => if encodable line then line :: encoded_prefix rest else []
  end.

(** *** [str.strip()]

    The white space of [str.isspace]: TAB to CR, FS to US, the space, NEL
    (C2 85), NBSP (C2 A0), U+1680 (E1 9A 80), U+2000..U+200A (E2 80 80..8A),
    LS and PS (E2 80 A8, A9), U+202F (E2 80 AF), U+205F (E2 81 9F) and
    U+3000 (E3 80 80). *)
Definition is_space1 (c : ascii) : bool :=
  let n := nat_of_ascii c in
  (Nat.leb 9 n && Nat.leb n 13 || Nat.leb 28 n && Nat.leb n 32)%bool.

Definition is_space2 (c1 c2 : ascii) : bool :=
  (Nat.eqb (nat_of_ascii c1) 194
   && (Nat.eqb (nat_of_ascii c2) 133 || Nat.eqb (nat_of_ascii c2) 160))%bool.

Definition is_space3 (c1 c2 c3 : ascii) : bool :=
  let n1 := nat_of_ascii c1 in
  let n2 := nat_of_ascii c2 in
  let n3 := nat_of_ascii c3 in
  (Nat.eqb n1 225 && Nat.eqb n2 154 && Nat.eqb n3 128
   || Nat.eqb n1 226 && Nat.eqb n2 128
      && (Nat.leb 128 n3 && Nat.leb n3 138 || Nat.eqb n3 168 || Nat.eqb n3 169
          || Nat.eqb n3 175)
   || Nat.eqb n1 226 && Nat.eqb n2 129 && Nat.eqb n3 159
   || Nat.eqb n1 227 && Nat.eqb n2 128 && Nat.eqb n3 128)%bool.

(** [s.lstrip()]: the string without the white space at its front. *)
Fixpoint lstrip (s : string) : string :=
  match s with
  | "" => ""
  | String c1 rest1 =>
      if is_space1 c1 then lstrip rest1
      else
        match rest1 with
        | "" => s
        | String c2 rest2 =>
            if is_space2 c1 c2 then lstrip rest2
            else
              match rest2 with
              | "" => s
              | String c3 rest3 => if is_space3 c1 c2 c3 then lstrip rest3 else s
              end
        end
  end.

(** [s.rstrip()]: the string up to the point from which all is white
    space. *)
Fixpoint rstrip (s : string) : string :=
  match s with
  | "" => ""
  | String c rest => if String.eqb (lstrip s) "" then "" else String c (rstrip rest)
  end.

Definition str_strip (s : string) : string := rstrip (lstrip s).

(** Text of ASCII characters that show and are no space (0x21 to 0x7e), as
    a commit id is. *)
Definition graphic_char (c : ascii) : bool :=
  (Nat.leb 33 (nat_of_ascii c) && Nat.leb (nat_of_ascii c) 126)%bool.

Fixpoint graphic (s : string) : bool :=
  match s with
  | "" => true
  | String c rest => (graphic_char c && graphic rest)%bool
  end.



(** ** Exceptions, requests and the outside world *)

Inductive Exn : Type :=
  | SystemExit (code : Z)            (* sys.exit(code); not an [Exception] *)
  | PyException (msg : string)       (* raise Exception(msg) *)
  | KeyError (key : string)          (* d[key] on a dict without [key] *)
  | TypeError                        (* subscript or [+] on the wrong type *)
  | AttributeError                   (* [.splitlines()] on a non-string *)
  | HTTPError                        (* response.raise_for_status() *)
  | JSONDecodeError                  (* json.loads on a body that is not JSON *)
  | Timeout                          (* requests.exceptions.Timeout *)
  | RequestError (descr : string)    (* any other exception of requests.post *)
  | CalledProcessError               (* git exited with a non-zero status *)
  | OSError (descr : string)         (* git could not be run or read *)
  | UnicodeEncodeError.              (* [.encode("utf-8")] on a lone surrogate *)

(** [except Exception] catches everything the script can raise but
    [SystemExit]. *)
Definition is_Exception (e : Exn) : bool :=
  match e with SystemExit _ => false | _ => true end.

Definition is_Timeout (e : Exn) : bool :=
  match e with Timeout => true | _ => false end.

Definition is_CalledProcessError (e : Exn) : bool :=
  match e with CalledProcessError => true | _ => false end.

(** The keyword arguments built at lines 195-202. *)
Record Kwargs : Type := {
  kw_auth : option (string * string);
  kw_verify : bool
}.

(** One call of [requests.post]: the URL, the dictionary whose JSON text is
    the body, the timeout and the keyword arguments. *)
Record Request : Type := {
  rq_url : string;
  rq_data : gmap string pyval;
  rq_timeout : Q;
  rq_kwargs : Kwargs
}.

(** The response object, as far as the script looks at it: whether
    [raise_for_status()] raises, and what [json.loads(response.content)]
    returns ([None] when the body is not JSON). *)
Record Response : Type := {
  status_is_error : bool;
  content_json : option pyval
}.

(** What a call of [requests.post] does: it raises
    [requests.exceptions.Timeout], raises another exception (no connection,
    a timeout value that is not positive, ...), or returns a response. *)
Inductive PostResult : Type :=
  | PostTimeout
  | PostFails (descr : string)
  | PostReturns (r : Response).

(** [subprocess.check_output(["git", "rev-parse", ref], text=True)]: the
    output of git, [CalledProcessError] when git exits with a non-zero
    status, or another exception when git cannot be run or its output
    cannot be decoded. *)
Inductive GitResult : Type :=
  | GitOutput (stdout : string)
  | GitExits
  | GitFails (descr : string).

(** The four places where the script reads the clock (lines 222, 238, 279
    and 298). *)
Inductive ClockSite : Type := AtStart | AtRequest | AtLoopTest | AtRemaining.

(** What a run does to the outside world, in order. [EvLog line p] is one
    call [print_and_log(line, p)]: the line joins the in-memory log, and is
    written to standard output when [p] holds. *)
Inductive Event : Type :=
  | EvLog (line : string) (do_print : bool)
  | EvTime (site : ClockSite) (t : Q)
  | EvSleep (d : Q)
  | EvRevParse (ref : string) (r : GitResult)
  | EvPost (rq : Request) (r : PostResult).

(** The environment of a run, over its own state [W]. *)
Class Environment (W : Type) : Type := {
  time_time : W -> Q * W;
  time_sleep : Q -> W -> W;
  requests_post : Request -> W -> PostResult * W;
  git_rev_parse : string -> W -> GitResult * W
}.

(** The parsed command line: what [parser.parse_args()] returns at line
    170. *)
Record Args : Type := {
  critic_url : string;
  repository_url : string;
  ref : string;
  sha : option string;
  username : option string;
  password : option string;
  debug : bool;
  verify : bool
}.

(** Library functions whose text only feeds debug lines or message
    arguments: [json.dumps(_, indent=4, sort_keys=True)], [str()] of a
    float, a list or a dictionary, the f-string [f"{refs}"], [str(args)] of
    the parsed command line and [traceback.format_exc()].

    Their texts can be encoded.  [json.dumps] writes ASCII only
    ([ensure_ascii] is on by default); [str()] of a float is ASCII; [str()]
    of a list, of a dictionary, of the [refs] list and of the [Namespace]
    shows each string by its [repr], which escapes a lone surrogate.  For
    the traceback this is a premise of the model: its text is the script's
    own source lines and the text of the exception, and the text of
    [Exception("Request failed: " + error)] holds the server's message as it
    is.  Where that message has a lone surrogate the handler of line 304
    fails at line 306 with [UnicodeEncodeError] in place of the exception it
    was logging; the process exits with status 1 in either case. *)
Class PyRuntime : Type := {
  json_dumps : pyval -> string;
  str_value : pyval -> string;
  str_refs : list (string * string) -> string;
  str_args : Args -> string;
  format_exc : Exn -> string;
  json_dumps_encodable : forall v, all_encodable (splitlines (json_dumps v)) = true;
  str_value_encodable : forall v, all_encodable (splitlines (str_value v)) = true;
  str_refs_encodable : forall refs, all_encodable (splitlines (str_refs refs)) = true;
  str_args_encodable : forall args, all_encodable (splitlines (str_args args)) = true;
  format_exc_encodable : forall e, all_encodable (splitlines (format_exc e)) = true
}.

(** ** The monad of the script: state, exceptions and a trace *)

Inductive Outcome (A : Type) : Type :=
  | Ok (a : A)
  | Raised (e : Exn)
  | OutOfFuel.
Arguments Ok {A} a.
Arguments Raised {A} e.
Arguments OutOfFuel {A}.

(** Process exit status: 0 on return, the code of [sys.exit], 1 for an
    exception that reaches the top level. *)
Definition exit_status {A} (o : Outcome A) : option Z :=
  match o with
  | Ok _ => Some 0%Z
  | Raised (SystemExit c) => Some c
  | Raised _ => Some 1%Z
  | OutOfFuel => None
  end.

Inductive LoopCtl : Type := LoopContinue | LoopBreak.

Definition connection_timeout : Z := 5.
Definition update_timeout : Z := 30.
Definition half : Q := 1 # 2.

Section Notifier.
Context {W : Type} `{!Environment W} `{!PyRuntime}.

(** The mutable state: the outside world and the module-level [debug]
    flag (line 94). The module-level [log] list is only ever appended to:
    it is its four initial lines (lines 98-101) followed by the lines of
    the [EvLog] events. *)
Record State : Type := {
  world : W;
  g_debug : bool
}.

Definition Run (A : Type) : Type := State -> Outcome A * State * list Event.

#[global] Instance run_ret : MRet Run := fun A a st => (Ok a, st, []).
#[global] Instance run_bind : MBind Run := fun A B f m st =>
  match m st with
  | (Ok a, st', tr) => let '(r, st'', tr') := f a st' in (r, st'', tr ++ tr')
  | (Raised e, st', tr) => (Raised e, st', tr)
  | (OutOfFuel, st', tr) => (OutOfFuel, st', tr)
  end.

Definition raise {A} (e : Exn) : Run A := fun st => (Raised e, st, []).
Definition out_of_fuel {A} : Run A := fun st => (OutOfFuel, st, []).

(** [try: m except E as e: handler(e)], where [catches] tells the
    exceptions that are instances of [E]. *)
Definition try_except {A} (m : Run A) (catches : Exn -> bool) (handler : Exn -> Run A) : Run A :=
  fun st =>
    match m st with
    | (Raised e, st', tr) =>
        if catches e
        then let '(r, st'', tr') := handler e st' in (r, st'', tr ++ tr')
        else (Raised e, st', tr)
    | other => other
    end.

Fixpoint for_each {A} (l : list A) (body : A -> Run unit) : Run unit :=
  match l with
  | [] => mret tt
  | x :: rest => body x ;; for_each rest body
  end.

(** *** Calls to the outside world *)

Definition now (site : ClockSite) : Run Q := fun st =>
  let '(t, w) := time_time (world st) in
  (Ok t, {| world := w; g_debug := g_debug st |}, [EvTime site t]).

Definition sleep (d : Q) : Run unit := fun st =>
  (Ok tt, {| world := time_sleep d (world st); g_debug := g_debug st |}, [EvSleep d]).

Definition post (rq : Request) : Run PostResult := fun st =>
  let '(r, w) := requests_post rq (world st) in
  (Ok r, {| world := w; g_debug := g_debug st |}, [EvPost rq r]).

Definition rev_parse (name : string) : Run GitResult := fun st =>
  let '(r, w) := git_rev_parse name (world st) in
  (Ok r, {| world := w; g_debug := g_debug st |}, [EvRevParse name r]).

Definition get_debug : Run bool := fun st => (Ok (g_debug st), st, []).
Definition set_debug (b : bool) : Run unit := fun st =>
  (Ok tt, {| world := world st; g_debug := b |}, []).

(** *** The printing helpers (lines 105-133)

    [sys.stdout.flush()] has no effect of its own on what is written. *)

Definition print_and_log (line : string) (do_print : bool) : Run unit := fun st =>
  (Ok tt, st, [EvLog line do_print]).

(** [line.encode("utf-8")] *)
Definition encode (line : string) : Run string :=
  match encode_utf8 line with
  | Some b => mret b
  | None => raise UnicodeEncodeError
  end.

Definition print_debug (message : string) : Run unit :=
  for_each (splitlines message) (fun line =>
    b ← encode line;
    dbg ← get_debug;
    print_and_log ("[critic:debug] " +:+ bytes_str b) dbg).

Definition print_debug_json (data : pyval) : Run unit :=
  print_debug (json_dumps data).

Definition print_progress (message : string) : Run unit :=
  for_each (splitlines message) (fun line =>
    b ← encode line;
    print_and_log ("[critic] " +:+ bytes_str b) true).

Definition hook_rule : string := "[critic] " +:+ str_repeat "-" 60.

Definition print_hook (message : pyval) : Run unit :=
  print_and_log hook_rule true ;;
  lines ← match message with
          | PyStr s => mret (splitlines s)
          | _ => raise AttributeError
          end;
  for_each lines (fun line =>
    b ← encode line;
    print_and_log ("[critic] " +:+ bytes_str b) true) ;;
  print_and_log hook_rule true.

Definition print_error (message : string) : Run unit :=
  for_each (splitlines message) (fun line =>
    b ← encode line;
    print_and_log ("[critic:error] " +:+ bytes_str b) true).

(** ["... %s" % v] for a value [v] out of a JSON document: [str(v)]. *)
Definition format_s (v : pyval) : string :=
  match v with
  | PyStr s => s
  | PyNone => "None"
  | PyBool b => if b then "True" else "False"
  | PyInt n => pretty n
  | _ => str_value v
  end.

(** [d[key]] on a dictionary. *)
Definition subscript (d : gmap string pyval) (key : string) : Run pyval :=
  match d !! key with
  | Some v => mret v
  | None => raise (KeyError key)
  end.

(** [key in d] *)
Definition has_key (d : gmap string pyval) (key : string) : bool :=
  match d !! key with Some _ => true | None => false end.

(** *** [issue_request] (lines 225-244)

    The closure reads [critic_url], [repository_url], [kwargs], [ref],
    [value] and the current [deadline] of the enclosing [main]. *)
Record Ctx : Type := {
  c_url : string;
  c_remote : string;
  c_kwargs : Kwargs;
  c_ref : string;
  c_value : string
}.

Definition request_data (c : Ctx) (trigger : bool) : gmap string pyval :=
  let data : gmap string pyval :=
    <["remote" := PyStr (c_remote c)]>
    (<["name" := PyStr (c_ref c)]>
    (<["value" := PyStr (c_value c)]>
    (<["disable_remote_transform" := PyBool true]> ∅))) in
  if trigger then <["trigger" := PyBool true]> data else data.

Definition make_request (c : Ctx) (deadline t : Q) (trigger : bool) : Request :=
  {| rq_url := c_url c; rq_data := request_data c trigger;
     rq_timeout := ((deadline - t) + half)%Q; rq_kwargs := c_kwargs c |}.

(** Line 243: what [raise Exception("Request failed: " + data["error"])]
    raises. *)
Definition request_failed (data : gmap string pyval) : Exn :=
  match data !! "error" with
  | None => KeyError "error"
  | Some (PyStr msg) => PyException ("Request failed: " +:+ msg)
  | Some _ => TypeError
  end.

(** Lines 240-244: from the outcome of [requests.post] to the returned
    dictionary or the exception raised. *)
Definition check_response (r : PostResult) : Exn + gmap string pyval :=
  match r with
  | PostTimeout => inl Timeout
  | PostFails descr => inl (RequestError descr)
  | PostReturns resp =>
      if status_is_error resp then inl HTTPError
      else match content_json resp with
           | None => inl JSONDecodeError
           | Some (PyDict data) =>
               match data !! "status" with
               | None => inl (KeyError "status")
               | Some status =>
                   if is_ok status then inr data else inl (request_failed data)
               end
           | Some _ => inl TypeError
           end
  end.

Definition issue_request (c : Ctx) (deadline : Q) (trigger : bool) : Run (gmap string pyval) :=
  let data := request_data c trigger in
  print_debug_json (PyDict data) ;;
  t ← now AtRequest;
  r ← post (make_request c deadline t trigger);
  match check_response r with
  | inl e => raise e
  | inr data => mret data
  end.

(** *** The polling loop (lines 279-303) *)

(** One pass through the body of the [while] loop. *)
Definition poll_body (c : Ctx) (deadline : Q) : Run LoopCtl :=
  r ← try_except (data ← issue_request c deadline false; mret (Some data))
                 is_Timeout (fun _ => mret None);
  match r with
  | None => mret LoopContinue
  | Some data =>
      if has_key data "hook_output" then
        ok ← subscript data "update_successful";
        (if negb (truthy ok) then print_error "Critic rejected the update!" else mret tt) ;;
        out ← subscript data "hook_output";
        print_hook out ;;
        mret LoopBreak
      else if negb (has_key data "update_ongoing" || has_key data "update_pending") then
        print_progress "Update completed without output." ;;
        mret LoopBreak
      else
        t ← now AtRemaining;
        let remaining := (deadline - t)%Q in
        (if Qlt_le_dec 0%Q remaining then sleep (Qmin half remaining) else mret tt) ;;
        mret LoopContinue
  end.

(** [while time.time() < deadline: ... else: ...]; [fuel] bounds the number
    of passes the model follows. *)
Fixpoint poll_loop (fuel : nat) (c : Ctx) (deadline : Q) : Run unit :=
  match fuel with
  | O => out_of_fuel
  | S fuel' =>
      t ← now AtLoopTest;
      if Qlt_le_dec t deadline then
        ctl ← poll_body c deadline;
        match ctl with
        | LoopBreak => mret tt
        | LoopContinue => poll_loop fuel' c deadline
        end
      else print_progress "Timeout while waiting for update to complete."
  end.

(** *** [main] (lines 175-308) *)

(** Lines 263-303: the status flags of the initial response. [start] is
    the clock reading of line 222. *)
Definition status_flags (fuel : nat) (c : Ctx) (start : Q) (data : gmap string pyval) : Run unit :=
  if has_key data "disabled" then print_progress "Tracking is disabled!"
  else if has_key data "update_ongoing" then print_progress "Update already in progress."
  else if has_key data "update_pending" then print_progress "Update already scheduled."
  else if has_key data "update_triggered" then
    if negb (has_key data "review") then print_progress "Update scheduled."
    else
      print_progress "Update triggered; waiting for it to complete..." ;;
      let deadline := (start + inject_Z update_timeout)%Q in
      sleep half ;;
      poll_loop fuel c deadline
  else mret tt.

(** Lines 222-303: the body of [for ref, value in refs]. Both [continue]
    statements of that body end it. *)
Definition notify (fuel : nat) (c : Ctx) : Run unit :=
  start ← now AtStart;
  let deadline := (start + inject_Z connection_timeout)%Q in
  data ← try_except (issue_request c deadline true) is_Timeout
           (fun e =>
              print_error ("Timeout (" +:+ pretty connection_timeout +:+ "s) while notifying Critic!") ;;
              raise e);
  print_debug_json (PyDict data) ;;
  match data !! "review" with
  | Some v =>
      print_progress ("Review: " +:+ format_s v) ;;
      status_flags fuel c start data
  | None =>
      match data !! "branch" with
      | Some v =>
          print_progress ("Tracked branch: " +:+ format_s v) ;;
          status_flags fuel c start data
      | None => print_debug "Nothing to update!"
      end
  end.

Definition check_output_rev_parse (name : string) : Run string :=
  r ← rev_parse name;
  match r with
  | GitOutput out => mret out
  | GitExits => raise CalledProcessError
  | GitFails descr => raise (OSError descr)
  end.

Definition zero_sha : string := str_repeat "0" 40.

(** Lines 210-216: the value of the ref. *)
Definition resolve_value (args : Args) : Run string :=
  try_except
    (if str_truthy (sha args)
     then mret (default "" (sha args))
     else out ← check_output_rev_parse (ref args); mret (str_strip out))
    is_CalledProcessError
    (fun _ => mret zero_sha).

Definition endpoint (url : string) : string :=
  (if endswith_slash url then url else url +:+ "/") +:+ "UpdateTrackedBranch/githook".

Definition make_kwargs (args : Args) : Kwargs :=
  {| kw_auth := if (str_truthy (username args) && str_truthy (password args))%bool
                then Some (default "" (username args), default "" (password args))
                else None;
     kw_verify := verify args |}.

Definition main (fuel : nat) (args : Args) : Run unit :=
  set_debug (debug args) ;;
  (if String.eqb (critic_url args) ""
   then print_error "No Critic URL set!" ;; raise (SystemExit 1)
   else mret tt) ;;
  try_except
    (value ← resolve_value args;
     let refs := [(ref args, value)] in
     print_debug (str_refs refs) ;;
     for_each refs (fun '(name, value) =>
       notify fuel {| c_url := endpoint (critic_url args);
                      c_remote := repository_url args;
                      c_kwargs := make_kwargs args;
                      c_ref := name;
                      c_value := value |}))
    is_Exception
    (fun e =>
       print_debug "Exception:" ;;
       print_debug (format_exc e) ;;
       raise e).

(** The call [main(args)] of line 311 from a world [w]: its outcome and
    the events it makes. The module-level [debug] is [False] until [main]
    sets it. *)
Definition run (fuel : nat) (args : Args) (w : W) : Outcome unit * list Event :=
  let '(o, _, tr) := main fuel args {| world := w; g_debug := false |} in (o, tr).

(** [pars_arguments] (lines 135-173) from line 170 on, where
    [parser.parse_args()] has returned [parsed]: the function logs
    [str(args)] as a debug line and returns. *)
Definition pars_arguments (parsed : Args) : Run Args :=
  print_debug (str_args parsed) ;;
  mret parsed.

(** Line 311, [main(pars_arguments())], for a command line that
    [argparse] accepts as [parsed]. *)
Definition script (fuel : nat) (parsed : Args) (w : W) : Outcome unit * list Event :=
  let '(o, _, tr) :=
    (args ← pars_arguments parsed; main fuel args) {| world := w; g_debug := false |} in
  (o, tr).
End Notifier.

(** ** Views of a trace *)

(** The calls of [requests.post], in order. *)
Fixpoint posts (tr : list Event) : list (Request * PostResult) :=
  match tr with
  | [] => []
  | EvPost rq r :: rest => (rq, r) :: posts rest
  | _ :: rest => posts rest
  end.

(** The invocations of git. *)
Fixpoint rev_parses (tr : list Event) : list (string * GitResult) :=
  match tr with
  | [] => []
  | EvRevParse name r :: rest => (name, r) :: rev_parses rest
  | _ :: rest => rev_parses rest
  end.

(** The clock readings taken at [site]. *)
Fixpoint readings (site : ClockSite) (tr : list Event) : list Q :=
  match tr with
  | [] => []
  | EvTime s t :: rest =>
      match site, s with
      | AtStart, AtStart | AtRequest, AtRequest
      | AtLoopTest, AtLoopTest | AtRemaining, AtRemaining => t :: readings site rest
      | _, _ => readings site rest
      end
  | _ :: rest => readings site rest
  end.

(** The lines appended to the in-memory log. *)
Fixpoint log_lines (tr : list Event) : list string :=
  match tr with
  | [] => []
  | EvLog line _ :: rest => line :: log_lines rest
  | _ :: rest => log_lines rest
  end.

(** The lines written to standard output. *)
Fixpoint stdout (tr : list Event) : list string :=
  match tr with
  | [] => []
  | EvLog line true :: rest => line :: stdout rest
  | _ :: rest => stdout rest
  end.

Definition is_debug_line (line : string) : bool := String.prefix "[critic:debug] " line.

(** The progress, hook and error lines: every logged line that does not
    carry the debug tag. They are written whatever the [debug] flag. *)
Fixpoint reports (tr : list Event) : list string :=
  match tr with
  | [] => []
  | EvLog line _ :: rest =>
      if is_debug_line line then reports rest else line :: reports rest
  | _ :: rest => reports rest
  end.

(** A request of the polling phase: its body has no [trigger] field. *)
Definition is_poll (rq : Request) : Prop := rq_data rq !! "trigger" = None.

(** The lines [print_progress], [print_error] and [print_hook] produce. *)
Definition progress_lines (message : string) : list string :=
  map (fun line => "[critic] " +:+ bytes_str line) (splitlines message).

Definition error_lines (message : string) : list string :=
  map (fun line => "[critic:error] " +:+ bytes_str line) (splitlines message).

(** The lines [print_progress] and [print_hook] produce before they come
    to a line of the message that cannot be encoded. *)
Definition progress_lines_cut (message : string) : list string :=
  map (fun line => "[critic] " +:+ bytes_str line) (encoded_prefix (splitlines message)).

Definition hook_lines (message : string) : list string :=
  hook_rule :: progress_lines message ++ [hook_rule].

(** ** A simulated world, to run the script on concrete exchanges *)

(** The clock advances by the latency of each HTTP exchange and by each
    sleep; the server answers from a script and refuses the connection once
    the script is used up. *)
Record SimWorld : Type := {
  sim_clock : Q;
  sim_git : GitResult;
  sim_replies : list (Q * PostResult)
}.

#[global] Instance sim_environment : Environment SimWorld := {|
  time_time w := (sim_clock w, w);
  time_sleep d w :=
    {| sim_clock := Qred (sim_clock w + d); sim_git := sim_git w; sim_replies := sim_replies w |};
  requests_post _ w :=
    match sim_replies w with
    | [] => (PostFails "connection refused", w)
    | (latency, r) :: rest =>
        (r, {| sim_clock := Qred (sim_clock w + latency); sim_git := sim_git w; sim_replies := rest |})
    end;
  git_rev_parse _ w := (sim_git w, w)
|}.

#[global] Instance sim_runtime : PyRuntime := {|
  json_dumps _ := "{...}";
  str_value _ := "<value>";
  str_refs _ := "[...]";
  str_args _ := "Namespace(...)";
  format_exc _ := "Traceback (most recent call last): ...";
  json_dumps_encodable _ := eq_refl;
  str_value_encodable _ := eq_refl;
  str_refs_encodable _ := eq_refl;
  str_args_encodable _ := eq_refl;
  format_exc_encodable _ := eq_refl
|}.

Definition json_reply (fields : list (string * pyval)) : PostResult :=
  PostReturns {| status_is_error := false; content_json := Some (PyDict (list_to_map fields)) |}.

Definition sim_args (sha : option string) (debug : bool) : Args :=
  {| critic_url := "http://critic.example.org"; repository_url := "git@example.org:u/r.git";
     ref := "refs/heads/master"; sha := sha; username := None; password := None;
     debug := debug; verify := false |}.

Definition sim_world (git : GitResult) (replies : list (Q * PostResult)) : SimWorld :=
  {| sim_clock := 1000%Q; sim_git := git; sim_replies := replies |}.

(** ** The behaviours of a run, as traces

    What the script can do, told without the state of the world: every
    result the world hands back stands in the trace.  The predicates below
    follow [poll_body], [poll_loop], [notify] and [main] case by case;
    [run_behaves] proves that every run of [main] is one of these
    behaviours. *)
Section Behaviour.
Context `{!PyRuntime}.

Definition dbg_events (dbg : bool) (message : string) : list Event :=
  map (fun line => EvLog ("[critic:debug] " +:+ bytes_str line) dbg)
      (splitlines message).

Definition prog_events (message : string) : list Event :=
  map (fun line => EvLog ("[critic] " +:+ bytes_str line) true)
      (splitlines message).

Definition err_events (message : string) : list Event :=
  map (fun line => EvLog ("[critic:error] " +:+ bytes_str line) true)
      (splitlines message).

Definition hook_events (message : string) : list Event :=
  EvLog hook_rule true :: prog_events message ++ [EvLog hook_rule true].

(** The progress lines logged before [print_progress] or [print_hook]
    comes to a line it cannot encode. *)
Definition prog_cut (message : string) : list Event :=
  map (fun line => EvLog ("[critic] " +:+ bytes_str line) true)
      (encoded_prefix (splitlines message)).

(** Lines 305-306 of the outer handler. *)
Definition exc_events (dbg : bool) (e : Exn) : list Event :=
  dbg_events dbg "Exception:" ++ dbg_events dbg (format_exc e).

(** Line 289-290. *)
Definition reject_events (ok : pyval) : list Event :=
  if negb (truthy ok) then err_events "Critic rejected the update!" else [].

(** The events of [issue_request]: the debug dump of the request, the
    clock reading [t] of line 238 and the call with its result [r]. *)
Definition request_events (c : Ctx) (dbg : bool) (deadline t : Q) (trigger : bool)
    (r : PostResult) : list Event :=
  dbg_events dbg (json_dumps (PyDict (request_data c trigger))) ++
  [EvTime AtRequest t; EvPost (make_request c deadline t trigger) r].

(** A pass of the polling loop whose request returned [r] ends the loop
    unless [pass_end r] is [None]: by [break] (outcome [Ok tt]) or by an
    exception, after the events given.  [print_hook] fails at the first
    line of the hook output that cannot be encoded. *)
Definition pass_end (r : PostResult) : option (Outcome unit * list Event) :=
  match check_response r with
  | inl e => if is_Timeout e then None else Some (Raised e, [])
  | inr data =>
      if has_key data "hook_output" then
        match data !! "update_successful" with
        | None => Some (Raised (KeyError "update_successful"), [])
        | Some ok =>
            match data !! "hook_output" with
            | Some (PyStr out) =>
                if all_encodable (splitlines out)
                then Some (Ok tt, reject_events ok ++ hook_events out)
                else Some (Raised UnicodeEncodeError,
                           reject_events ok ++ EvLog hook_rule true :: prog_cut out)
            | _ => Some (Raised AttributeError, reject_events ok ++ [EvLog hook_rule true])
            end
        end
      else if negb (has_key data "update_ongoing" || has_key data "update_pending") then
        Some (Ok tt, prog_events "Update completed without output.")
      else None
  end.

(** The events that follow the request in a pass that goes back to the
    loop test: none after a timeout (line 286), else the clock reading of
    line 298 and the sleep of line 301. *)
Definition pass_wait (deadline : Q) (r : PostResult) (tail : list Event) : Prop :=
  match check_response r with
  | inl _ => tail = []
  | inr _ =>
      exists t,
        tail = EvTime AtRemaining t ::
               (if Qlt_le_dec 0%Q (deadline - t)%Q
                then [EvSleep (Qmin half (deadline - t)%Q)] else [])
  end.

(** The polling loop followed for at most [fuel] passes. *)
Inductive poll_run (c : Ctx) (deadline : Q) (dbg : bool) :
    nat -> Outcome unit -> list Event -> Prop :=
  | poll_run_fuel : poll_run c deadline dbg 0 OutOfFuel []
  | poll_run_deadline n t :
      (deadline <= t)%Q ->
      poll_run c deadline dbg (S n) (Ok tt)
        (EvTime AtLoopTest t ::
         prog_events "Timeout while waiting for update to complete.")
  | poll_run_stop n t t' r o tail :
      (t < deadline)%Q ->
      pass_end r = Some (o, tail) ->
      poll_run c deadline dbg (S n) o
        (EvTime AtLoopTest t :: request_events c dbg deadline t' false r ++ tail)
  | poll_run_again n t t' r tail o rest :
      (t < deadline)%Q ->
      pass_end r = None ->
      pass_wait deadline r tail ->
      poll_run c deadline dbg n o rest ->
      poll_run c deadline dbg (S n) o
        (EvTime AtLoopTest t :: request_events c dbg deadline t' false r ++ tail ++ rest).

(** The message of line 256 or 258. *)
Definition found_message (data : gmap string pyval) : string :=
  match data !! "review" with
  | Some v => "Review: " +:+ format_s v
  | None =>
      match data !! "branch" with
      | Some v => "Tracked branch: " +:+ format_s v
      | None => ""
      end
  end.

(** Lines 263-303 on the initial response [data]. *)
Definition flags_result (fuel : nat) (c : Ctx) (dbg : bool) (start : Q)
    (data : gmap string pyval) (o : Outcome unit) (tail : list Event) : Prop :=
  if has_key data "disabled" then
    o = Ok tt /\ tail = prog_events "Tracking is disabled!"
  else if has_key data "update_ongoing" then
    o = Ok tt /\ tail = prog_events "Update already in progress."
  else if has_key data "update_pending" then
    o = Ok tt /\ tail = prog_events "Update already scheduled."
  else if has_key data "update_triggered" then
    if negb (has_key data "review") then
      o = Ok tt /\ tail = prog_events "Update scheduled."
    else
      exists polling,
        poll_run c (start + inject_Z update_timeout)%Q dbg fuel o polling /\
        tail = prog_events "Update triggered; waiting for it to complete..." ++
               EvSleep half :: polling
  else o = Ok tt /\ tail = [].

(** Lines 246-303 after the initial request returned [r]. *)
Definition initial_result (fuel : nat) (c : Ctx) (dbg : bool) (start : Q)
    (r : PostResult) (o : Outcome unit) (tail : list Event) : Prop :=
  match check_response r with
  | inl e =>
      o = Raised e /\
      tail = (if is_Timeout e
              then err_events ("Timeout (" +:+ pretty connection_timeout +:+
                               "s) while notifying Critic!")
              else [])
  | inr data =>
      exists rest,
        tail = dbg_events dbg (json_dumps (PyDict data)) ++ rest /\
        if (has_key data "review" || has_key data "branch")%bool then
          if all_encodable (splitlines (found_message data)) then
            exists rest',
              rest = prog_events (found_message data) ++ rest' /\
              flags_result fuel c dbg start data o rest'
          else o = Raised UnicodeEncodeError /\ rest = prog_cut (found_message data)
        else o = Ok tt /\ rest = dbg_events dbg "Nothing to update!"
  end.

(** Lines 210-219: how the value of the ref was found, and the events of
    that stage. *)
Definition resolved (args : Args) (value : string) (pre : list Event) : Prop :=
  if str_truthy (sha args) then
    sha args = Some value /\ pre = dbg_events (debug args) (str_refs [(ref args, value)])
  else
    exists g,
      pre = EvRevParse (ref args) g :: dbg_events (debug args) (str_refs [(ref args, value)]) /\
      match g with
      | GitOutput out => value = str_strip out
      | GitExits => value = zero_sha
      | GitFails _ => False
      end.

Definition make_ctx (args : Args) (value : string) : Ctx :=
  {| c_url := endpoint (critic_url args); c_remote := repository_url args;
     c_kwargs := make_kwargs args; c_ref := ref args; c_value := value |}.

(** The events of the outer handler (lines 304-308). *)
Definition handler_events (dbg : bool) (o : Outcome unit) : list Event :=
  match o with
  | Raised e => if is_Exception e then exc_events dbg e else []
  | _ => []
  end.

(** A whole run. *)
Definition run_behaviour (fuel : nat) (args : Args) (o : Outcome unit)
    (tr : list Event) : Prop :=
  (critic_url args = "" /\ o = Raised (SystemExit 1) /\
   tr = err_events "No Critic URL set!") \/
  (critic_url args <> "" /\ str_truthy (sha args) = false /\
   exists descr,
     o = Raised (OSError descr) /\
     tr = EvRevParse (ref args) (GitFails descr) :: exc_events (debug args) (OSError descr)) \/
  (critic_url args <> "" /\
   exists value pre start t r tail,
     resolved args value pre /\
     initial_result fuel (make_ctx args value) (debug args) start r o tail /\
     tr = pre ++ EvTime AtStart start ::
          request_events (make_ctx args value) (debug args)
            (start + inject_Z connection_timeout)%Q t true r ++
          tail ++ handler_events (debug args) o).
End Behaviour.

(** ** Statements about the requests of a trace *)

(** [each_post R tr]: every call of [requests.post] in [tr], with its
    request [rq], its result [r] and the events [rest] that follow it,
    satisfies [R rq r rest]. *)
Fixpoint each_post (R : Request -> PostResult -> list Event -> Prop) (tr : list Event) : Prop :=
  match tr with
  | [] => True
  | EvPost rq r :: rest => R rq r rest /\ each_post R rest
  | _ :: rest => each_post R rest
  end.

(** A response parsed without error whose [status] is ["ok"], with its
    dictionary. *)
Definition ok_response (r : PostResult) (data : gmap string pyval) : Prop :=
  check_response r = inr data.


(** The value a request carries for the ref. *)
Definition carries_value (value : string) (p : Request * PostResult) : Prop :=
  rq_data p.1 !! "value" = Some (PyStr value).

(** What holds after a request of the polling phase whose response ends
    the loop: the run has the outcome of that ending, makes no further
    request and reports what the ending reports. *)
Definition poll_law `{!PyRuntime} (o : Outcome unit) (rq : Request) (r : PostResult)
    (rest : list Event) : Prop :=
  is_poll rq ->
  forall o' tail, pass_end r = Some (o', tail) ->
    o = o' /\ posts rest = [] /\ reports rest = reports tail.

(** What holds after a request of the polling phase that times out: the
    loop test is evaluated next, unless the model stops following the run
    right there. *)
Definition timeout_law (o : Outcome unit) (rq : Request) (r : PostResult)
    (rest : list Event) : Prop :=
  is_poll rq -> r = PostTimeout ->
  (rest = [] /\ o = OutOfFuel) \/ exists t rest', rest = EvTime AtLoopTest t :: rest'.

(** What holds after the initial request when [issue_request] raises. *)
Definition initial_law (o : Outcome unit) (rq : Request) (r : PostResult)
    (rest : list Event) : Prop :=
  ~ is_poll rq ->
  forall e, check_response r = inl e ->
    o = Raised e /\ posts rest = [] /\
    reports rest = if is_Timeout e
                   then ["[critic:error] b'Timeout (5s) while notifying Critic!'"]
                   else [].

(** ** Sample exchanges, run in the simulated world *)

Definition a_sha : string := "9fceb02d0ae598e95dc970b74767f19372d61af8".

Definition ok_status : string * pyval := ("status", PyStr "ok").

Definition triggered_fields : list (string * pyval) :=
  [ok_status; ("review", PyStr "R1"); ("update_triggered", PyBool true)].

Definition ongoing_fields : list (string * pyval) :=
  [ok_status; ("update_ongoing", PyBool true)].

(** The request named in the spec's scenario, then one poll answered
    "ongoing" and one answered with a rejected update. *)
Definition rejected_fields : list (string * pyval) :=
  [ok_status; ("hook_output", PyStr ("line1" +:+ String "010" "line2"));
   ("update_successful", PyBool false)].

(** The second response of the spec's scenario. *)
Definition accepted_fields : list (string * pyval) :=
  [ok_status; ("hook_output", PyStr ("line1" +:+ String "010" "line2"));
   ("update_successful", PyBool true)].

Definition accepted_world : SimWorld :=
  sim_world GitExits [(1%Q, json_reply triggered_fields); ((1 # 10)%Q, json_reply accepted_fields)].

Definition rejected_world : SimWorld :=
  sim_world GitExits
    [(1%Q, json_reply triggered_fields); ((1 # 10)%Q, json_reply ongoing_fields);
     ((1 # 10)%Q, json_reply rejected_fields)].

(** A poll response with [hook_output] and no [update_successful]. *)
Definition unflagged_fields : list (string * pyval) :=
  [ok_status; ("hook_output", PyStr "done")].

Definition unflagged_world : SimWorld :=
  sim_world GitExits
    [(1%Q, json_reply triggered_fields); ((1 # 10)%Q, json_reply unflagged_fields)].



(** An initial response that has [review], [update_triggered] and
    [disabled]. *)
Definition disabled_fields : list (string * pyval) :=
  [ok_status; ("review", PyStr "R1"); ("update_triggered", PyBool true);
   ("disabled", PyBool true)].

Definition disabled_world : SimWorld :=
  sim_world GitExits
    [(1%Q, json_reply disabled_fields); ((1 # 10)%Q, json_reply rejected_fields)].

(** An initial response that arrives 40 seconds after the request. *)
Definition late_world : SimWorld :=
  sim_world GitExits
    [(40%Q, json_reply triggered_fields); ((1 # 10)%Q, json_reply rejected_fields)].

(** A response whose status is not ["ok"]. *)
Definition failed_fields : list (string * pyval) :=
  [("status", PyStr "error"); ("error", PyStr "no such repository");
   ("review", PyStr "R1"); ("update_triggered", PyBool true)].

Definition failed_world : SimWorld := sim_world GitExits [(1%Q, json_reply failed_fields)].




(** A response without [review] and [branch]. *)
Definition idle_fields : list (string * pyval) :=
  [ok_status; ("update_triggered", PyBool true); ("hook_output", PyStr "x")].

Definition idle_world : SimWorld := sim_world GitExits [(1%Q, json_reply idle_fields)].


(** git answers with a commit id. *)
Definition resolving_world : SimWorld :=
  sim_world (GitOutput "52b1e1ac0bd1b2dd43e3bd06b4c1a0ff4dc6d9ae") [(1%Q, json_reply idle_fields)].

(** The initial request of the sample runs: the clock of the simulated
    world reads 1000 until the first response. *)
Definition sample_request (args : Args) (value : string) : Request :=
  make_request (make_ctx args value) (1000 + inject_Z connection_timeout)%Q 1000%Q true.

(** The lone surrogate U+D800, as [json.loads] yields it from the escape
    [\ud800]. *)
Definition lone_surrogate : string := String "237" (String "160" (String "128" "")).



(** An initial response that would start the polling, but for the lone
    surrogate in its review id. *)
Definition unencodable_triggered_fields : list (string * pyval) :=
  [ok_status; ("review", PyStr ("R" +:+ lone_surrogate)); ("update_triggered", PyBool true)].

Definition unencodable_triggered_world : SimWorld :=
  sim_world GitExits
    [(1%Q, json_reply unencodable_triggered_fields); ((1 # 10)%Q, json_reply accepted_fields)].



(** git answers as it does, with the commit id and a line feed. *)
Definition newline_world : SimWorld :=
  sim_world (GitOutput ("52b1e1ac0bd1b2dd43e3bd06b4c1a0ff4dc6d9ae" +:+ String "010" ""))
    [(1%Q, json_reply idle_fields)].

(** A command line with an empty Critic URL. *)
Definition no_url_args : Args :=
  {| critic_url := ""; repository_url := "git@example.org:u/r.git";
     ref := "refs/heads/master"; sha := Some a_sha; username := None; password := None;
     debug := false; verify := false |}.

(** A machine without git. *)
Definition broken_git_world : SimWorld :=
  sim_world (GitFails "[Errno 2] No such file or directory: 'git'") [].



(** An update that completes without hook output, after one poll answered
    "ongoing". *)
Definition completed_world : SimWorld :=
  sim_world GitExits
    [(1%Q, json_reply triggered_fields); ((1 # 10)%Q, json_reply ongoing_fields);
     ((1 # 10)%Q, json_reply [ok_status])].

(** A poll response whose [hook_output] is JSON [null]. *)
Definition null_hook_fields : list (string * pyval) :=
  [ok_status; ("hook_output", PyNone); ("update_successful", PyBool false)].

Definition null_hook_world : SimWorld :=
  sim_world GitExits
    [(1%Q, json_reply triggered_fields); ((1 # 10)%Q, json_reply null_hook_fields)].

(** An initial response with [review] and [branch] and no flag. *)
Definition plain_fields : list (string * pyval) :=
  [ok_status; ("review", PyStr "R1"); ("branch", PyStr "B1")].

Definition plain_world : SimWorld := sim_world GitExits [(1%Q, json_reply plain_fields)].

(** An initial response whose review id is a number. *)
Definition numbered_fields : list (string * pyval) := [ok_status; ("review", PyInt 42)].

Definition numbered_world : SimWorld :=
  sim_world GitExits [(1%Q, json_reply numbered_fields)].

(** ** The events a run is made of *)

(** The durations of the calls of [time.sleep]. *)
Fixpoint sleeps (tr : list Event) : list Q :=
  match tr with
  | [] => []
  | EvSleep d :: rest => d :: sleeps rest
  | _ :: rest => sleeps rest
  end.

(** The timeouts given to the calls of [requests.post]. *)
Definition timeouts (tr : list Event) : list Q :=
  map (fun p : Request * PostResult => rq_timeout p.1) (posts tr).

(** Whether a clock reading [t] is before [deadline]: the test of line
    279. *)
Definition before (deadline t : Q) : bool :=
  if Qlt_le_dec t deadline then true else false.

(** What holds after a request of the polling phase whose response says
    that the update is still ongoing or pending (lines 298-301): the clock
    is read, the script sleeps when time remains, and the loop test is
    evaluated next, unless the model stops following the run there. *)
Definition wait_law (deadline : Q) (o : Outcome unit) (rq : Request) (r : PostResult)
    (rest : list Event) : Prop :=
  is_poll rq ->
  forall data, check_response r = inr data ->
    has_key data "hook_output" = false ->
    (has_key data "update_ongoing" || has_key data "update_pending")%bool = true ->
    exists t rest',
      rest = EvTime AtRemaining t ::
             (if Qlt_le_dec 0%Q (deadline - t)%Q
              then [EvSleep (Qmin half (deadline - t)%Q)] else []) ++ rest' /\
      ((rest' = [] /\ o = OutOfFuel) \/ exists t' rest'', rest' = EvTime AtLoopTest t' :: rest'').

(** The command line with another value of [--debug]. *)
Definition with_debug (args : Args) (b : bool) : Args :=
  {| critic_url := critic_url args; repository_url := repository_url args;
     ref := ref args; sha := sha args; username := username args;
     password := password args; debug := b; verify := verify args |}.

(** An event without its print flag. *)
Definition unprinted (ev : Event) : Event :=
  match ev with
  | EvLog line _ => EvLog line false
  | _ => ev
  end.

(** Two computations that, from states with the same outside world, have
    the same outcome, leave the same world and make the same events but for
    the print flags of the lines they log. *)
Definition alike {W : Type} {A : Type} (m m' : @Run W A) : Prop :=
  forall st st' : @State W,
    world st = world st' ->
    (m st).1.1 = (m' st').1.1 /\
    world (m st).1.2 = world (m' st').1.2 /\
    map unprinted (m st).2 = map unprinted (m' st').2.

(** Text of printable ASCII characters (0x20 to 0x7e). *)
Definition printable_char (c : ascii) : bool :=
  (Nat.leb 32 (nat_of_ascii c) && Nat.leb (nat_of_ascii c) 126)%bool.

Fixpoint printable (s : string) : bool :=
  match s with
  | "" => true
  | String c rest => (printable_char c && printable rest)%bool
  end.

(** The events of a run with arguments [args], once the value of the ref
    is [value] and the clock of line 222 read [start]: the calls the script
    makes, with the arguments it gives them. *)
Inductive script_event (args : Args) (value : string) (start : Q) : Event -> Prop :=
  | ev_debug line :
      script_event args value start
        (EvLog ("[critic:debug] " +:+ bytes_str line) (debug args))
  | ev_progress line :
      script_event args value start
        (EvLog ("[critic] " +:+ bytes_str line) true)
  | ev_error line :
      script_event args value start
        (EvLog ("[critic:error] " +:+ bytes_str line) true)
  | ev_rule : script_event args value start (EvLog hook_rule true)
  | ev_time site t : script_event args value start (EvTime site t)
  | ev_sleep_first : script_event args value start (EvSleep half)
  | ev_sleep remaining :
      (0 < remaining)%Q ->
      script_event args value start (EvSleep (Qmin half remaining))
  | ev_rev_parse g :
      str_truthy (sha args) = false ->
      script_event args value start (EvRevParse (ref args) g)
  | ev_initial t r :
      script_event args value start
        (EvPost (make_request (make_ctx args value)
                   (start + inject_Z connection_timeout)%Q t true) r)
  | ev_poll t r :
      script_event args value start
        (EvPost (make_request (make_ctx args value)
                   (start + inject_Z update_timeout)%Q t false) r).

(** * Properties *)

(** ** The runtime functions on examples *)

Example splitlines_two : splitlines ("line1" +:+ String "010" "line2") = ["line1"; "line2"].
Proof. reflexivity. Qed.

Example splitlines_breaks :
  splitlines (String "013" (String "010" ("a" +:+ String "013" ("b" +:+ String "010" "")))) =
  [""; "a"; "b"].
Proof. reflexivity. Qed.

Example splitlines_empty : splitlines "" = [].
Proof. reflexivity. Qed.

Example bytes_str_text : bytes_str "Review: R1" = "b'Review: R1'".
Proof. reflexivity. Qed.

Example bytes_str_escapes :
  bytes_str (String "195" (String "169" "\it's")) =
  String "b" (String dquote ("\xc3\xa9\\it's" +:+ String dquote "")).
Proof. reflexivity. Qed.

Example str_strip_output :
  str_strip ("52b1e1ac0bd1b2dd43e3bd06b4c1a0ff4dc6d9ae" +:+ String "010" "") =
  "52b1e1ac0bd1b2dd43e3bd06b4c1a0ff4dc6d9ae".
Proof. reflexivity. Qed.

Example str_strip_both_ends :
  str_strip (String "009" (" a b" +:+ String "194" (String "160" (String "013" (String "010" ""))))) =
  "a b".
Proof. reflexivity. Qed.

Example str_strip_blank : str_strip (String "010" " ") = "".
Proof. reflexivity. Qed.

Example has_surrogate_lone :
  encodable ("R" +:+ lone_surrogate) = false /\
  encodable ("caf" +:+ String "195" (String "169" "")) = true /\
  encodable (String "237" (String "159" (String "191" ""))) = true.
Proof. repeat split. Qed.

Example endpoint_slash :
  endpoint "http://critic/" = "http://critic/UpdateTrackedBranch/githook" /\
  endpoint "http://critic" = "http://critic/UpdateTrackedBranch/githook".
Proof. split; reflexivity. Qed.



(** ** Every run is one of the behaviours *)
Section Adequacy.
Context {W : Type} `{!Environment W} `{!PyRuntime}.

Local Abbreviation St := (@State W).

Lemma bind_run {A B} (m : @Run W A) (f : A -> @Run W B) (st : St) :
  (m ≫= f) st =
  match m st with
  | (Ok a, st', tr) => let '(r, st'', tr') := f a st' in (r, st'', tr ++ tr')
  | (Raised e, st', tr) => (Raised e, st', tr)
  | (OutOfFuel, st', tr) => (OutOfFuel, st', tr)
  end.
Proof. reflexivity. Qed.

(** Runs the binds, returns and raises at the head of a computation. *)
Ltac run_simpl :=
  repeat first
    [ rewrite bind_run
    | progress cbn [print_and_log mret run_ret raise out_of_fuel get_debug
                    set_debug world g_debug app] ].

Lemma encode_run (line : string) (st : St) :
  encode line st =
  if encodable line then (Ok line, st, []) else (Raised UnicodeEncodeError, st, []).
Proof. unfold encode, encode_utf8. now destruct (encodable line). Qed.

Lemma encoded_prefix_all (lines : list string) :
  all_encodable lines = true -> encoded_prefix lines = lines.
Proof.
  induction lines as [|line lines IH]; [reflexivity|].
  cbn [all_encodable forallb encoded_prefix]. intros Hall.
  apply andb_prop in Hall as (-> & Hall). now rewrite (IH Hall).
Qed.

Lemma prog_cut_all (message : string) :
  all_encodable (splitlines message) = true -> prog_cut message = prog_events message.
Proof. intros Hall. unfold prog_cut, prog_events. now rewrite (encoded_prefix_all _ Hall). Qed.

(** A printing loop logs the lines before the first one it cannot encode,
    and raises at that one. *)
Lemma for_each_log (tag : string) (b : bool) (lines : list string) (st : St) :
  for_each lines (fun line =>
    bts ← encode line; print_and_log (tag +:+ bytes_str bts) b) st =
  (if all_encodable lines then Ok tt else Raised UnicodeEncodeError, st,
   map (fun line => EvLog (tag +:+ bytes_str line) b) (encoded_prefix lines)).
Proof.
  induction lines as [|line lines IH]; [reflexivity|].
  cbn [for_each all_encodable forallb encoded_prefix].
  rewrite bind_run, (bind_run (encode line)), encode_run.
  destruct (encodable line); [|reflexivity].
  cbn [print_and_log andb app]. fold (all_encodable lines). rewrite IH.
  now destruct (all_encodable lines).
Qed.

Lemma print_debug_cut (message : string) (st : St) :
  print_debug message st =
  (if all_encodable (splitlines message) then Ok tt else Raised UnicodeEncodeError, st,
   map (fun line => EvLog ("[critic:debug] " +:+ bytes_str line) (g_debug st))
       (encoded_prefix (splitlines message))).
Proof.
  unfold print_debug.
  induction (splitlines message) as [|line lines IH]; [reflexivity|].
  cbn [for_each all_encodable forallb encoded_prefix].
  rewrite bind_run, (bind_run (encode line)), encode_run.
  destruct (encodable line); [|reflexivity].
  rewrite (bind_run get_debug).
  cbn [get_debug print_and_log andb app]. fold (all_encodable lines). rewrite IH.
  now destruct (all_encodable lines).
Qed.

Lemma print_debug_run (message : string) (st : St) :
  all_encodable (splitlines message) = true ->
  print_debug message st = (Ok tt, st, dbg_events (g_debug st) message).
Proof.
  intros Hall. rewrite print_debug_cut, Hall. unfold dbg_events.
  now rewrite (encoded_prefix_all _ Hall).
Qed.

Lemma print_progress_cut (message : string) (st : St) :
  print_progress message st =
  (if all_encodable (splitlines message) then Ok tt else Raised UnicodeEncodeError, st,
   prog_cut message).
Proof. apply (for_each_log "[critic] " true). Qed.

Lemma print_progress_run (message : string) (st : St) :
  all_encodable (splitlines message) = true ->
  print_progress message st = (Ok tt, st, prog_events message).
Proof. intros Hall. now rewrite print_progress_cut, Hall, (prog_cut_all _ Hall). Qed.

Lemma print_error_run (message : string) (st : St) :
  all_encodable (splitlines message) = true ->
  print_error message st = (Ok tt, st, err_events message).
Proof.
  intros Hall. unfold print_error, err_events.
  rewrite (for_each_log "[critic:error] " true), Hall.
  now rewrite (encoded_prefix_all _ Hall).
Qed.

Lemma print_hook_run (message : pyval) (st : St) :
  print_hook message st =
  match message with
  | PyStr s =>
      if all_encodable (splitlines s) then (Ok tt, st, hook_events s)
      else (Raised UnicodeEncodeError, st, EvLog hook_rule true :: prog_cut s)
  | _ => (Raised AttributeError, st, [EvLog hook_rule true])
  end.
Proof.
  unfold print_hook, hook_events.
  destruct message; try reflexivity.
  run_simpl. rewrite (for_each_log "[critic] " true).
  destruct (all_encodable (splitlines s)) eqn:Hall; run_simpl; [|reflexivity].
  unfold prog_events. now rewrite (encoded_prefix_all _ Hall).
Qed.

(** The texts of the runtime and the script's own messages can be
    encoded. *)
Ltac encodes :=
  first [ apply json_dumps_encodable | apply str_refs_encodable | apply str_args_encodable
        | apply format_exc_encodable | reflexivity ].

Lemma issue_request_run (c : Ctx) (deadline : Q) (trigger : bool) (st : St) :
  exists t r st',
    issue_request c deadline trigger st =
    (match check_response r with inl e => Raised e | inr data => Ok data end,
     st', request_events c (g_debug st) deadline t trigger r) /\
    g_debug st' = g_debug st.
Proof.
  unfold issue_request, print_debug_json, request_events.
  rewrite ?bind_run, print_debug_run, ?bind_run by encodes. unfold now at 1.
  destruct (time_time (world st)) as [t w1].
  rewrite ?bind_run. unfold post at 1. cbn [world g_debug].
  destruct (requests_post (make_request c deadline t trigger) w1) as [r w2].
  exists t, r, {| world := w2; g_debug := g_debug st |}.
  split; [|reflexivity].
  destruct (check_response r); reflexivity.
Qed.
Lemma subscript_run (d : gmap string pyval) (key : string) (st : St) :
  subscript d key st =
  (match d !! key with Some v => Ok v | None => Raised (KeyError key) end, st, []).
Proof. unfold subscript. destruct (d !! key); reflexivity. Qed.

Lemma poll_body_run (c : Ctx) (deadline : Q) (st : St) :
  exists t r tail o st',
    poll_body c deadline st =
      (o, st', request_events c (g_debug st) deadline t false r ++ tail) /\
    match pass_end r with
    | Some (o', tail') =>
        tail = tail' /\ o' = match o with Ok _ => Ok tt | Raised e => Raised e | OutOfFuel => OutOfFuel end /\
        o <> Ok LoopContinue
    | None => o = Ok LoopContinue /\ pass_wait deadline r tail
    end /\
    g_debug st' = g_debug st.
Proof.
  destruct (issue_request_run c deadline false st) as (t & r & st1 & E & Hd).
  exists t, r.
  unfold poll_body, pass_end, pass_wait. rewrite ?bind_run. unfold try_except.
  rewrite ?bind_run, E.
  destruct (check_response r) as [e|data].
  - destruct (is_Timeout e) eqn:Et; run_simpl.
    + exists [], (Ok LoopContinue), st1. rewrite !app_nil_r. auto.
    + exists [], (Raised e), st1. rewrite !app_nil_r.
      split; [reflexivity|]. split; [|assumption]. repeat split. discriminate.
  - run_simpl. rewrite !app_nil_r.
    destruct (has_key data "hook_output") eqn:Hh.
    + rewrite ?bind_run, subscript_run.
      destruct (data !! "update_successful") as [ok|]; run_simpl.
      2:{ exists [], (Raised (KeyError "update_successful")), st1.
          rewrite !app_nil_r. split; [reflexivity|]. split; [|assumption].
          repeat split. discriminate. }
      assert (Hr : (if negb (truthy ok)
                    then print_error "Critic rejected the update!" else mret tt) st1 =
                   (Ok tt, st1, reject_events ok)).
      { unfold reject_events.
        destruct (negb (truthy ok)); [apply print_error_run|]; reflexivity. }
      rewrite Hr. run_simpl. rewrite subscript_run.
      unfold has_key in Hh.
      destruct (data !! "hook_output") as [out|]; [|discriminate].
      run_simpl. rewrite print_hook_run.
      destruct out as [| | | |s| |]; run_simpl; rewrite ?app_nil_r;
        try (eexists _, (Raised AttributeError), st1; split; [reflexivity|];
             split; [|assumption]; repeat split; discriminate).
      destruct (all_encodable (splitlines s)); run_simpl; rewrite ?app_nil_r.
      * eexists _, (Ok LoopBreak), st1. split; [reflexivity|].
        split; [|assumption]. repeat split. discriminate.
      * eexists _, (Raised UnicodeEncodeError), st1. split; [reflexivity|].
        split; [|assumption]. repeat split. discriminate.
    + destruct (negb (has_key data "update_ongoing" || has_key data "update_pending")).
      * run_simpl. rewrite print_progress_run by reflexivity. run_simpl. rewrite ?app_nil_r.
        eexists _, (Ok LoopBreak), st1. split; [reflexivity|].
        split; [|assumption]. repeat split. discriminate.
      * run_simpl. unfold now at 1.
        destruct (time_time (world st1)) as [t2 w2]. run_simpl.
        destruct (Qlt_le_dec 0 (deadline - t2)); run_simpl.
        -- unfold sleep at 1. run_simpl.
           eexists _, (Ok LoopContinue), _. split; [reflexivity|]. split; [|assumption].
           split; [reflexivity|].
           exists t2. destruct (Qlt_le_dec 0 (deadline - t2)); [auto|].
           exfalso. eapply Qlt_not_le; eassumption.
        -- eexists _, (Ok LoopContinue), _. split; [reflexivity|]. split; [|assumption].
           split; [reflexivity|].
           exists t2. destruct (Qlt_le_dec 0 (deadline - t2)); [|auto].
           exfalso. eapply Qlt_not_le; eassumption.
Qed.

Lemma poll_loop_run (c : Ctx) (deadline : Q) (fuel : nat) (st : St) :
  exists o tr st',
    poll_loop fuel c deadline st = (o, st', tr) /\
    poll_run c deadline (g_debug st) fuel o tr /\
    g_debug st' = g_debug st.
Proof.
  revert st. induction fuel as [|fuel IH]; intros st.
  - exists OutOfFuel, [], st. split; [reflexivity|]. split; [constructor|reflexivity].
  - cbn [poll_loop]. rewrite ?bind_run. unfold now at 1.
    destruct (time_time (world st)) as [t w1].
    destruct (Qlt_le_dec t deadline) as [Hlt|Hle].
    + set (st1 := {| world := w1; g_debug := g_debug st |}).
      destruct (poll_body_run c deadline st1) as (t' & r & tail & o & st2 & E & Hp & Hd).
      rewrite ?bind_run, E. cbn [g_debug st1] in *.
      destruct (pass_end r) as [[o' tail']|] eqn:Hend.
      * destruct Hp as (-> & -> & Hne).
        destruct o as [[]|e|]; [congruence| | |]; run_simpl; rewrite ?app_nil_r;
          (eexists _, _, _; split; [reflexivity|]; split; [|exact Hd];
           now apply (poll_run_stop c deadline (g_debug st) fuel t t' r)).
      * destruct Hp as (-> & Hw).
        destruct (IH st2) as (o' & tr' & st3 & E' & Hr & Hd'). rewrite E'.
        eexists _, _, _. split; [reflexivity|].
        rewrite Hd in Hr, Hd'. split; [|exact Hd'].
        cbn [app]. rewrite <- app_assoc.
        eapply poll_run_again; eassumption.
    + rewrite print_progress_run by reflexivity. eexists _, _, _. split; [reflexivity|].
      cbn [app]. split; [now constructor|reflexivity].
Qed.

Lemma status_flags_run (fuel : nat) (c : Ctx) (start : Q) (data : gmap string pyval) (st : St) :
  exists o tail st',
    status_flags fuel c start data st = (o, st', tail) /\
    flags_result fuel c (g_debug st) start data o tail /\
    g_debug st' = g_debug st.
Proof.
  unfold status_flags, flags_result.
  destruct (has_key data "disabled");
    [rewrite print_progress_run by reflexivity; eauto 8|].
  destruct (has_key data "update_ongoing");
    [rewrite print_progress_run by reflexivity; eauto 8|].
  destruct (has_key data "update_pending");
    [rewrite print_progress_run by reflexivity; eauto 8|].
  destruct (has_key data "update_triggered"); [|cbn; eauto 8].
  destruct (negb (has_key data "review"));
    [rewrite print_progress_run by reflexivity; eauto 8|].
  rewrite ?bind_run, print_progress_run, ?bind_run by reflexivity. unfold sleep at 1.
  set (st1 := {| world := time_sleep half (world st); g_debug := g_debug st |}).
  destruct (poll_loop_run c (start + inject_Z update_timeout) fuel st1)
    as (o & tr & st2 & E & Hr & Hd).
  rewrite E. eexists _, _, _. split; [reflexivity|]. split; [|exact Hd].
  exists tr. split; [exact Hr|reflexivity].
Qed.

Lemma notify_run (fuel : nat) (c : Ctx) (st : St) :
  exists start t r tail o st',
    notify fuel c st =
      (o, st',
       EvTime AtStart start ::
       request_events c (g_debug st) (start + inject_Z connection_timeout) t true r ++ tail) /\
    initial_result fuel c (g_debug st) start r o tail /\
    g_debug st' = g_debug st.
Proof.
  unfold notify. rewrite ?bind_run. unfold now at 1.
  destruct (time_time (world st)) as [start w1].
  set (st1 := {| world := w1; g_debug := g_debug st |}).
  destruct (issue_request_run c (start + inject_Z connection_timeout) true st1)
    as (t & r & st2 & E & Hd).
  exists start, t, r. unfold initial_result.
  rewrite ?bind_run. unfold try_except. rewrite E. cbn [g_debug st1] in *.
  destruct (check_response r) as [e|data].
  - destruct (is_Timeout e).
    + rewrite ?bind_run, print_error_run by reflexivity. run_simpl. rewrite ?app_nil_r.
      eexists _, _, _. split; [reflexivity|auto].
    + eexists [], _, _. rewrite app_nil_r. split; [reflexivity|auto].
  - unfold print_debug_json. rewrite ?bind_run, print_debug_run, Hd by encodes.
    unfold found_message, has_key.
    destruct (data !! "review") as [v|] eqn:Hrev.
    + rewrite ?bind_run, print_progress_cut.
      destruct (all_encodable (splitlines ("Review: " +:+ format_s v))) eqn:Hall.
      * rewrite (prog_cut_all _ Hall).
        destruct (status_flags_run fuel c start data st2) as (o & tail & st3 & E' & Hf & Hd').
        rewrite E', Hd in *. eexists _, _, _. split; [cbn [app]; reflexivity|].
        split; [|exact Hd'].
        eexists. split; [reflexivity|]. cbn [orb]. eauto.
      * eexists _, _, _. split; [cbn [app]; reflexivity|]. split; [|exact Hd].
        eexists. split; [reflexivity|]. cbn [orb]. auto.
    + destruct (data !! "branch") as [v|] eqn:Hbr.
      * rewrite ?bind_run, print_progress_cut.
        destruct (all_encodable (splitlines ("Tracked branch: " +:+ format_s v))) eqn:Hall.
        -- rewrite (prog_cut_all _ Hall).
           destruct (status_flags_run fuel c start data st2)
             as (o & tail & st3 & E' & Hf & Hd').
           rewrite E', Hd in *. eexists _, _, _. split; [cbn [app]; reflexivity|].
           split; [|exact Hd'].
           eexists. split; [reflexivity|]. cbn [orb]. eauto.
        -- eexists _, _, _. split; [cbn [app]; reflexivity|]. split; [|exact Hd].
           eexists. split; [reflexivity|]. cbn [orb]. auto.
      * rewrite print_debug_run, Hd by reflexivity.
        eexists _, _, _. split; [cbn [app]; reflexivity|].
        split; [|exact Hd].
        eexists. split; [reflexivity|]. cbn [orb]. auto.
Qed.

Lemma resolve_value_run (args : Args) (st : St) :
  (exists value pre st',
     resolve_value args st = (Ok value, st', pre) /\
     g_debug st' = g_debug st /\
     resolved args value (pre ++ dbg_events (debug args) (str_refs [(ref args, value)]))) \/
  (exists descr st',
     str_truthy (sha args) = false /\
     resolve_value args st =
       (Raised (OSError descr), st', [EvRevParse (ref args) (GitFails descr)]) /\
     g_debug st' = g_debug st).
Proof.
  unfold resolve_value, resolved, try_except.
  destruct (str_truthy (sha args)) eqn:Hs.
  - left. destruct (sha args) as [s|]; [|discriminate].
    exists s, [], st. auto.
  - unfold check_output_rev_parse.
    assert (Hg : exists r st', rev_parse (ref args) st = (Ok r, st', [EvRevParse (ref args) r]) /\
                               g_debug st' = g_debug st).
    { unfold rev_parse. destruct (git_rev_parse (ref args) (world st)) as [r w1].
      eexists _, _. split; reflexivity. }
    destruct Hg as (r & st1 & Hg & Hd).
    rewrite ?bind_run, Hg. destruct r as [out| |descr]; run_simpl.
    + left. eexists _, _, _. split; [reflexivity|]. split; [exact Hd|].
      eexists. split; [reflexivity|]. reflexivity.
    + left. eexists _, _, _. split; [reflexivity|]. split; [exact Hd|].
      eexists. split; [reflexivity|]. reflexivity.
    + right. eexists _, _. auto.
Qed.

Lemma main_run (fuel : nat) (args : Args) (st : St) :
  exists o st' tr,
    main fuel args st = (o, st', tr) /\ run_behaviour fuel args o tr.
Proof.
  unfold main, run_behaviour, handler_events. rewrite ?bind_run. run_simpl.
  set (st0 := {| world := world st; g_debug := debug args |}).
  destruct (String.eqb_spec (critic_url args) "") as [Hu|Hu].
  { rewrite ?bind_run, print_error_run by reflexivity. run_simpl. rewrite app_nil_r.
    eexists _, _, _. split; [reflexivity|]. left. auto. }
  run_simpl. unfold try_except. rewrite ?bind_run.
  destruct (resolve_value_run args st0) as
    [(value & pre & st1 & E & Hd & Hres)|(descr & st1 & Hs & E & Hd)]; rewrite E.
  - rewrite ?bind_run, print_debug_run by encodes. cbn [for_each]. rewrite ?bind_run.
    destruct (notify_run fuel (make_ctx args value) st1)
      as (start & t & r & tail & o & st2 & E' & Hi & Hg).
    unfold make_ctx in E'. rewrite E'. rewrite Hd in *. cbn [g_debug st0] in *.
    destruct o as [[]|e|]; run_simpl.
    + eexists _, _, _. split; [reflexivity|]. right. right. split; [assumption|].
      eexists value, _, start, t, r, tail. split; [eassumption|]. split; [assumption|].
      rewrite !app_nil_r, <- app_assoc. reflexivity.
    + destruct (is_Exception e) eqn:He.
      * repeat (rewrite print_debug_run by encodes; run_simpl). rewrite Hg.
        eexists _, _, _. split; [reflexivity|]. right. right. split; [assumption|].
        eexists value, _, start, t, r, tail. split; [eassumption|]. split; [assumption|].
        rewrite He. unfold exc_events.
        rewrite ?app_nil_r, <- ?app_assoc. cbn [app]. rewrite <- ?app_assoc. reflexivity.
      * eexists _, _, _. split; [reflexivity|]. right. right. split; [assumption|].
        eexists value, _, start, t, r, tail. split; [eassumption|]. split; [assumption|].
        rewrite He, !app_nil_r, <- app_assoc. reflexivity.
    + eexists _, _, _. split; [reflexivity|]. right. right. split; [assumption|].
      eexists value, _, start, t, r, tail. split; [eassumption|]. split; [assumption|].
      rewrite !app_nil_r, <- app_assoc. reflexivity.
  - cbn [is_Exception]. run_simpl. repeat (rewrite print_debug_run by encodes; run_simpl).
    rewrite Hd. cbn [g_debug st0]. rewrite app_nil_r.
    eexists _, _, _. split; [reflexivity|]. right. left.
    split; [assumption|]. split; [assumption|]. exists descr. auto.
Qed.

(** Every run of [main] is one of the behaviours. *)
Lemma run_behaves (fuel : nat) (args : Args) (w : W) :
  run_behaviour fuel args (run fuel args w).1 (run fuel args w).2.
Proof.
  unfold run.
  destruct (main_run fuel args {| world := w; g_debug := false |}) as (o & st' & tr & E & Hb).
  rewrite E. exact Hb.
Qed.
End Adequacy.

(** ** Views of the events of a behaviour *)
Section Views.
Context `{!PyRuntime}.

Lemma posts_app (l1 l2 : list Event) : posts (l1 ++ l2) = posts l1 ++ posts l2.
Proof.
  induction l1 as [|[] l1 IH]; cbn [posts app]; rewrite ?IH; reflexivity.
Qed.

Lemma rev_parses_app (l1 l2 : list Event) :
  rev_parses (l1 ++ l2) = rev_parses l1 ++ rev_parses l2.
Proof.
  induction l1 as [|[] l1 IH]; cbn [rev_parses app]; rewrite ?IH; reflexivity.
Qed.

Lemma readings_app (site : ClockSite) (l1 l2 : list Event) :
  readings site (l1 ++ l2) = readings site l1 ++ readings site l2.
Proof.
  induction l1 as [|[| s t | | |] l1 IH]; cbn [readings app]; rewrite ?IH; try reflexivity.
  destruct site, s; reflexivity.
Qed.

Lemma reports_app (l1 l2 : list Event) : reports (l1 ++ l2) = reports l1 ++ reports l2.
Proof.
  induction l1 as [|[line b| | | |] l1 IH]; cbn [reports app]; rewrite ?IH; try reflexivity.
  destruct (is_debug_line line); reflexivity.
Qed.

Lemma log_lines_app (l1 l2 : list Event) :
  log_lines (l1 ++ l2) = log_lines l1 ++ log_lines l2.
Proof.
  induction l1 as [|[] l1 IH]; cbn [log_lines app]; rewrite ?IH; reflexivity.
Qed.

(** Events that only log: [f] gives the line, [b] the print flag. *)
Lemma posts_logs (f : string -> string) (b : bool) (lines : list string) :
  posts (map (fun line => EvLog (f line) b) lines) = [].
Proof. induction lines; [reflexivity|assumption]. Qed.

Lemma rev_parses_logs (f : string -> string) (b : bool) (lines : list string) :
  rev_parses (map (fun line => EvLog (f line) b) lines) = [].
Proof. induction lines; [reflexivity|assumption]. Qed.

Lemma readings_logs (site : ClockSite) (f : string -> string) (b : bool) (lines : list string) :
  readings site (map (fun line => EvLog (f line) b) lines) = [].
Proof. induction lines; [reflexivity|assumption]. Qed.

Lemma reports_logs (f : string -> string) (b : bool) (lines : list string) (d : bool) :
  (forall line, is_debug_line (f line) = d) ->
  reports (map (fun line => EvLog (f line) b) lines) = if d then [] else map f lines.
Proof.
  intros Hf. induction lines as [|line lines IH].
  - now destruct d.
  - cbn [map reports]. rewrite Hf, IH. now destruct d.
Qed.

Lemma posts_dbg b m : posts (dbg_events b m) = [].
Proof. apply posts_logs. Qed.
Lemma posts_prog m : posts (prog_events m) = [].
Proof. apply posts_logs. Qed.
Lemma posts_err m : posts (err_events m) = [].
Proof. apply posts_logs. Qed.
Lemma posts_cut m : posts (prog_cut m) = [].
Proof. apply posts_logs. Qed.
Lemma posts_hook m : posts (hook_events m) = [].
Proof. unfold hook_events. cbn [posts]. now rewrite posts_app, posts_prog. Qed.
Lemma posts_exc b e : posts (exc_events b e) = [].
Proof. unfold exc_events. now rewrite posts_app, !posts_dbg. Qed.
Lemma posts_reject v : posts (reject_events v) = [].
Proof. unfold reject_events. destruct (negb (truthy v)); [apply posts_err|reflexivity]. Qed.
Lemma posts_request c b dl t trig r :
  posts (request_events c b dl t trig r) = [(make_request c dl t trig, r)].
Proof. unfold request_events. now rewrite posts_app, posts_dbg. Qed.

Lemma rev_parses_dbg b m : rev_parses (dbg_events b m) = [].
Proof. apply rev_parses_logs. Qed.
Lemma rev_parses_prog m : rev_parses (prog_events m) = [].
Proof. apply rev_parses_logs. Qed.
Lemma rev_parses_err m : rev_parses (err_events m) = [].
Proof. apply rev_parses_logs. Qed.
Lemma rev_parses_cut m : rev_parses (prog_cut m) = [].
Proof. apply rev_parses_logs. Qed.
Lemma rev_parses_hook m : rev_parses (hook_events m) = [].
Proof. unfold hook_events. cbn [rev_parses]. now rewrite rev_parses_app, rev_parses_prog. Qed.
Lemma rev_parses_exc b e : rev_parses (exc_events b e) = [].
Proof. unfold exc_events. now rewrite rev_parses_app, !rev_parses_dbg. Qed.
Lemma rev_parses_reject v : rev_parses (reject_events v) = [].
Proof. unfold reject_events. destruct (negb (truthy v)); [apply rev_parses_err|reflexivity]. Qed.
Lemma rev_parses_request c b dl t trig r : rev_parses (request_events c b dl t trig r) = [].
Proof. unfold request_events. now rewrite rev_parses_app, rev_parses_dbg. Qed.

Lemma readings_dbg s b m : readings s (dbg_events b m) = [].
Proof. apply readings_logs. Qed.
Lemma readings_prog s m : readings s (prog_events m) = [].
Proof. apply readings_logs. Qed.
Lemma readings_err s m : readings s (err_events m) = [].
Proof. apply readings_logs. Qed.
Lemma readings_cut s m : readings s (prog_cut m) = [].
Proof. apply readings_logs. Qed.
Lemma readings_hook s m : readings s (hook_events m) = [].
Proof. unfold hook_events. cbn [readings]. now rewrite readings_app, readings_prog. Qed.
Lemma readings_exc s b e : readings s (exc_events b e) = [].
Proof. unfold exc_events. now rewrite readings_app, !readings_dbg. Qed.
Lemma readings_reject s v : readings s (reject_events v) = [].
Proof. unfold reject_events. destruct (negb (truthy v)); [apply readings_err|reflexivity]. Qed.
Lemma readings_request s c b dl t trig r :
  readings s (request_events c b dl t trig r) =
  match s with AtRequest => [t] | _ => [] end.
Proof. unfold request_events. rewrite readings_app, readings_dbg. now destruct s. Qed.

Lemma reports_dbg b m : reports (dbg_events b m) = [].
Proof. unfold dbg_events. now rewrite (reports_logs _ _ _ true). Qed.
Lemma reports_prog m : reports (prog_events m) = progress_lines m.
Proof. unfold prog_events. now rewrite (reports_logs _ _ _ false). Qed.
Lemma reports_err m : reports (err_events m) = error_lines m.
Proof. unfold err_events. now rewrite (reports_logs _ _ _ false). Qed.
Lemma reports_cut m : reports (prog_cut m) = progress_lines_cut m.
Proof. unfold prog_cut. now rewrite (reports_logs _ _ _ false). Qed.
Lemma reports_hook m : reports (hook_events m) = hook_lines m.
Proof.
  unfold hook_events, hook_lines. cbn [reports].
  change (is_debug_line hook_rule) with false. cbv iota.
  now rewrite reports_app, reports_prog.
Qed.
Lemma reports_exc b e : reports (exc_events b e) = [].
Proof. unfold exc_events. now rewrite reports_app, !reports_dbg. Qed.
Lemma reports_reject v :
  reports (reject_events v) =
  if truthy v then [] else error_lines "Critic rejected the update!".
Proof. unfold reject_events. destruct (truthy v); [reflexivity|apply reports_err]. Qed.
Lemma reports_request c b dl t trig r : reports (request_events c b dl t trig r) = [].
Proof. unfold request_events. now rewrite reports_app, reports_dbg. Qed.
End Views.

Create Rewrite HintDb views.
#[export] Hint Rewrite
  posts_app rev_parses_app readings_app reports_app
  @posts_dbg @posts_prog @posts_err @posts_hook @posts_exc @posts_reject @posts_request
  @posts_cut
  @rev_parses_dbg @rev_parses_prog @rev_parses_err @rev_parses_hook @rev_parses_exc
  @rev_parses_reject @rev_parses_request @rev_parses_cut
  @readings_dbg @readings_prog @readings_err @readings_hook @readings_exc
  @readings_reject @readings_request @readings_cut
  @reports_dbg @reports_prog @reports_err @reports_hook @reports_exc
  @reports_reject @reports_request @reports_cut
  app_nil_r : views.

(** ** Laws of the polling loop *)
Section Traces.
Context `{!PyRuntime}.

Lemma request_data_trigger (c : Ctx) :
  request_data c true !! "trigger" = Some (PyBool true).
Proof. unfold request_data. apply lookup_insert_eq. Qed.

Lemma request_data_poll (c : Ctx) : request_data c false !! "trigger" = None.
Proof.
  unfold request_data. rewrite !lookup_insert_ne by discriminate. apply lookup_empty.
Qed.

Lemma request_data_value (c : Ctx) (trigger : bool) :
  request_data c trigger !! "value" = Some (PyStr (c_value c)).
Proof.
  unfold request_data. destruct trigger.
  - rewrite !lookup_insert_ne by discriminate. apply lookup_insert_eq.
  - rewrite !lookup_insert_ne by discriminate. apply lookup_insert_eq.
Qed.

Lemma each_post_silent (R : Request -> PostResult -> list Event -> Prop) (l : list Event) :
  posts l = [] -> each_post R l.
Proof.
  induction l as [|[] l IH]; cbn [posts each_post]; intros Hp; auto; discriminate.
Qed.

Lemma each_post_app (R : Request -> PostResult -> list Event -> Prop) (l1 l2 : list Event) :
  each_post (fun rq r rest => R rq r (rest ++ l2)) l1 ->
  each_post R l2 ->
  each_post R (l1 ++ l2).
Proof.
  intros H1 H2. induction l1 as [|[] l1 IH]; cbn [each_post app] in *; intuition.
Qed.

Lemma each_post_mono (R R' : Request -> PostResult -> list Event -> Prop) (l : list Event) :
  (forall rq r rest, R rq r rest -> R' rq r rest) ->
  each_post R l -> each_post R' l.
Proof.
  intros HR. induction l as [|[] l IH]; cbn [each_post]; intuition.
Qed.

Lemma each_post_lookup (R : Request -> PostResult -> list Event -> Prop) (l : list Event)
    (i : nat) (rq : Request) (r : PostResult) :
  each_post R l -> l !! i = Some (EvPost rq r) -> R rq r (drop (S i) l).
Proof.
  revert i. induction l as [|ev l IH]; intros i HR Hi; [discriminate|].
  destruct i as [|i].
  - cbn in Hi. injection Hi as ->. cbn [each_post] in HR. cbn [drop]. rewrite drop_0.
    tauto.
  - cbn [drop]. apply IH; [|exact Hi]. destruct ev; cbn [each_post] in HR; tauto.
Qed.

Lemma pass_end_silent (r : PostResult) (o : Outcome unit) (tail : list Event) :
  pass_end r = Some (o, tail) ->
  posts tail = [] /\ rev_parses tail = [] /\ forall s, readings s tail = [].
Proof.
  unfold pass_end. intros He.
  destruct (check_response r) as [e|data].
  - destruct (is_Timeout e); [discriminate|]. injection He as <- <-. auto.
  - destruct (has_key data "hook_output").
    + destruct (data !! "update_successful") as [ok|]; [|injection He as <- <-; auto].
      destruct (data !! "hook_output") as [[| | | |out| |]|];
        try destruct (all_encodable (splitlines out));
        injection He as <- <-;
        (split; [|split; [|intros site]]); autorewrite with views;
        cbn [posts rev_parses readings]; autorewrite with views; reflexivity.
    + destruct (negb _); [|discriminate]. injection He as <- <-.
      (split; [|split; [|intros site]]); autorewrite with views; reflexivity.
Qed.

Lemma pass_wait_silent (deadline : Q) (r : PostResult) (tail : list Event) :
  pass_wait deadline r tail ->
  posts tail = [] /\ rev_parses tail = [] /\ reports tail = [] /\
  readings AtStart tail = [] /\ readings AtLoopTest tail = [].
Proof.
  unfold pass_wait. destruct (check_response r).
  - intros ->. auto.
  - intros (t & ->). destruct (Qlt_le_dec 0 (deadline - t)); cbn; auto.
Qed.

Lemma pass_end_raised (r : PostResult) (e : Exn) (tail : list Event) :
  pass_end r = Some (Raised e, tail) -> is_Timeout e = false /\ is_Exception e = true.
Proof.
  unfold pass_end. intros He.
  destruct (check_response r) as [e'|data] eqn:Hc.
  - destruct (is_Timeout e') eqn:Ht; [discriminate|]. injection He as <- <-.
    split; [assumption|].
    unfold check_response, request_failed in Hc.
    destruct r as [| |resp]; try (injection Hc as <-; reflexivity).
    destruct (status_is_error resp); [injection Hc as <-; reflexivity|].
    destruct (content_json resp) as [[]|]; try (injection Hc as <-; reflexivity).
    destruct (d !! "status") as [status|]; [|injection Hc as <-; reflexivity].
    destruct (is_ok status); [discriminate|].
    destruct (d !! "error") as [[]|]; injection Hc as <-; reflexivity.
  - destruct (has_key data "hook_output").
    + destruct (data !! "update_successful") as [ok|]; [|injection He as <- <-; auto].
      destruct (data !! "hook_output") as [[| | | |out| |]|];
        try destruct (all_encodable (splitlines out));
        try discriminate; injection He as <- <-; auto.
    + destruct (negb _); discriminate.
Qed.


Lemma poll_run_views (c : Ctx) (deadline : Q) (dbg : bool) (n : nat) (o : Outcome unit)
    (tr : list Event) :
  poll_run c deadline dbg n o tr ->
  Forall (fun p : Request * PostResult => rq_data p.1 = request_data c false) (posts tr) /\
  rev_parses tr = [] /\ readings AtStart tr = [].
Proof.
  induction 1 as [|n t Hle|n t t' r o tail Hlt He|n t t' r tail o rest Hlt He Hw Hr IH].
  - cbn. auto.
  - cbn [posts rev_parses readings]. autorewrite with views. auto.
  - destruct (pass_end_silent _ _ _ He) as (Hp & Hv & Hs).
    cbn [posts rev_parses readings]. autorewrite with views. rewrite Hp, Hv, Hs.
    repeat split. repeat constructor.
  - destruct (pass_wait_silent _ _ _ Hw) as (Hp & Hv & _ & Hs & _).
    destruct IH as (IHp & IHv & IHs).
    cbn [posts rev_parses readings]. autorewrite with views.
    rewrite Hp, Hv, Hs, IHv, IHs. repeat split. constructor; [reflexivity|exact IHp].
Qed.

Lemma poll_run_raised (c : Ctx) (deadline : Q) (dbg : bool) (n : nat) (e : Exn)
    (tr : list Event) :
  poll_run c deadline dbg n (Raised e) tr -> is_Timeout e = false /\ is_Exception e = true.
Proof.
  remember (Raised e) as o eqn:Ho. intros Hr. revert Ho.
  induction Hr as [|n t Hle|n t t' r o tail Hlt He|n t t' r tail o rest Hlt He Hw Hr IH];
    intros Ho; try discriminate; subst.
  - eapply pass_end_raised; eassumption.
  - now apply IH.
Qed.

(** The loop starts with its test, unless there is no fuel for it. *)
Lemma poll_run_head (c : Ctx) (deadline : Q) (dbg : bool) (n : nat) (o : Outcome unit)
    (tr : list Event) :
  poll_run c deadline dbg n o tr ->
  (tr = [] /\ o = OutOfFuel) \/ exists t rest, tr = EvTime AtLoopTest t :: rest.
Proof. destruct 1; eauto. Qed.

(** After a request whose response ends the loop, exactly the events of
    that ending follow, and the loop has its outcome; after a request that
    timed out the loop test follows. *)
Lemma poll_run_each_post (c : Ctx) (deadline : Q) (dbg : bool) (n : nat) (o : Outcome unit)
    (tr : list Event) :
  poll_run c deadline dbg n o tr ->
  each_post (fun rq r rest =>
               is_poll rq /\
               (forall o' tail, pass_end r = Some (o', tail) -> o = o' /\ rest = tail) /\
               timeout_law o rq r rest) tr.
Proof.
  induction 1 as [|n t Hle|n t t' r o tail Hlt He|n t t' r tail o rest Hlt He Hw Hr IH].
  - exact I.
  - cbn [each_post]. apply each_post_silent. now autorewrite with views.
  - cbn [each_post]. unfold request_events. rewrite <- app_assoc.
    apply each_post_app; [apply each_post_silent; now autorewrite with views|].
    cbn [app each_post]. split.
    + split; [apply request_data_poll|]. split.
      * intros o' tail' He'. rewrite He in He'. now injection He' as <- <-.
      * intros _ ->. discriminate.
    + apply each_post_silent. eapply pass_end_silent; eassumption.
  - cbn [each_post]. unfold request_events. rewrite <- app_assoc.
    apply each_post_app; [apply each_post_silent; now autorewrite with views|].
    cbn [app each_post]. split.
    + split; [apply request_data_poll|]. split.
      * intros o' tail' He'. rewrite He in He'. discriminate.
      * intros _ ->. unfold pass_wait in Hw. cbn [check_response] in Hw. subst tail.
        cbn [app]. destruct (poll_run_head _ _ _ _ _ _ Hr); auto.
    + apply each_post_app; [|exact IH].
      apply each_post_silent. eapply pass_wait_silent; eassumption.
Qed.



(** With fuel for one pass the loop test is reached, and when it finds
    the deadline ahead a request without [trigger] is made. *)
Lemma poll_run_first (c : Ctx) (deadline : Q) (dbg : bool) (n : nat) (o : Outcome unit)
    (tr : list Event) :
  poll_run c deadline dbg (S n) o tr ->
  exists t, head (readings AtLoopTest tr) = Some t /\
            ((t < deadline)%Q ->
             exists rq r, head (posts tr) = Some (rq, r) /\ is_poll rq).
Proof.
  inversion 1 as [|n' t Hle|n' t t' r o' tail Hlt He|n' t t' r tail o' rest Hlt He Hw Hr];
    subst; exists t; (split; [reflexivity|]); intros Hlt'.
  - exfalso. eapply Qlt_not_le; eassumption.
  - eexists _, r. cbn [posts]. autorewrite with views. cbn [app head].
    split; [reflexivity|apply request_data_poll].
  - eexists _, r. cbn [posts]. autorewrite with views. cbn [app head].
    split; [reflexivity|apply request_data_poll].
Qed.
End Traces.

(** ** Laws of a whole run *)
Section Runs.
Context `{!PyRuntime}.

Lemma timeout_error_report :
  error_lines ("Timeout (" +:+ pretty connection_timeout +:+ "s) while notifying Critic!") =
  ["[critic:error] b'Timeout (5s) while notifying Critic!'"].
Proof. reflexivity. Qed.

Lemma resolved_silent (args : Args) (value : string) (pre : list Event) :
  resolved args value pre ->
  posts pre = [] /\ reports pre = [] /\ forall s, readings s pre = [].
Proof.
  unfold resolved. destruct (str_truthy (sha args)).
  - intros (_ & ->). repeat split; [| |intros s]; now autorewrite with views.
  - intros (g & -> & _). cbn [posts reports readings].
    repeat split; [| |intros s]; now autorewrite with views.
Qed.

Lemma handler_silent (dbg : bool) (o : Outcome unit) :
  posts (handler_events dbg o) = [] /\ reports (handler_events dbg o) = [] /\
  rev_parses (handler_events dbg o) = [] /\
  forall s, readings s (handler_events dbg o) = [].
Proof.
  unfold handler_events. destruct o as [| e |]; auto. destruct (is_Exception e); auto.
  repeat split; [| | |intros s]; now autorewrite with views.
Qed.

Lemma flags_views (fuel : nat) (c : Ctx) (dbg : bool) (start : Q)
    (data : gmap string pyval) (o : Outcome unit) (tail : list Event) :
  flags_result fuel c dbg start data o tail ->
  Forall (fun p : Request * PostResult => rq_data p.1 = request_data c false) (posts tail) /\
  rev_parses tail = [] /\ readings AtStart tail = [].
Proof.
  unfold flags_result. intros Hf.
  destruct (has_key data "disabled");
    [destruct Hf as (_ & ->); now autorewrite with views|].
  destruct (has_key data "update_ongoing");
    [destruct Hf as (_ & ->); now autorewrite with views|].
  destruct (has_key data "update_pending");
    [destruct Hf as (_ & ->); now autorewrite with views|].
  destruct (has_key data "update_triggered");
    [|destruct Hf as (_ & ->); now autorewrite with views].
  destruct (negb (has_key data "review"));
    [destruct Hf as (_ & ->); now autorewrite with views|].
  destruct Hf as (polling & Hpoll & ->).
  destruct (poll_run_views _ _ _ _ _ _ Hpoll) as (Hp & Hv & Hs).
  autorewrite with views. cbn [posts rev_parses readings app]. auto.
Qed.

Lemma initial_views (fuel : nat) (c : Ctx) (dbg : bool) (start : Q) (r : PostResult)
    (o : Outcome unit) (tail : list Event) :
  initial_result fuel c dbg start r o tail ->
  Forall (fun p : Request * PostResult => rq_data p.1 = request_data c false) (posts tail) /\
  rev_parses tail = [] /\ readings AtStart tail = [].
Proof.
  unfold initial_result. destruct (check_response r) as [e|data].
  - intros (_ & ->). destruct (is_Timeout e); now autorewrite with views.
  - intros (rest & -> & Hi).
    destruct (has_key data "review" || has_key data "branch")%bool.
    + destruct (all_encodable (splitlines (found_message data))).
      2:{ destruct Hi as (_ & ->). now autorewrite with views. }
      destruct Hi as (rest' & -> & Hf).
      destruct (flags_views _ _ _ _ _ _ _ Hf) as (Hp & Hv & Hs).
      autorewrite with views. cbn [app]. auto.
    + destruct Hi as (_ & ->). now autorewrite with views.
Qed.

(** The shape of a run: it stops before any request, or makes the initial
    request and goes on as [initial_result] tells. *)
Lemma run_shape (fuel : nat) (args : Args) (o : Outcome unit) (tr : list Event) :
  run_behaviour fuel args o tr ->
  (posts tr = [] /\ readings AtLoopTest tr = [] /\
   rev_parses tr = [] /\ critic_url args = "" /\ o = Raised (SystemExit 1)) \/
  (posts tr = [] /\ readings AtLoopTest tr = [] /\ str_truthy (sha args) = false /\
   exists descr, rev_parses tr = [(ref args, GitFails descr)] /\ o = Raised (OSError descr)) \/
  (critic_url args <> "" /\
   exists value pre start t r tail before,
     resolved args value pre /\
     initial_result fuel (make_ctx args value) (debug args) start r o tail /\
     tr = before ++ tail ++ handler_events (debug args) o /\
     posts tr = (make_request (make_ctx args value)
                   (start + inject_Z connection_timeout) t true, r) :: posts tail /\
     reports tr = reports tail /\
     rev_parses tr = rev_parses pre /\
     readings AtStart tr = [start] /\
     readings AtLoopTest tr = readings AtLoopTest tail).
Proof.
  intros [(Hu & -> & ->)|[(_ & Hs & descr & -> & ->)|(Hu & value & pre & start & t & r & tail & Hres & Hi & ->)]].
  - left. now autorewrite with views.
  - right. left. cbn [posts rev_parses readings]. autorewrite with views. eauto 6.
  - right. right. split; [assumption|].
    destruct (resolved_silent _ _ _ Hres) as (Hp & Hrep & Hs).
    destruct (handler_silent (debug args) o) as (Hp' & Hrep' & Hv' & Hs').
    destruct (initial_views _ _ _ _ _ _ _ Hi) as (_ & Hv & Hst).
    eexists value, pre, start, t, r, tail, _.
    split; [assumption|]. split; [assumption|].
    split; [rewrite app_comm_cons, app_assoc; reflexivity|].
    autorewrite with views. cbn [posts reports rev_parses readings].
    autorewrite with views. rewrite Hp, Hrep, Hp', Hrep', Hv', !Hs, !Hs', Hv, Hst.
    autorewrite with views. cbn [app]. auto 10.
Qed.

(** The shape of a run that makes a request. *)
Lemma run_requests (fuel : nat) (args : Args) (o : Outcome unit) (tr : list Event)
    (rq : Request) (r : PostResult) :
  run_behaviour fuel args o tr ->
  head (posts tr) = Some (rq, r) ->
  critic_url args <> "" /\
  exists value pre start t tail before,
    resolved args value pre /\
    rq = make_request (make_ctx args value) (start + inject_Z connection_timeout) t true /\
    initial_result fuel (make_ctx args value) (debug args) start r o tail /\
    tr = before ++ tail ++ handler_events (debug args) o /\
    posts tr = (rq, r) :: posts tail /\
    reports tr = reports tail /\
    rev_parses tr = rev_parses pre /\
    readings AtStart tr = [start] /\
    readings AtLoopTest tr = readings AtLoopTest tail.
Proof.
  intros Hb Hh.
  destruct (run_shape _ _ _ _ Hb) as
    [(Hp & _)|[(Hp & _)|(Hu & value & pre & start & t & r' & tail & before & Hres & Hi & Htr & Hp & Hrest)]].
  - rewrite Hp in Hh. discriminate.
  - rewrite Hp in Hh. discriminate.
  - rewrite Hp in Hh. injection Hh as <- <-. split; [assumption|].
    exists value, pre, start, t, tail, before. auto 10.
Qed.

Lemma initial_request_not_poll (c : Ctx) (deadline t : Q) :
  ~ is_poll (make_request c deadline t true).
Proof. unfold is_poll. cbn [rq_data make_request]. now rewrite request_data_trigger. Qed.

Lemma flags_each_post (fuel : nat) (c : Ctx) (dbg : bool) (start : Q)
    (data : gmap string pyval) (o : Outcome unit) (tail exc : list Event) :
  flags_result fuel c dbg start data o tail ->
  posts exc = [] -> reports exc = [] -> (o = OutOfFuel -> exc = []) ->
  each_post (fun rq r rest =>
               poll_law o rq r rest /\ initial_law o rq r rest /\ timeout_law o rq r rest)
    (tail ++ exc).
Proof.
  unfold flags_result. intros Hf Hp Hr Hx.
  destruct (has_key data "disabled");
    [destruct Hf as (_ & ->); apply each_post_silent; now autorewrite with views|].
  destruct (has_key data "update_ongoing");
    [destruct Hf as (_ & ->); apply each_post_silent; now autorewrite with views|].
  destruct (has_key data "update_pending");
    [destruct Hf as (_ & ->); apply each_post_silent; now autorewrite with views|].
  destruct (has_key data "update_triggered");
    [|destruct Hf as (_ & ->); apply each_post_silent; now autorewrite with views].
  destruct (negb (has_key data "review"));
    [destruct Hf as (_ & ->); apply each_post_silent; now autorewrite with views|].
  destruct Hf as (polling & Hpoll & ->).
  rewrite <- app_assoc. apply each_post_app; [apply each_post_silent; now autorewrite with views|].
  cbn [app each_post].
  apply each_post_app; [|now apply each_post_silent].
  eapply each_post_mono; [|eapply poll_run_each_post; exact Hpoll].
  intros rq r rest (Hq & Hlaw & Htime). split; [|split].
  - intros _ o' tail He. destruct (Hlaw _ _ He) as (-> & ->).
    destruct (pass_end_silent _ _ _ He) as (Hp' & _).
    autorewrite with views. rewrite Hp, Hr, Hp'. autorewrite with views. auto.
  - intros Hn. contradiction.
  - intros _ Ht. destruct (Htime Hq Ht) as [(-> & Ho)|(t & rest' & ->)].
    + left. rewrite (Hx Ho). auto.
    + right. cbn [app]. eauto.
Qed.

(** Every request of a run obeys the laws above. *)
Lemma run_each_post (fuel : nat) (args : Args) (o : Outcome unit) (tr : list Event) :
  run_behaviour fuel args o tr ->
  each_post (fun rq r rest =>
               poll_law o rq r rest /\ initial_law o rq r rest /\ timeout_law o rq r rest) tr.
Proof.
  intros [(_ & _ & ->)|[(_ & _ & descr & _ & ->)|(_ & value & pre & start & t & r & tail & Hres & Hi & ->)]].
  - apply each_post_silent. now autorewrite with views.
  - apply each_post_silent. cbn [posts]. now autorewrite with views.
  - destruct (resolved_silent _ _ _ Hres) as (Hp & _).
    destruct (handler_silent (debug args) o) as (Hxp & Hxr & _).
    apply each_post_app; [now apply each_post_silent|].
    cbn [each_post]. unfold request_events. rewrite <- app_assoc.
    apply each_post_app; [apply each_post_silent; now autorewrite with views|].
    cbn [app each_post].
    unfold initial_result in Hi.
    destruct (check_response r) as [e|data] eqn:Hc.
    + destruct Hi as (-> & ->). split.
      * split; [intros Hq; exfalso; eapply initial_request_not_poll; exact Hq|].
        split; [|intros Hq; exfalso; eapply initial_request_not_poll; exact Hq].
        intros _ e' He'. rewrite Hc in He'. injection He' as <-.
        autorewrite with views. rewrite Hxp, Hxr.
        split; [reflexivity|]. split; [now destruct (is_Timeout e); autorewrite with views|].
        destruct (is_Timeout e); autorewrite with views; [apply timeout_error_report|reflexivity].
      * apply each_post_silent. autorewrite with views. rewrite Hxp.
        now destruct (is_Timeout e); autorewrite with views.
    + destruct Hi as (rest & -> & Hi). split.
      * split; [intros Hq; exfalso; eapply initial_request_not_poll; exact Hq|].
        split; [|intros Hq; exfalso; eapply initial_request_not_poll; exact Hq].
        intros _ e' He'. rewrite Hc in He'. discriminate.
      * rewrite <- app_assoc.
        apply each_post_app; [apply each_post_silent; now autorewrite with views|].
        destruct (has_key data "review" || has_key data "branch")%bool.
        -- destruct (all_encodable (splitlines (found_message data))).
           2:{ destruct Hi as (_ & ->). apply each_post_silent.
               autorewrite with views. now rewrite Hxp. }
           destruct Hi as (rest' & -> & Hf). rewrite <- app_assoc.
           apply each_post_app; [apply each_post_silent; now autorewrite with views|].
           eapply flags_each_post; try eassumption. now intros ->.
        -- destruct Hi as (_ & ->). apply each_post_silent.
           autorewrite with views. now rewrite Hxp.
Qed.
End Runs.

(** ** The claims *)
Section Claims.
Context {W : Type} `{!Environment W} `{!PyRuntime}.



Lemma has_key_true (data : gmap string pyval) (key : string) (v : pyval) :
  data !! key = Some v -> has_key data key = true.
Proof. unfold has_key. now intros ->. Qed.

Lemma initial_request_data (args : Args) (value : string) (deadline t : Q) :
  rq_data (make_request (make_ctx args value) deadline t true) !! "trigger" =
    Some (PyBool true) /\
  rq_data (make_request (make_ctx args value) deadline t true) !! "value" =
    Some (PyStr value).
Proof.
  cbn [rq_data make_request]. split; [apply request_data_trigger|].
  apply (request_data_value (make_ctx args value) true).
Qed.


(** C7. When the initial response has status ["ok"] and neither [review]
    nor [branch], the run returns normally (exit status 0) whatever else the
    response holds; the initial request is its only request, it reports
    nothing, and its last event is the debug line "Nothing to update!",
    logged and, with [--debug], printed. *)
Theorem nothing_to_update (fuel : nat) (args : Args) (w : W) (rq : Request)
    (r : PostResult) (data : gmap string pyval) :
  head (posts (run fuel args w).2) = Some (rq, r) ->
  ok_response r data ->
  has_key data "review" = false ->
  has_key data "branch" = false ->
  (run fuel args w).1 = Ok tt /\
  exit_status (run fuel args w).1 = Some 0%Z /\
  posts (run fuel args w).2 = [(rq, r)] /\
  reports (run fuel args w).2 = [] /\
  last (run fuel args w).2 = Some (EvLog "[critic:debug] b'Nothing to update!'" (debug args)).
Proof.
  intros Hh Hok Hrev Hbr.
  destruct (run_requests _ _ _ _ _ _ (run_behaves fuel args w) Hh)
    as (_ & value & pre & start & t & tail & before & _ & -> & Hi & Htr & Hp & Hr & _).
  unfold initial_result in Hi. rewrite Hok, Hrev, Hbr in Hi.
  destruct Hi as (rest & -> & Ho & ->).
  rewrite Hp, Hr, Htr, Ho. autorewrite with views.
  repeat split. rewrite !app_assoc.
  change (dbg_events (debug args) "Nothing to update!")
    with [EvLog "[critic:debug] b'Nothing to update!'" (debug args)].
  apply last_snoc.
Qed.

(** The events of a run whose initial response starts the polling phase. *)
Lemma polling_entered (fuel : nat) (args : Args) (w : W) (rq : Request) (r : PostResult)
    (data : gmap string pyval) :
  head (posts (run fuel args w).2) = Some (rq, r) ->
  ok_response r data ->
  has_key data "review" = true ->
  all_encodable (splitlines (found_message data)) = true ->
  has_key data "update_triggered" = true ->
  has_key data "disabled" = false ->
  has_key data "update_ongoing" = false ->
  has_key data "update_pending" = false ->
  exists c start polling,
    poll_run c (start + inject_Z update_timeout) (debug args) fuel (run fuel args w).1 polling /\
    readings AtStart (run fuel args w).2 = [start] /\
    readings AtLoopTest (run fuel args w).2 = readings AtLoopTest polling /\
    posts (run fuel args w).2 = (rq, r) :: posts polling.
Proof.
  intros Hh Hok Hrev Hall Htrig Hdis Hong Hpen.
  destruct (run_requests _ _ _ _ _ _ (run_behaves fuel args w) Hh)
    as (_ & value & pre & start & t & tail & before & _ & -> & Hi & _ & Hp & _ & _ & Hs & Hl).
  unfold initial_result in Hi. rewrite Hok, Hrev in Hi. cbn [orb] in Hi. rewrite Hall in Hi.
  destruct Hi as (rest & -> & rest' & -> & Hf).
  unfold flags_result in Hf. rewrite Hdis, Hong, Hpen, Htrig, Hrev in Hf. cbn [negb] in Hf.
  destruct Hf as (polling & Hpoll & ->).
  exists (make_ctx args value), start, polling.
  rewrite Hp, Hs, Hl. autorewrite with views. cbn [readings posts app]. auto.
Qed.

(** C3, as amended. An initial response with status ["ok"] that has
    [review] and [update_triggered] and none of [disabled], [update_ongoing]
    and [update_pending], and whose "Review" line can be encoded, starts the
    polling phase: with fuel for one pass the loop test is reached, and when
    the clock it reads is still before the start of the initial request plus
    the 30 second update timeout, the second request of the run is made,
    without a [trigger] field. *)
Theorem triggered_review_is_polled (fuel : nat) (args : Args) (w : W) (rq : Request)
    (r : PostResult) (data : gmap string pyval) :
  head (posts (run fuel args w).2) = Some (rq, r) ->
  ok_response r data ->
  has_key data "review" = true ->
  all_encodable (splitlines (found_message data)) = true ->
  has_key data "update_triggered" = true ->
  has_key data "disabled" = false ->
  has_key data "update_ongoing" = false ->
  has_key data "update_pending" = false ->
  (1 <= fuel -> exists t, head (readings AtLoopTest (run fuel args w).2) = Some t) /\
  (forall start t,
     head (readings AtStart (run fuel args w).2) = Some start ->
     head (readings AtLoopTest (run fuel args w).2) = Some t ->
     (t < start + inject_Z update_timeout)%Q ->
     exists rq' r', posts (run fuel args w).2 !! 1 = Some (rq', r') /\ is_poll rq').
Proof.
  intros Hh Hok Hrev Hall Htrig Hdis Hong Hpen.
  destruct (polling_entered _ _ _ _ _ _ Hh Hok Hrev Hall Htrig Hdis Hong Hpen)
    as (c & start & polling & Hpoll & Hs & Hl & Hp).
  rewrite Hs, Hl, Hp. split.
  - intros Hfuel. destruct fuel as [|fuel]; [lia|].
    destruct (poll_run_first _ _ _ _ _ _ Hpoll) as (t & Ht & _). eauto.
  - intros start' t [= <-] Ht Hlt. destruct fuel as [|fuel].
    + inversion Hpoll; subst. discriminate.
    + destruct (poll_run_first _ _ _ _ _ _ Hpoll) as (t' & Ht' & Hreq).
      rewrite Ht in Ht'. injection Ht' as <-.
      destruct (Hreq Hlt) as (rq' & r' & Hhead & Hq). exists rq', r'.
      split; [|assumption]. destruct (posts polling) as [|p ps]; [discriminate|].
      cbn [head] in Hhead. injection Hhead as ->. reflexivity.
Qed.


(** C10. A poll response with status ["ok"] that has [hook_output] but no
    [update_successful] makes line 289 raise [KeyError]: the run ends with
    that exception (exit status 1), and after the response nothing is
    reported, the hook output included, and no request is made. *)
Theorem hook_output_without_update_successful (fuel : nat) (args : Args) (w : W) (i : nat)
    (rq : Request) (r : PostResult) (data : gmap string pyval) :
  (run fuel args w).2 !! i = Some (EvPost rq r) ->
  is_poll rq ->
  ok_response r data ->
  has_key data "hook_output" = true ->
  data !! "update_successful" = None ->
  (run fuel args w).1 = Raised (KeyError "update_successful") /\
  exit_status (run fuel args w).1 = Some 1%Z /\
  posts (drop (S i) (run fuel args w).2) = [] /\
  reports (drop (S i) (run fuel args w).2) = [].
Proof.
  intros Hi Hq Hok Hout Hsucc.
  pose proof (each_post_lookup _ _ _ _ _ (run_each_post _ _ _ _ (run_behaves fuel args w)) Hi)
    as (Hpoll & _ & _).
  assert (He : pass_end r = Some (Raised (KeyError "update_successful"), [])).
  { unfold pass_end. now rewrite Hok, Hout, Hsucc. }
  destruct (Hpoll Hq _ _ He) as (Ho & Hp & Hr).
  rewrite Ho. auto.
Qed.

(** After the initial response a run either makes no further request, or
    goes through the polling loop with the deadline of line 276. *)
Lemma initial_cases (fuel : nat) (c : Ctx) (dbg : bool) (start : Q) (r : PostResult)
    (o : Outcome unit) (tail : list Event) :
  initial_result fuel c dbg start r o tail ->
  (posts tail = [] /\ readings AtLoopTest tail = [] /\
   (o = Ok tt \/ (exists e, check_response r = inl e /\ o = Raised e) \/
    o = Raised UnicodeEncodeError)) \/
  (exists polling,
     poll_run c (start + inject_Z update_timeout) dbg fuel o polling /\
     posts tail = posts polling /\
     readings AtLoopTest tail = readings AtLoopTest polling /\
     exists leading, reports tail = leading ++ reports polling).
Proof.
  unfold initial_result. destruct (check_response r) as [e|data].
  - intros (-> & ->). left. destruct (is_Timeout e); autorewrite with views; eauto 7.
  - intros (rest & -> & Hi).
    destruct (has_key data "review" || has_key data "branch")%bool.
    2:{ destruct Hi as (-> & ->). left. autorewrite with views. auto. }
    destruct (all_encodable (splitlines (found_message data))).
    2:{ destruct Hi as (-> & ->). left. autorewrite with views. auto. }
    destruct Hi as (rest' & -> & Hf). unfold flags_result in Hf.
    destruct (has_key data "disabled");
      [destruct Hf as (-> & ->); left; autorewrite with views; auto|].
    destruct (has_key data "update_ongoing");
      [destruct Hf as (-> & ->); left; autorewrite with views; auto|].
    destruct (has_key data "update_pending");
      [destruct Hf as (-> & ->); left; autorewrite with views; auto|].
    destruct (has_key data "update_triggered");
      [|destruct Hf as (-> & ->); left; autorewrite with views; auto].
    destruct (negb (has_key data "review"));
      [destruct Hf as (-> & ->); left; autorewrite with views; auto|].
    destruct Hf as (polling & Hpoll & ->). right. exists polling.
    autorewrite with views. cbn [posts readings reports app].
    split; [assumption|]. split; [reflexivity|]. split; [reflexivity|].
    eexists. rewrite app_assoc. reflexivity.
Qed.


(** C8. When git is asked for the ref and exits with an error, the value
    is the string of forty zeros: no explicit value had been given, the run
    goes on to the initial request, and the initial request and every
    other request of the run carry that value. *)
Theorem unresolved_ref_is_zero (fuel : nat) (args : Args) (w : W) (name : string) :
  head (rev_parses (run fuel args w).2) = Some (name, GitExits) ->
  zero_sha = "0000000000000000000000000000000000000000" /\
  String.length zero_sha = 40 /\
  str_truthy (sha args) = false /\
  (exists rq r, head (posts (run fuel args w).2) = Some (rq, r) /\
                rq_data rq !! "trigger" = Some (PyBool true)) /\
  Forall (carries_value zero_sha) (posts (run fuel args w).2).
Proof.
  intros Hh. split; [reflexivity|]. split; [reflexivity|].
  destruct (run_shape _ _ _ _ (run_behaves fuel args w)) as
    [(_ & _ & Hv & _)|[(_ & _ & _ & descr & Hv & _)|
     (_ & value & pre & start & t & r & tail & before & Hres & Hi & _ & Hp & _ & Hv & _)]];
    rewrite Hv in Hh; try discriminate.
  unfold resolved in Hres. destruct (str_truthy (sha args)).
  { destruct Hres as (_ & ->). autorewrite with views in Hh. discriminate. }
  destruct Hres as (g & -> & Hg). cbn [rev_parses head] in Hh.
  injection Hh as _ ->. subst value. split; [reflexivity|].
  destruct (initial_views _ _ _ _ _ _ _ Hi) as (Hall & _).
  rewrite Hp. split.
  - eexists _, r. split; [reflexivity|]. apply initial_request_data.
  - constructor; [apply initial_request_data|].
    eapply Forall_impl; [exact Hall|]. intros [rq' r'] Hd. unfold carries_value.
    cbn [fst] in *. rewrite Hd. apply (request_data_value (make_ctx args zero_sha) false).
Qed.

(** C9, as amended. When a non-empty value is given with [--sha], git is
    never asked, every request of the run carries that value as given, and
    unless the Critic URL is empty the initial request is made. *)
Theorem explicit_sha_is_used (fuel : nat) (args : Args) (w : W) (s : string) :
  sha args = Some s ->
  s <> "" ->
  rev_parses (run fuel args w).2 = [] /\
  Forall (carries_value s) (posts (run fuel args w).2) /\
  (critic_url args <> "" -> exists rq r, head (posts (run fuel args w).2) = Some (rq, r)).
Proof.
  intros Hs Hne.
  assert (Ht : str_truthy (sha args) = true).
  { rewrite Hs. cbn [str_truthy]. destruct (String.eqb_spec s ""); [contradiction|reflexivity]. }
  destruct (run_shape _ _ _ _ (run_behaves fuel args w)) as
    [(Hp & _ & Hv & Hu & _)|[(_ & _ & Hf & _)|
     (_ & value & pre & start & t & r & tail & before & Hres & Hi & _ & Hp & _ & Hv & _)]].
  - rewrite Hp, Hv. split; [reflexivity|]. split; [constructor|]. intros Hn. contradiction.
  - congruence.
  - unfold resolved in Hres. rewrite Ht in Hres. destruct Hres as (Hval & ->).
    rewrite Hs in Hval. injection Hval as <-.
    destruct (initial_views _ _ _ _ _ _ _ Hi) as (Hall & _).
    rewrite Hp, Hv. autorewrite with views. split; [reflexivity|]. split.
    + constructor; [apply initial_request_data|].
      eapply Forall_impl; [exact Hall|]. intros [rq' r'] Hd. unfold carries_value.
      cbn [fst] in *. rewrite Hd. apply (request_data_value (make_ctx args s) false).
    + intros _. eauto.
Qed.
End Claims.

(** ** The claims on sample runs *)

(** The scenario of the spec: the initial response names review R1 and a
    triggered update, the one poll request is answered with two lines of
    hook output and a successful update. *)
Example spec_scenario :
  run 5 (sim_args (Some a_sha) false) accepted_world =
    (Ok tt, (run 5 (sim_args (Some a_sha) false) accepted_world).2) /\
  length (posts (run 5 (sim_args (Some a_sha) false) accepted_world).2) = 2 /\
  stdout (run 5 (sim_args (Some a_sha) false) accepted_world).2 =
    ["[critic] b'Review: R1'";
     "[critic] b'Update triggered; waiting for it to complete...'";
     "[critic] ------------------------------------------------------------";
     "[critic] b'line1'"; "[critic] b'line2'";
     "[critic] ------------------------------------------------------------"].
Proof. vm_compute. repeat split; reflexivity. Qed.



(** C3, as amended, on the first two exchanges of the rejected update. *)
Lemma triggered_review_is_polled_witness :
  exists rq r,
    posts (run 1 (sim_args (Some a_sha) false) rejected_world).2 !! 1 = Some (rq, r) /\
    is_poll rq.
Proof.
  destruct (triggered_review_is_polled 1 (sim_args (Some a_sha) false) rejected_world
              (sample_request (sim_args (Some a_sha) false) a_sha)
              (json_reply triggered_fields) (list_to_map triggered_fields))
    as (_ & Hpolled); try (vm_compute; reflexivity).
  apply (Hpolled 1000%Q (2003 # 2)%Q); vm_compute; reflexivity.
Defined.




(** C7 on a response that has [update_triggered] and [hook_output] but
    neither [review] nor [branch], run with [--debug]. *)
Lemma nothing_to_update_witness :
  (run 3 (sim_args (Some a_sha) true) idle_world).1 = Ok tt /\
  length (posts (run 3 (sim_args (Some a_sha) true) idle_world).2) = 1 /\
  last (stdout (run 3 (sim_args (Some a_sha) true) idle_world).2) =
    Some "[critic:debug] b'Nothing to update!'".
Proof.
  destruct (nothing_to_update 3 (sim_args (Some a_sha) true) idle_world
              (sample_request (sim_args (Some a_sha) true) a_sha)
              (json_reply idle_fields) (list_to_map idle_fields))
    as (Ho & _ & Hp & _ & _); try (vm_compute; reflexivity).
  split; [exact Ho|]. split; [rewrite Hp; reflexivity|]. vm_compute. reflexivity.
Defined.

(** C8 on a run without [--sha] in a repository where git fails. *)
Lemma unresolved_ref_is_zero_witness :
  Forall (carries_value "0000000000000000000000000000000000000000")
    (posts (run 5 (sim_args None false) rejected_world).2) /\
  length (posts (run 5 (sim_args None false) rejected_world).2) = 3.
Proof.
  destruct (unresolved_ref_is_zero 5 (sim_args None false) rejected_world "refs/heads/master")
    as (Hzero & _ & _ & _ & Hall).
  - vm_compute. reflexivity.
  - split; [|vm_compute; reflexivity]. rewrite <- Hzero. exact Hall.
Defined.

(** C9, as amended, on a run in a repository where git would answer. *)
Lemma explicit_sha_is_used_witness :
  rev_parses (run 5 (sim_args (Some a_sha) false) resolving_world).2 = [] /\
  Forall (carries_value a_sha) (posts (run 5 (sim_args (Some a_sha) false) resolving_world).2).
Proof.
  destruct (explicit_sha_is_used 5 (sim_args (Some a_sha) false) resolving_world a_sha)
    as (Hgit & Hall & _).
  - reflexivity.
  - discriminate.
  - auto.
Defined.

(** C10 on a poll response with [hook_output] alone: the second request
    of the run is event 12 of its trace. *)
Lemma hook_output_without_update_successful_witness :
  (run 5 (sim_args (Some a_sha) false) unflagged_world).1 =
    Raised (KeyError "update_successful") /\
  exit_status (run 5 (sim_args (Some a_sha) false) unflagged_world).1 = Some 1%Z /\
  reports (drop 13 (run 5 (sim_args (Some a_sha) false) unflagged_world).2) = [].
Proof.
  assert (Hpost : exists rq,
            (run 5 (sim_args (Some a_sha) false) unflagged_world).2 !! 12 =
              Some (EvPost rq (json_reply unflagged_fields)) /\ is_poll rq).
  { vm_compute. eexists. split; reflexivity. }
  destruct Hpost as (rq & Hi & Hq).
  destruct (hook_output_without_update_successful 5 (sim_args (Some a_sha) false)
              unflagged_world 12 rq (json_reply unflagged_fields)
              (list_to_map unflagged_fields) Hi Hq)
    as (Ho & Hexit & _ & Hr); try (vm_compute; reflexivity).
  auto.
Defined.

(** ** Where the spec's sentences fail *)


(** C3, as stated, fails: an initial response with status ["ok"] that has
    [review] and [update_triggered] is followed by no poll request when it
    also has [disabled], when it arrives after the update timeout has run
    out, and when its review id holds a lone surrogate, line 256 then
    raising [UnicodeEncodeError]. *)
Lemma triggered_review_not_polled :
  (head (posts (run 5 (sim_args (Some a_sha) false) disabled_world).2) =
     Some (sample_request (sim_args (Some a_sha) false) a_sha, json_reply disabled_fields) /\
   ok_response (json_reply disabled_fields) (list_to_map disabled_fields) /\
   has_key (list_to_map disabled_fields) "review" = true /\
   has_key (list_to_map disabled_fields) "update_triggered" = true /\
   (run 5 (sim_args (Some a_sha) false) disabled_world).1 = Ok tt /\
   posts (run 5 (sim_args (Some a_sha) false) disabled_world).2 !! 1 = None) /\
  (head (posts (run 5 (sim_args (Some a_sha) false) late_world).2) =
     Some (sample_request (sim_args (Some a_sha) false) a_sha, json_reply triggered_fields) /\
   ok_response (json_reply triggered_fields) (list_to_map triggered_fields) /\
   has_key (list_to_map triggered_fields) "review" = true /\
   has_key (list_to_map triggered_fields) "update_triggered" = true /\
   (run 5 (sim_args (Some a_sha) false) late_world).1 = Ok tt /\
   posts (run 5 (sim_args (Some a_sha) false) late_world).2 !! 1 = None) /\
  (head (posts (run 5 (sim_args (Some a_sha) false) unencodable_triggered_world).2) =
     Some (sample_request (sim_args (Some a_sha) false) a_sha,
           json_reply unencodable_triggered_fields) /\
   ok_response (json_reply unencodable_triggered_fields)
     (list_to_map unencodable_triggered_fields) /\
   has_key (list_to_map unencodable_triggered_fields) "review" = true /\
   has_key (list_to_map unencodable_triggered_fields) "update_triggered" = true /\
   (run 5 (sim_args (Some a_sha) false) unencodable_triggered_world).1 =
     Raised UnicodeEncodeError /\
   posts (run 5 (sim_args (Some a_sha) false) unencodable_triggered_world).2 !! 1 = None).
Proof. repeat apply conj; vm_compute; reflexivity. Qed.


(** C9, as stated, fails: with [--sha ""] a value is given on the command
    line, yet git is asked and the request carries what git answered. *)
Lemma empty_sha_consults_git :
  rev_parses (run 5 (sim_args (Some "") false) resolving_world).2 =
    [("refs/heads/master", GitOutput "52b1e1ac0bd1b2dd43e3bd06b4c1a0ff4dc6d9ae")] /\
  Forall (carries_value "52b1e1ac0bd1b2dd43e3bd06b4c1a0ff4dc6d9ae")
    (posts (run 5 (sim_args (Some "") false) resolving_world).2) /\
  length (posts (run 5 (sim_args (Some "") false) resolving_world).2) = 1.
Proof.
  split; [vm_compute; reflexivity|]. split; [|vm_compute; reflexivity].
  repeat constructor.
Qed.

(** * Further properties of the script *)

(** ** Every event of a run is one the script makes *)
Section Events.
Context `{!PyRuntime}.

Lemma Forall_dbg_events (args : Args) (value : string) (start : Q) (message : string) :
  Forall (script_event args value start) (dbg_events (debug args) message).
Proof. unfold dbg_events. apply Forall_map, Forall_forall. intros line _. constructor. Qed.

Lemma Forall_prog_events (args : Args) (value : string) (start : Q) (message : string) :
  Forall (script_event args value start) (prog_events message).
Proof. unfold prog_events. apply Forall_map, Forall_forall. intros line _. constructor. Qed.

Lemma Forall_err_events (args : Args) (value : string) (start : Q) (message : string) :
  Forall (script_event args value start) (err_events message).
Proof. unfold err_events. apply Forall_map, Forall_forall. intros line _. constructor. Qed.

Lemma Forall_prog_cut (args : Args) (value : string) (start : Q) (message : string) :
  Forall (script_event args value start) (prog_cut message).
Proof. unfold prog_cut. apply Forall_map, Forall_forall. intros line _. constructor. Qed.

Lemma Forall_hook_events (args : Args) (value : string) (start : Q) (message : string) :
  Forall (script_event args value start) (hook_events message).
Proof.
  unfold hook_events. constructor; [constructor|].
  apply Forall_app. split; [apply Forall_prog_events|]. repeat constructor.
Qed.

Lemma Forall_reject_events (args : Args) (value : string) (start : Q) (ok : pyval) :
  Forall (script_event args value start) (reject_events ok).
Proof.
  unfold reject_events. destruct (negb (truthy ok)); [apply Forall_err_events|constructor].
Qed.

Lemma Forall_handler_events (args : Args) (value : string) (start : Q) (o : Outcome unit) :
  Forall (script_event args value start) (handler_events (debug args) o).
Proof.
  unfold handler_events, exc_events. destruct o as [|e|]; try constructor.
  destruct (is_Exception e); [|constructor].
  apply Forall_app. split; apply Forall_dbg_events.
Qed.

Lemma Forall_pass_end (args : Args) (value : string) (start : Q) (r : PostResult)
    (o : Outcome unit) (tail : list Event) :
  pass_end r = Some (o, tail) -> Forall (script_event args value start) tail.
Proof.
  unfold pass_end. intros He.
  destruct (check_response r) as [e|data].
  - destruct (is_Timeout e); [discriminate|]. injection He as <- <-. constructor.
  - destruct (has_key data "hook_output").
    + destruct (data !! "update_successful") as [ok|];
        [|injection He as <- <-; constructor].
      destruct (data !! "hook_output") as [[| | | |out| |]|];
        try destruct (all_encodable (splitlines out));
        injection He as <- <-;
        apply Forall_app; (split; [apply Forall_reject_events|]);
        try apply Forall_hook_events;
        try (constructor; [constructor|apply Forall_prog_cut]);
        repeat constructor.
    + destruct (negb _); [|discriminate]. injection He as <- <-.
      apply Forall_prog_events.
Qed.

Lemma Forall_pass_wait (args : Args) (value : string) (start : Q) (deadline : Q)
    (r : PostResult) (tail : list Event) :
  pass_wait deadline r tail -> Forall (script_event args value start) tail.
Proof.
  unfold pass_wait. destruct (check_response r).
  - intros ->. constructor.
  - intros (t & ->). constructor; [constructor|].
    destruct (Qlt_le_dec 0 (deadline - t)); repeat constructor. assumption.
Qed.

Lemma Forall_poll_run (args : Args) (value : string) (start : Q) (n : nat)
    (o : Outcome unit) (tr : list Event) :
  poll_run (make_ctx args value) (start + inject_Z update_timeout)%Q (debug args) n o tr ->
  Forall (script_event args value start) tr.
Proof.
  induction 1 as [|n t Hle|n t t' r o tail Hlt He|n t t' r tail o rest Hlt He Hw Hr IH].
  - constructor.
  - constructor; [constructor|apply Forall_prog_events].
  - constructor; [constructor|]. unfold request_events.
    repeat (apply Forall_app; split); try apply Forall_dbg_events.
    + repeat constructor.
    + eapply Forall_pass_end; eassumption.
  - constructor; [constructor|]. unfold request_events.
    repeat (apply Forall_app; split); try apply Forall_dbg_events; try assumption.
    + repeat constructor.
    + eapply Forall_pass_wait; eassumption.
Qed.

Lemma Forall_initial_result (fuel : nat) (args : Args) (value : string) (start : Q)
    (r : PostResult) (o : Outcome unit) (tail : list Event) :
  initial_result fuel (make_ctx args value) (debug args) start r o tail ->
  Forall (script_event args value start) tail.
Proof.
  unfold initial_result. destruct (check_response r) as [e|data].
  - intros (_ & ->). destruct (is_Timeout e); [apply Forall_err_events|constructor].
  - intros (rest & -> & Hi). apply Forall_app. split; [apply Forall_dbg_events|].
    destruct (has_key data "review" || has_key data "branch")%bool.
    2:{ destruct Hi as (_ & ->). apply Forall_dbg_events. }
    destruct (all_encodable (splitlines (found_message data))).
    2:{ destruct Hi as (_ & ->). apply Forall_prog_cut. }
    destruct Hi as (rest' & -> & Hf). apply Forall_app. split; [apply Forall_prog_events|].
    unfold flags_result in Hf.
    destruct (has_key data "disabled"); [destruct Hf as (_ & ->); apply Forall_prog_events|].
    destruct (has_key data "update_ongoing");
      [destruct Hf as (_ & ->); apply Forall_prog_events|].
    destruct (has_key data "update_pending");
      [destruct Hf as (_ & ->); apply Forall_prog_events|].
    destruct (has_key data "update_triggered"); [|destruct Hf as (_ & ->); constructor].
    destruct (negb (has_key data "review"));
      [destruct Hf as (_ & ->); apply Forall_prog_events|].
    destruct Hf as (polling & Hpoll & ->).
    apply Forall_app. split; [apply Forall_prog_events|].
    constructor; [constructor|]. eapply Forall_poll_run; eassumption.
Qed.

(** Every event of a run is a call the script makes, with one value of
    the ref and one start time throughout. *)
Lemma run_events (fuel : nat) (args : Args) (o : Outcome unit) (tr : list Event) :
  run_behaviour fuel args o tr ->
  exists value start, Forall (script_event args value start) tr.
Proof.
  intros [(_ & _ & ->)|[(_ & Hs & descr & _ & ->)|(_ & value & pre & start & t & r & tail & Hres & Hi & ->)]].
  - exists "", 0%Q. apply Forall_err_events.
  - exists "", 0%Q. constructor; [now constructor|].
    apply (Forall_handler_events args "" 0%Q (Raised (OSError descr))).
  - exists value, start.
    repeat (apply Forall_app; split).
    + unfold resolved in Hres. destruct (str_truthy (sha args)) eqn:Hs.
      * destruct Hres as (_ & ->). apply Forall_dbg_events.
      * destruct Hres as (g & -> & _). constructor; [now constructor|apply Forall_dbg_events].
    + constructor; [constructor|]. unfold request_events.
      repeat (apply Forall_app; split); try apply Forall_dbg_events.
      * repeat constructor.
      * eapply Forall_initial_result; eassumption.
      * apply Forall_handler_events.
Qed.
End Events.

(** ** The script from [pars_arguments] on *)
Section Script.
Context {W : Type} `{!Environment W} `{!PyRuntime}.

(** What [pars_arguments] logs: the lines of [str(args)], as debug lines
    that are not written, since the flag is not yet set. *)
Lemma script_run (fuel : nat) (args : Args) (w : W) :
  script fuel args w =
  ((run fuel args w).1, dbg_events false (str_args args) ++ (run fuel args w).2).
Proof.
  unfold script, run, pars_arguments.
  rewrite !bind_run, print_debug_run by apply str_args_encodable.
  cbn [mret run_ret g_debug app]. rewrite app_nil_r.
  now destruct (main fuel args {| world := w; g_debug := false |}) as [[o st] tr].
Qed.

Lemma stdout_app (l1 l2 : list Event) : stdout (l1 ++ l2) = stdout l1 ++ stdout l2.
Proof.
  induction l1 as [|[line []| | | |] l1 IH]; cbn [stdout app]; rewrite ?IH; reflexivity.
Qed.

Lemma stdout_dbg_unset (m : string) : stdout (dbg_events false m) = [].
Proof. unfold dbg_events. induction (splitlines m); [reflexivity|assumption]. Qed.

Lemma log_lines_dbg (b : bool) (m : string) :
  log_lines (dbg_events b m) =
  map (fun line => "[critic:debug] " +:+ bytes_str line) (splitlines m).
Proof.
  unfold dbg_events. induction (splitlines m) as [|line lines IH]; [reflexivity|].
  cbn [map log_lines]. now rewrite IH.
Qed.

Lemma sleeps_app (l1 l2 : list Event) : sleeps (l1 ++ l2) = sleeps l1 ++ sleeps l2.
Proof.
  induction l1 as [|[] l1 IH]; cbn [sleeps app]; rewrite ?IH; reflexivity.
Qed.

Lemma sleeps_dbg (b : bool) (m : string) : sleeps (dbg_events b m) = [].
Proof. unfold dbg_events. induction (splitlines m); [reflexivity|assumption]. Qed.
End Script.

(** ** What is written, and where *)
Section Output.
Context {W : Type} `{!Environment W} `{!PyRuntime}.

Lemma printable_app (s1 s2 : string) :
  printable s1 = true -> printable s2 = true -> printable (s1 +:+ s2) = true.
Proof.
  intros H1 H2. induction s1 as [|c s1 IH]; [exact H2|].
  change (String c s1 +:+ s2) with (String c (s1 +:+ s2)).
  cbn [printable] in *. apply andb_prop in H1 as (Hc & H1).
  now rewrite Hc, (IH H1).
Qed.

Lemma repr_byte_printable (q c : ascii) :
  q = squote \/ q = dquote -> printable (repr_byte q c) = true.
Proof.
  intros [->| ->]; destruct c as [[] [] [] [] [] [] [] []]; vm_compute; reflexivity.
Qed.

Lemma bytes_quote_cases (b : string) : bytes_quote b = squote \/ bytes_quote b = dquote.
Proof. unfold bytes_quote. destruct (_ && _)%bool; auto. Qed.

(** The bytes literal of any byte string is printable ASCII text. *)
Lemma bytes_str_printable (b : string) : printable (bytes_str b) = true.
Proof.
  unfold bytes_str. cbv zeta. pose proof (bytes_quote_cases b) as Hq.
  set (q := bytes_quote b) in *. clearbody q.
  assert (Hqp : printable_char q = true) by (destruct Hq as [->| ->]; reflexivity).
  cbn [printable]. rewrite Hqp. change (printable_char "b") with true. cbn [andb].
  apply printable_app; [|cbn [printable]; now rewrite Hqp].
  induction b as [|c b IH]; [reflexivity|]. cbn [repr_bytes_body].
  apply printable_app; [now apply repr_byte_printable|exact IH].
Qed.

Lemma script_event_log (args : Args) (value : string) (start : Q) (line : string) (p : bool) :
  script_event args value start (EvLog line p) ->
  printable line = true /\
  p = (if is_debug_line line then debug args else true).
Proof.
  inversion 1; subst.
  - split; [apply printable_app; [reflexivity|apply bytes_str_printable]|reflexivity].
  - split; [apply printable_app; [reflexivity|apply bytes_str_printable]|reflexivity].
  - split; [apply printable_app; [reflexivity|apply bytes_str_printable]|reflexivity].
  - split; [vm_compute; reflexivity|reflexivity].
Qed.

(** X1. What reaches standard output in a run of the script.  The debug
    line that [pars_arguments] logs is never written, since [main] has not
    yet set the flag.  From [main] on, with [--debug] every logged line is
    written; without it exactly the lines that do not carry the debug tag
    are, in the order they were logged. *)
Theorem stdout_discipline (fuel : nat) (args : Args) (w : W) :
  log_lines (script fuel args w).2 =
    map (fun line => "[critic:debug] " +:+ bytes_str line) (splitlines (str_args args)) ++
    log_lines (run fuel args w).2 /\
  stdout (script fuel args w).2 =
    if debug args then log_lines (run fuel args w).2 else reports (script fuel args w).2.
Proof.
  rewrite script_run. cbn [snd].
  rewrite log_lines_app, log_lines_dbg, stdout_app, stdout_dbg_unset.
  autorewrite with views. cbn [app]. split; [reflexivity|].
  destruct (run_events _ _ _ _ (run_behaves fuel args w)) as (value & start & Hall).
  induction Hall as [|ev tr Hev Hall IH]; [now destruct (debug args)|].
  destruct ev as [line p| | | |]; cbn [stdout log_lines reports]; try exact IH.
  destruct (script_event_log _ _ _ _ _ Hev) as (_ & ->).
  destruct (is_debug_line line), (debug args); cbn [stdout]; rewrite IH; reflexivity.
Qed.

(** X2. Every line the script logs, hence every line it writes, is
    printable ASCII text, whatever the server and git answer. *)
Theorem log_lines_printable (fuel : nat) (args : Args) (w : W) :
  Forall (fun line => printable line = true) (log_lines (run fuel args w).2).
Proof.
  destruct (run_events _ _ _ _ (run_behaves fuel args w)) as (value & start & Hall).
  induction Hall as [|ev tr Hev Hall IH]; [constructor|].
  destruct ev as [line p| | | |]; cbn [log_lines]; try exact IH.
  constructor; [|exact IH]. eapply script_event_log; eassumption.
Qed.

(** X3. The script never sleeps for more than half a second at a time, and
    never for a time that is not positive. *)
Theorem sleeps_bounded (fuel : nat) (args : Args) (w : W) :
  Forall (fun d => (0 < d)%Q /\ (d <= half)%Q) (sleeps (run fuel args w).2).
Proof.
  destruct (run_events _ _ _ _ (run_behaves fuel args w)) as (value & start & Hall).
  induction Hall as [|ev tr Hev Hall IH]; [constructor|].
  destruct ev as [| |d| |]; cbn [sleeps]; try exact IH.
  constructor; [|exact IH]. inversion Hev; subst.
  - split; [reflexivity|apply Qle_refl].
  - split; [apply Q.min_glb_lt; [reflexivity|assumption]|apply Q.le_min_l].
Qed.
End Output.

(** ** The requests of a run *)
Section Requests.
Context {W : Type} `{!Environment W} `{!PyRuntime}.

Lemma posts_Forall (P : Event -> Prop) (Q : Request * PostResult -> Prop) (tr : list Event) :
  (forall rq r, P (EvPost rq r) -> Q (rq, r)) ->
  Forall P tr -> Forall Q (posts tr).
Proof.
  intros HPQ Hall. induction Hall as [|ev tr Hev Hall IH]; [constructor|].
  destruct ev; cbn [posts]; auto.
Qed.

Lemma request_data_differ (c : Ctx) : request_data c true <> request_data c false.
Proof.
  intros Heq. pose proof (request_data_trigger c) as Ht.
  rewrite Heq, request_data_poll in Ht. discriminate.
Qed.

(** The requests of a run: none, or the initial request with its trigger
    and the five second deadline, then requests without trigger under the
    thirty second deadline, all built from one value and one start time. *)
Lemma run_posts_shape (fuel : nat) (args : Args) (o : Outcome unit) (tr : list Event) :
  run_behaviour fuel args o tr ->
  posts tr = [] \/
  exists value start t r rest,
    readings AtStart tr = [start] /\
    posts tr = (make_request (make_ctx args value)
                  (start + inject_Z connection_timeout) t true, r) :: rest /\
    Forall (fun p : Request * PostResult =>
              exists t', p.1 = make_request (make_ctx args value)
                                 (start + inject_Z update_timeout) t' false) rest.
Proof.
  intros Hb. destruct (run_shape _ _ _ _ Hb) as
    [(Hp & _)|[(Hp & _)|(_ & value & pre & start & t & r & tail & before & _ & Hi & _ & Hp & _ & _ & Hs & _)]];
    auto.
  right. exists value, start, t, r, (posts tail). split; [assumption|]. split; [assumption|].
  destruct (initial_views _ _ _ _ _ _ _ Hi) as (Hdata & _).
  pose proof (posts_Forall _ (fun p => script_event args value start (EvPost p.1 p.2)) _
                (fun rq r H => H) (Forall_initial_result _ _ _ _ _ _ _ Hi)) as Hev.
  rewrite Forall_forall in Hdata, Hev. apply Forall_forall. intros [rq r'] Hin.
  specialize (Hdata _ Hin). specialize (Hev _ Hin). cbn [fst snd] in *.
  inversion Hev; subst.
  - exfalso. cbn [rq_data make_request] in Hdata.
    exact (request_data_differ _ Hdata).
  - eauto.
Qed.

(** X4. All the requests of a run are posted to one URL, the Critic URL
    followed by the hook path, with the same keyword arguments, and carry
    the same [remote], [name] and [value] and a true
    [disable_remote_transform]. *)
Theorem requests_are_uniform (fuel : nat) (args : Args) (w : W) :
  exists value,
    Forall (fun p : Request * PostResult =>
              rq_url p.1 = endpoint (critic_url args) /\
              rq_kwargs p.1 = make_kwargs args /\
              rq_data p.1 !! "remote" = Some (PyStr (repository_url args)) /\
              rq_data p.1 !! "name" = Some (PyStr (ref args)) /\
              rq_data p.1 !! "value" = Some (PyStr value) /\
              rq_data p.1 !! "disable_remote_transform" = Some (PyBool true))
      (posts (run fuel args w).2).
Proof.
  assert (Hfields : forall value deadline t trigger,
            let rq := make_request (make_ctx args value) deadline t trigger in
            rq_url rq = endpoint (critic_url args) /\
            rq_kwargs rq = make_kwargs args /\
            rq_data rq !! "remote" = Some (PyStr (repository_url args)) /\
            rq_data rq !! "name" = Some (PyStr (ref args)) /\
            rq_data rq !! "value" = Some (PyStr value) /\
            rq_data rq !! "disable_remote_transform" = Some (PyBool true)).
  { intros value deadline t trigger. cbv zeta. cbn [make_request rq_url rq_kwargs rq_data].
    unfold request_data.
    destruct trigger; repeat split;
      rewrite ?lookup_insert_ne by discriminate; try apply lookup_insert_eq; reflexivity. }
  destruct (run_posts_shape _ _ _ _ (run_behaves fuel args w)) as
    [->|(value & start & t & r & rest & _ & -> & Hrest)].
  - exists "". constructor.
  - exists value. constructor; [apply Hfields|].
    eapply Forall_impl; [exact Hrest|]. intros [rq r'] (t' & Hrq). cbn [fst] in *.
    rewrite Hrq. apply Hfields.
Qed.

(** X5. The body of the first request of a run has exactly the fields
    [remote], [name], [value], [disable_remote_transform] and [trigger],
    with a true [trigger]; the body of every later request has exactly the
    first four. *)
Theorem trigger_only_first (fuel : nat) (args : Args) (w : W) (p : Request * PostResult)
    (rest : list (Request * PostResult)) :
  posts (run fuel args w).2 = p :: rest ->
  rq_data p.1 !! "trigger" = Some (PyBool true) /\
  dom (rq_data p.1) =
    ({["remote"; "name"; "value"; "disable_remote_transform"; "trigger"]} : gset string) /\
  Forall (fun p' : Request * PostResult =>
            dom (rq_data p'.1) =
              ({["remote"; "name"; "value"; "disable_remote_transform"]} : gset string))
    rest.
Proof.
  intros Hp.
  assert (Hdom : forall c trigger,
            dom (request_data c trigger) =
            (if trigger
             then {["remote"; "name"; "value"; "disable_remote_transform"; "trigger"]}
             else {["remote"; "name"; "value"; "disable_remote_transform"]} : gset string)).
  { intros c trigger. unfold request_data. destruct trigger;
      rewrite !dom_insert_L, dom_empty_L; set_solver. }
  destruct (run_posts_shape _ _ _ _ (run_behaves fuel args w)) as
    [Hnil|(value & start & t & r & rest' & _ & Hposts & Hrest)]; [congruence|].
  rewrite Hposts in Hp. injection Hp as <- <-. cbn [fst rq_data make_request].
  split; [apply request_data_trigger|]. split; [apply (Hdom _ true)|].
  eapply Forall_impl; [exact Hrest|]. intros [rq r'] (t' & Hrq). cbn [fst] in *.
  rewrite Hrq. apply (Hdom _ false).
Qed.
End Requests.

(** ** The timeout given to each request *)
Section Timeouts.
Context {W : Type} `{!Environment W} `{!PyRuntime}.

Lemma pass_wait_requests (deadline : Q) (r : PostResult) (tail : list Event) :
  pass_wait deadline r tail -> readings AtRequest tail = [].
Proof.
  unfold pass_wait. destruct (check_response r).
  - now intros ->.
  - intros (t & ->). now destruct (Qlt_le_dec 0 (deadline - t)).
Qed.

Lemma poll_run_timeouts (c : Ctx) (deadline : Q) (dbg : bool) (n : nat) (o : Outcome unit)
    (tr : list Event) :
  poll_run c deadline dbg n o tr ->
  timeouts tr = map (fun t => (deadline - t + half)%Q) (readings AtRequest tr).
Proof.
  unfold timeouts.
  induction 1 as [|n t Hle|n t t' r o tail Hlt He|n t t' r tail o rest Hlt He Hw Hr IH].
  - reflexivity.
  - cbn [posts readings]. now autorewrite with views.
  - destruct (pass_end_silent _ _ _ He) as (Hp & _ & Hs).
    cbn [posts readings]. autorewrite with views. now rewrite Hp, Hs.
  - destruct (pass_wait_silent _ _ _ Hw) as (Hp & _).
    cbn [posts readings]. autorewrite with views.
    rewrite Hp, (pass_wait_requests _ _ _ Hw). cbn [app map]. now rewrite IH.
Qed.

Lemma initial_timeouts (fuel : nat) (c : Ctx) (dbg : bool) (start : Q) (r : PostResult)
    (o : Outcome unit) (tail : list Event) :
  initial_result fuel c dbg start r o tail ->
  timeouts tail =
    map (fun t => (start + inject_Z update_timeout - t + half)%Q) (readings AtRequest tail).
Proof.
  unfold initial_result, timeouts. destruct (check_response r) as [e|data].
  - intros (_ & ->). destruct (is_Timeout e); now autorewrite with views.
  - intros (rest & -> & Hi).
    destruct (has_key data "review" || has_key data "branch")%bool.
    2:{ destruct Hi as (_ & ->). now autorewrite with views. }
    destruct (all_encodable (splitlines (found_message data))).
    2:{ destruct Hi as (_ & ->). now autorewrite with views. }
    destruct Hi as (rest' & -> & Hf). unfold flags_result in Hf.
    destruct (has_key data "disabled"); [destruct Hf as (_ & ->); now autorewrite with views|].
    destruct (has_key data "update_ongoing");
      [destruct Hf as (_ & ->); now autorewrite with views|].
    destruct (has_key data "update_pending");
      [destruct Hf as (_ & ->); now autorewrite with views|].
    destruct (has_key data "update_triggered");
      [|destruct Hf as (_ & ->); now autorewrite with views].
    destruct (negb (has_key data "review"));
      [destruct Hf as (_ & ->); now autorewrite with views|].
    destruct Hf as (polling & Hpoll & ->).
    autorewrite with views. cbn [posts readings app].
    exact (poll_run_timeouts _ _ _ _ _ _ Hpoll).
Qed.

(** X6. The timeout given to a request is the time left, at the clock
    reading of line 238, until the deadline in force, plus half a second:
    the start of the run plus 5 seconds for the first request, plus 30
    seconds for every later one. *)
Theorem timeouts_follow_the_deadline (fuel : nat) (args : Args) (w : W) :
  (timeouts (run fuel args w).2 = [] /\ readings AtRequest (run fuel args w).2 = []) \/
  exists start t ts,
    readings AtStart (run fuel args w).2 = [start] /\
    readings AtRequest (run fuel args w).2 = t :: ts /\
    timeouts (run fuel args w).2 =
      (start + inject_Z connection_timeout - t + half)%Q ::
      map (fun t' => (start + inject_Z update_timeout - t' + half)%Q) ts.
Proof.
  destruct (run_behaves fuel args w) as
    [(_ & _ & ->)|[(_ & _ & descr & _ & ->)|(_ & value & pre & start & t & r & tail & Hres & Hi & ->)]].
  - left. unfold timeouts. now autorewrite with views.
  - left. unfold timeouts. cbn [posts readings]. now autorewrite with views.
  - right. exists start, t, (readings AtRequest tail).
    destruct (resolved_silent _ _ _ Hres) as (Hp & _ & Hs).
    destruct (handler_silent (debug args) (run fuel args w).1) as (Hp' & _ & _ & Hs').
    destruct (initial_views _ _ _ _ _ _ _ Hi) as (_ & _ & Hst).
    pose proof (initial_timeouts _ _ _ _ _ _ _ Hi) as Ht. unfold timeouts in *.
    autorewrite with views. cbn [posts readings]. autorewrite with views.
    rewrite Hp, Hp', !Hs, !Hs', Hst. autorewrite with views. cbn [app map].
    rewrite Ht. auto.
Qed.
End Timeouts.

(** ** Failures before and during the exchange *)
Section Failures.
Context {W : Type} `{!Environment W} `{!PyRuntime}.

(** X7. With an empty Critic URL the script logs the debug line of
    [pars_arguments], then writes the error line "No Critic URL set!" and
    leaves with [sys.exit(1)]: nothing else is written, git is not asked, no
    request is made, and the handler of line 304 logs nothing. *)
Theorem empty_url_exits (fuel : nat) (args : Args) (w : W) :
  critic_url args = "" ->
  script fuel args w =
    (Raised (SystemExit 1),
     dbg_events false (str_args args) ++
     [EvLog "[critic:error] b'No Critic URL set!'" true]) /\
  exit_status (script fuel args w).1 = Some 1%Z /\
  stdout (script fuel args w).2 = ["[critic:error] b'No Critic URL set!'"] /\
  posts (script fuel args w).2 = [] /\
  rev_parses (script fuel args w).2 = [].
Proof.
  intros Hu. rewrite script_run. rewrite (surjective_pairing (run fuel args w)).
  destruct (run_behaves fuel args w) as [(_ & -> & ->)|[(Hn & _)|(Hn & _)]];
    try contradiction.
  cbn [fst snd]. rewrite stdout_app, stdout_dbg_unset. autorewrite with views.
  repeat split.
Qed.

(** X8. When git cannot be run at all, the run ends with that exception
    and exit status 1 without making any request; its trace is the call of
    git followed by the debug lines of the handler. *)
Theorem git_failure_is_fatal (fuel : nat) (args : Args) (w : W) (name descr : string) :
  head (rev_parses (run fuel args w).2) = Some (name, GitFails descr) ->
  (run fuel args w).1 = Raised (OSError descr) /\
  exit_status (run fuel args w).1 = Some 1%Z /\
  posts (run fuel args w).2 = [] /\
  (run fuel args w).2 =
    EvRevParse (ref args) (GitFails descr) :: exc_events (debug args) (OSError descr).
Proof.
  intros Hh.
  destruct (run_behaves fuel args w) as
    [(_ & _ & Htr)|[(_ & _ & descr' & Ho & Htr)|(_ & value & pre & start & t & r & tail & Hres & Hi & Htr)]];
    rewrite Htr in Hh.
  - autorewrite with views in Hh. discriminate.
  - cbn [rev_parses head] in Hh. injection Hh as _ <-.
    rewrite Ho, Htr. cbn [posts]. autorewrite with views. auto.
  - exfalso. destruct (handler_silent (debug args) (run fuel args w).1) as (_ & _ & Hv' & _).
    destruct (initial_views _ _ _ _ _ _ _ Hi) as (_ & Hv & _).
    autorewrite with views in Hh. cbn [rev_parses] in Hh. autorewrite with views in Hh.
    rewrite Hv, Hv' in Hh. autorewrite with views in Hh.
    unfold resolved in Hres. destruct (str_truthy (sha args)).
    + destruct Hres as (_ & ->). autorewrite with views in Hh. discriminate.
    + destruct Hres as (g & -> & Hg). cbn [rev_parses head] in Hh.
      injection Hh as _ ->. exact Hg.
Qed.

Lemma lstrip_graphic (c : ascii) (rest : string) :
  graphic_char c = true -> lstrip (String c rest) = String c rest.
Proof.
  intros Hc. unfold graphic_char in Hc. apply andb_prop in Hc as (Hlo & Hhi).
  apply Nat.leb_le in Hlo, Hhi. cbn [lstrip].
  assert (H1 : is_space1 c = false).
  { unfold is_space1. cbv zeta.
    destruct (Nat.leb_spec 9 (nat_of_ascii c)), (Nat.leb_spec (nat_of_ascii c) 13),
      (Nat.leb_spec 28 (nat_of_ascii c)), (Nat.leb_spec (nat_of_ascii c) 32);
      try reflexivity; lia. }
  rewrite H1. destruct rest as [|c2 [|c3 rest]]; try reflexivity.
  - unfold is_space2. destruct (Nat.eqb_spec (nat_of_ascii c) 194); [lia|reflexivity].
  - unfold is_space2, is_space3. cbv zeta.
    destruct (Nat.eqb_spec (nat_of_ascii c) 194); [lia|].
    destruct (Nat.eqb_spec (nat_of_ascii c) 225); [lia|].
    destruct (Nat.eqb_spec (nat_of_ascii c) 226); [lia|].
    destruct (Nat.eqb_spec (nat_of_ascii c) 227); [lia|]. reflexivity.
Qed.

(** A line of git's output without its line feed. *)
Lemma str_strip_line (id : string) :
  graphic id = true -> str_strip (id +:+ String "010" "") = id.
Proof.
  intros Hid. unfold str_strip.
  assert (Hr : rstrip (id +:+ String "010" "") = id).
  { induction id as [|c id IH]; [reflexivity|].
    cbn [graphic] in Hid. apply andb_prop in Hid as (Hc & Hid).
    change (String c id +:+ String "010" "") with (String c (id +:+ String "010" "")).
    cbn [rstrip]. rewrite (lstrip_graphic _ _ Hc). cbn [String.eqb]. now rewrite (IH Hid). }
  destruct id as [|c id]; [reflexivity|].
  cbn [graphic] in Hid. apply andb_prop in Hid as (Hc & Hid).
  change (String c id +:+ String "010" "") with (String c (id +:+ String "010" "")) in *.
  now rewrite (lstrip_graphic _ _ Hc).
Qed.

(** X9. When git answers, the value sent is its output with the white
    space of [str.strip()] removed from both ends, in the initial request
    and in every other request of the run; for a commit id followed by a
    line feed, as git prints it, that is the commit id. *)
Theorem resolved_ref_is_stripped (fuel : nat) (args : Args) (w : W) (name out : string) :
  head (rev_parses (run fuel args w).2) = Some (name, GitOutput out) ->
  str_truthy (sha args) = false /\
  (exists rq r, head (posts (run fuel args w).2) = Some (rq, r)) /\
  Forall (carries_value (str_strip out)) (posts (run fuel args w).2) /\
  (forall id, graphic id = true -> out = id +:+ String "010" "" ->
     Forall (carries_value id) (posts (run fuel args w).2)).
Proof.
  intros Hh.
  assert (Hmain : str_truthy (sha args) = false /\
                  (exists rq r, head (posts (run fuel args w).2) = Some (rq, r)) /\
                  Forall (carries_value (str_strip out)) (posts (run fuel args w).2)).
  { destruct (run_shape _ _ _ _ (run_behaves fuel args w)) as
      [(_ & _ & Hv & _)|[(_ & _ & _ & descr & Hv & _)|
       (_ & value & pre & start & t & r & tail & pfx & Hres & Hi & _ & Hp & _ & Hv & _)]];
      rewrite Hv in Hh; try discriminate.
    unfold resolved in Hres. destruct (str_truthy (sha args)).
    { destruct Hres as (_ & ->). autorewrite with views in Hh. discriminate. }
    destruct Hres as (g & -> & Hg). cbn [rev_parses head] in Hh.
    injection Hh as _ ->. subst value. split; [reflexivity|].
    destruct (initial_views _ _ _ _ _ _ _ Hi) as (Hall & _).
    rewrite Hp. split; [eauto|].
    constructor; [apply (request_data_value (make_ctx args (str_strip out)) true)|].
    eapply Forall_impl; [exact Hall|]. intros [rq' r'] Hd. unfold carries_value.
    cbn [fst] in *. rewrite Hd.
    apply (request_data_value (make_ctx args (str_strip out)) false). }
  destruct Hmain as (Hs & Hp & Hall). repeat split; try assumption.
  intros id Hid ->. now rewrite (str_strip_line _ Hid) in Hall.
Qed.

Lemma check_response_exception (r : PostResult) (e : Exn) :
  check_response r = inl e -> exit_status (Raised (A:=unit) e) = Some 1%Z.
Proof.
  unfold check_response, request_failed. intros Hc.
  destruct r as [| |resp]; try (injection Hc as <-; reflexivity).
  destruct (status_is_error resp); [injection Hc as <-; reflexivity|].
  destruct (content_json resp) as [[]|]; try (injection Hc as <-; reflexivity).
  destruct (d !! "status") as [status|]; [|injection Hc as <-; reflexivity].
  destruct (is_ok status); [discriminate|].
  destruct (d !! "error") as [[]|]; injection Hc as <-; reflexivity.
Qed.


Lemma Forall_debug_lines (dbg : bool) (message : string) :
  Forall (fun ev => exists line, ev = EvLog line dbg /\ is_debug_line line = true)
    (dbg_events dbg message).
Proof.
  unfold dbg_events. apply Forall_map, Forall_forall. intros line _.
  eexists. split; reflexivity.
Qed.

(** X11. A run of [main] that ends with an exception raised under the
    [try] of line 206 exits with status 1, and the handler has logged the
    debug line "Exception:" after everything else: what follows that line
    in the trace is debug lines only, written under [--debug] alone. *)
Theorem exceptions_are_logged (fuel : nat) (args : Args) (w : W) (e : Exn) :
  (run fuel args w).1 = Raised e ->
  is_Exception e = true ->
  exit_status (run fuel args w).1 = Some 1%Z /\
  exists before after,
    (run fuel args w).2 =
      before ++ EvLog "[critic:debug] b'Exception:'" (debug args) :: after /\
    Forall (fun ev => exists line, ev = EvLog line (debug args) /\ is_debug_line line = true)
      after.
Proof.
  intros Ho He. split; [rewrite Ho; now destruct e|].
  assert (Hexc : exc_events (debug args) e =
                 EvLog "[critic:debug] b'Exception:'" (debug args) ::
                 dbg_events (debug args) (format_exc e)) by reflexivity.
  destruct (run_behaves fuel args w) as
    [(_ & Ho' & _)|[(_ & _ & descr & Ho' & ->)|(_ & value & pre & start & t & r & tail & _ & _ & ->)]].
  - rewrite Ho' in Ho. injection Ho as <-. discriminate.
  - rewrite Ho' in Ho. injection Ho as <-.
    exists [EvRevParse (ref args) (GitFails descr)], (dbg_events (debug args) (format_exc (OSError descr))).
    split; [reflexivity|apply Forall_debug_lines].
  - rewrite Ho. cbn [handler_events]. rewrite He, Hexc.
    eexists _, (dbg_events (debug args) (format_exc e)).
    split; [|apply Forall_debug_lines].
    rewrite app_comm_cons, !app_assoc. reflexivity.
Qed.
End Failures.

(** ** The responses that end a run, and the one that does not *)
Section Responses.
Context {W : Type} `{!Environment W} `{!PyRuntime}.

(** X12. A poll response with status ["ok"] that has none of [hook_output],
    [update_ongoing] and [update_pending] ends the run normally: the one
    line "Update completed without output." is reported after it and no
    further request is made. *)
Theorem completed_without_output (fuel : nat) (args : Args) (w : W) (i : nat) (rq : Request)
    (r : PostResult) (data : gmap string pyval) :
  (run fuel args w).2 !! i = Some (EvPost rq r) ->
  is_poll rq ->
  ok_response r data ->
  has_key data "hook_output" = false ->
  has_key data "update_ongoing" = false ->
  has_key data "update_pending" = false ->
  (run fuel args w).1 = Ok tt /\
  exit_status (run fuel args w).1 = Some 0%Z /\
  posts (drop (S i) (run fuel args w).2) = [] /\
  reports (drop (S i) (run fuel args w).2) =
    ["[critic] b'Update completed without output.'"].
Proof.
  intros Hi Hq Hok Hout Hong Hpen.
  pose proof (each_post_lookup _ _ _ _ _ (run_each_post _ _ _ _ (run_behaves fuel args w)) Hi)
    as (Hpoll & _ & _).
  assert (He : pass_end r = Some (Ok tt, prog_events "Update completed without output.")).
  { unfold pass_end. now rewrite Hok, Hout, Hong, Hpen. }
  destruct (Hpoll Hq _ _ He) as (Ho & Hp & Hr).
  rewrite Ho, Hr. autorewrite with views. auto.
Qed.

(** X13. A poll response whose [hook_output] is not text (JSON [null], a
    number, a list, ...) makes [print_hook] fail at [message.splitlines()],
    after it has written the opening rule: the run ends with
    [AttributeError] and exit status 1; the error line of a rejected update
    and the opening rule are all that is reported, and the closing rule is
    never written. *)
Theorem hook_output_must_be_text (fuel : nat) (args : Args) (w : W) (i : nat) (rq : Request)
    (r : PostResult) (data : gmap string pyval) (out ok : pyval) :
  (run fuel args w).2 !! i = Some (EvPost rq r) ->
  is_poll rq ->
  ok_response r data ->
  data !! "hook_output" = Some out ->
  (forall s, out <> PyStr s) ->
  data !! "update_successful" = Some ok ->
  (run fuel args w).1 = Raised AttributeError /\
  exit_status (run fuel args w).1 = Some 1%Z /\
  posts (drop (S i) (run fuel args w).2) = [] /\
  reports (drop (S i) (run fuel args w).2) =
    (if truthy ok then [] else ["[critic:error] b'Critic rejected the update!'"]) ++
    [hook_rule].
Proof.
  intros Hi Hq Hok Hout Htext Hsucc.
  pose proof (each_post_lookup _ _ _ _ _ (run_each_post _ _ _ _ (run_behaves fuel args w)) Hi)
    as (Hpoll & _ & _).
  assert (He : pass_end r = Some (Raised AttributeError, reject_events ok ++ [EvLog hook_rule true])).
  { unfold pass_end. rewrite Hok, (has_key_true _ _ _ Hout), Hsucc, Hout.
    destruct out; try reflexivity. now destruct (Htext s). }
  destruct (Hpoll Hq _ _ He) as (Ho & Hp & Hr).
  rewrite Ho, Hr. autorewrite with views. auto.
Qed.

(** X14. An initial response with status ["ok"] that has [review] or
    [branch] and none of [disabled], [update_ongoing], [update_pending] and
    [update_triggered] ends the run normally after the one line that names
    the review or the tracked branch, provided that line can be encoded.
    With [review] that line names the review, whether or not [branch] is
    there too; an id that is a string is shown as it is, one that is an
    integer in decimal. *)
Theorem unflagged_response_is_reported (fuel : nat) (args : Args) (w : W) (rq : Request)
    (r : PostResult) (data : gmap string pyval) :
  head (posts (run fuel args w).2) = Some (rq, r) ->
  ok_response r data ->
  (has_key data "review" || has_key data "branch")%bool = true ->
  all_encodable (splitlines (found_message data)) = true ->
  has_key data "disabled" = false ->
  has_key data "update_ongoing" = false ->
  has_key data "update_pending" = false ->
  has_key data "update_triggered" = false ->
  (run fuel args w).1 = Ok tt /\
  posts (run fuel args w).2 = [(rq, r)] /\
  reports (run fuel args w).2 = progress_lines (found_message data) /\
  (forall id, data !! "review" = Some (PyStr id) ->
     reports (run fuel args w).2 = progress_lines ("Review: " +:+ id)) /\
  (forall n, data !! "review" = Some (PyInt n) ->
     reports (run fuel args w).2 = progress_lines ("Review: " +:+ pretty n)) /\
  (forall name, data !! "review" = None -> data !! "branch" = Some (PyStr name) ->
     reports (run fuel args w).2 = progress_lines ("Tracked branch: " +:+ name)).
Proof.
  intros Hh Hok Hfound Hall Hdis Hong Hpen Htrig.
  destruct (run_requests _ _ _ _ _ _ (run_behaves fuel args w) Hh)
    as (_ & value & pre & start & t & tail & pfx & _ & -> & Hi & _ & Hp & Hr & _).
  unfold initial_result in Hi. rewrite Hok, Hfound, Hall in Hi.
  destruct Hi as (rest & -> & rest' & -> & Hf).
  unfold flags_result in Hf. rewrite Hdis, Hong, Hpen, Htrig in Hf.
  destruct Hf as (Ho & ->).
  rewrite Hp, Hr, Ho. autorewrite with views.
  repeat split.
  - intros id Hv. unfold found_message. now rewrite Hv.
  - intros n Hv. unfold found_message. now rewrite Hv.
  - intros name Hn Hv. unfold found_message. now rewrite Hn, Hv.
Qed.
End Responses.

(** ** The passes of the polling loop *)
Section Polling.
Context `{!PyRuntime}.

Lemma pass_end_outcome (r : PostResult) (o : Outcome unit) (tail : list Event) :
  pass_end r = Some (o, tail) -> o <> OutOfFuel.
Proof.
  unfold pass_end. intros He.
  destruct (check_response r) as [e|data].
  - destruct (is_Timeout e); [discriminate|]. now injection He as <- <-.
  - destruct (has_key data "hook_output").
    + destruct (data !! "update_successful") as [ok|]; [|now injection He as <- <-].
      destruct (data !! "hook_output") as [[| | | |out| |]|];
        try destruct (all_encodable (splitlines out)); now injection He as <- <-.
    + destruct (negb _); [|discriminate]. now injection He as <- <-.
Qed.

Lemma pass_end_waiting (r : PostResult) (data : gmap string pyval) :
  check_response r = inr data ->
  has_key data "hook_output" = false ->
  (has_key data "update_ongoing" || has_key data "update_pending")%bool = true ->
  pass_end r = None.
Proof. unfold pass_end. now intros -> -> ->. Qed.

Lemma poll_run_waits (c : Ctx) (deadline : Q) (dbg : bool) (n : nat) (o : Outcome unit)
    (tr : list Event) :
  poll_run c deadline dbg n o tr -> each_post (wait_law deadline o) tr.
Proof.
  induction 1 as [|n t Hle|n t t' r o tail Hlt He|n t t' r tail o rest Hlt He Hw Hr IH].
  - exact I.
  - cbn [each_post]. apply each_post_silent. now autorewrite with views.
  - cbn [each_post]. unfold request_events. rewrite <- app_assoc.
    apply each_post_app; [apply each_post_silent; now autorewrite with views|].
    cbn [app each_post]. split.
    + intros _ data Hc Hout Hwait.
      rewrite (pass_end_waiting _ _ Hc Hout Hwait) in He. discriminate.
    + apply each_post_silent. eapply pass_end_silent; eassumption.
  - cbn [each_post]. unfold request_events. rewrite <- app_assoc.
    apply each_post_app; [apply each_post_silent; now autorewrite with views|].
    cbn [app each_post]. split.
    + intros _ data Hc _ _. unfold pass_wait in Hw. rewrite Hc in Hw.
      destruct Hw as (t2 & ->). exists t2, rest. split.
      * reflexivity.
      * destruct (poll_run_head _ _ _ _ _ _ Hr) as [?|(t3 & rest3 & ->)]; eauto.
    + apply each_post_app; [|exact IH].
      apply each_post_silent. eapply pass_wait_silent; eassumption.
Qed.

Lemma wait_law_app (deadline : Q) (o : Outcome unit) (rq : Request) (r : PostResult)
    (rest exc : list Event) :
  (o = OutOfFuel -> exc = []) ->
  wait_law deadline o rq r rest -> wait_law deadline o rq r (rest ++ exc).
Proof.
  intros Hx Hlaw Hq data Hc Hout Hwait.
  destruct (Hlaw Hq data Hc Hout Hwait) as (t & rest' & -> & Hnext).
  exists t, (rest' ++ exc). split.
  - cbn [app]. now rewrite <- app_assoc.
  - destruct Hnext as [(-> & Ho)|(t' & rest'' & ->)].
    + left. now rewrite (Hx Ho).
    + right. cbn [app]. eauto.
Qed.

Lemma initial_waits (fuel : nat) (c : Ctx) (dbg : bool) (start : Q) (r : PostResult)
    (o : Outcome unit) (tail exc : list Event) :
  initial_result fuel c dbg start r o tail ->
  posts exc = [] -> (o = OutOfFuel -> exc = []) ->
  each_post (wait_law (start + inject_Z update_timeout) o) (tail ++ exc).
Proof.
  intros Hi Hp Hx.
  destruct (initial_cases _ _ _ _ _ _ _ Hi) as [(Hpt & _)|_].
  { apply each_post_silent. autorewrite with views. now rewrite Hpt, Hp. }
  unfold initial_result in Hi. destruct (check_response r) as [e|data].
  { destruct Hi as (_ & ->). apply each_post_silent.
    destruct (is_Timeout e); now autorewrite with views. }
  destruct Hi as (rest & -> & Hi).
  destruct (has_key data "review" || has_key data "branch")%bool.
  2:{ destruct Hi as (_ & ->). apply each_post_silent. now autorewrite with views. }
  destruct (all_encodable (splitlines (found_message data))).
  2:{ destruct Hi as (_ & ->). apply each_post_silent. now autorewrite with views. }
  destruct Hi as (rest' & -> & Hf). unfold flags_result in Hf.
  destruct (has_key data "disabled");
    [destruct Hf as (_ & ->); apply each_post_silent; now autorewrite with views|].
  destruct (has_key data "update_ongoing");
    [destruct Hf as (_ & ->); apply each_post_silent; now autorewrite with views|].
  destruct (has_key data "update_pending");
    [destruct Hf as (_ & ->); apply each_post_silent; now autorewrite with views|].
  destruct (has_key data "update_triggered");
    [|destruct Hf as (_ & ->); apply each_post_silent; now autorewrite with views].
  destruct (negb (has_key data "review"));
    [destruct Hf as (_ & ->); apply each_post_silent; now autorewrite with views|].
  destruct Hf as (polling & Hpoll & ->).
  rewrite <- !app_assoc.
  do 3 (apply each_post_app; [apply each_post_silent; now autorewrite with views|]).
  cbn [app each_post].
  apply each_post_app; [|now apply each_post_silent].
  eapply each_post_mono; [|eapply poll_run_waits; exact Hpoll].
  intros rq r' rest0 Hlaw. now apply wait_law_app.
Qed.

(** Every request of a run obeys the law of the waiting pass, for the
    deadline of line 276. *)
Lemma run_waits (fuel : nat) (args : Args) (o : Outcome unit) (tr : list Event) (start : Q) :
  run_behaviour fuel args o tr ->
  head (readings AtStart tr) = Some start ->
  each_post (wait_law (start + inject_Z update_timeout) o) tr.
Proof.
  intros Hb Hs.
  destruct (run_shape _ _ _ _ Hb) as
    [(Hp & _)|[(Hp & _)|(_ & value & pre & start' & t & r & tail & before & Hres & Hi & _ & _ & _ & _ & Hst & _)]];
    try (now apply each_post_silent).
  rewrite Hst in Hs. injection Hs as ->.
  destruct Hb as [(_ & _ & ->)|[(_ & _ & descr & _ & ->)|(_ & value' & pre' & start' & t' & r' & tail' & Hres' & Hi' & ->)]].
  - apply each_post_silent. now autorewrite with views.
  - apply each_post_silent. cbn [posts]. now autorewrite with views.
  - destruct (resolved_silent _ _ _ Hres') as (Hp & _ & Hrd).
    destruct (handler_silent (debug args) o) as (Hxp & _ & _ & Hxs).
    destruct (initial_views _ _ _ _ _ _ _ Hi') as (_ & _ & His).
    autorewrite with views in Hst. cbn [readings] in Hst. autorewrite with views in Hst.
    rewrite Hrd, His, Hxs in Hst. cbn [app] in Hst. injection Hst as <-.
    apply each_post_app; [now apply each_post_silent|].
    cbn [each_post]. unfold request_events. rewrite <- app_assoc.
    apply each_post_app; [apply each_post_silent; now autorewrite with views|].
    cbn [app each_post]. split.
    + intros Hq. exfalso. eapply initial_request_not_poll. exact Hq.
    + eapply initial_waits; [eassumption|assumption|]. now intros ->.
Qed.

Lemma poll_run_count (c : Ctx) (deadline : Q) (dbg : bool) (n : nat) (o : Outcome unit)
    (tr : list Event) :
  poll_run c deadline dbg n o tr ->
  length (posts tr) = length (List.filter (before deadline) (readings AtLoopTest tr)) /\
  (length (readings AtLoopTest tr) <= n)%nat /\
  (o = OutOfFuel ->
   length (readings AtLoopTest tr) = n /\
   Forall (fun t => (t < deadline)%Q) (readings AtLoopTest tr)).
Proof.
  induction 1 as [|n t Hle|n t t' r o tail Hlt He|n t t' r tail o rest Hlt He Hw Hr IH].
  - cbn. auto.
  - cbn [posts readings]. autorewrite with views. cbn [List.filter]. unfold before.
    destruct (Qlt_le_dec t deadline) as [Hlt|_]; [exfalso; eapply Qlt_not_le; eassumption|].
    cbn [length]. split; [reflexivity|]. split; [lia|discriminate].
  - destruct (pass_end_silent _ _ _ He) as (Hp & _ & Hs).
    cbn [posts readings]. autorewrite with views. rewrite Hp, Hs. cbn [app List.filter].
    unfold before. destruct (Qlt_le_dec t deadline) as [_|Hle];
      [|exfalso; eapply Qlt_not_le; eassumption].
    cbn [length]. split; [reflexivity|]. split; [lia|].
    intros ->. now destruct (pass_end_outcome _ _ _ He).
  - destruct (pass_wait_silent _ _ _ Hw) as (Hp & _ & _ & _ & Hl).
    destruct IH as (IHc & IHn & IHo).
    cbn [posts readings]. autorewrite with views. rewrite Hp, Hl. cbn [app List.filter].
    unfold before at 1. destruct (Qlt_le_dec t deadline) as [_|Hle];
      [|exfalso; eapply Qlt_not_le; eassumption].
    cbn [length]. rewrite IHc. split; [reflexivity|]. split; [lia|].
    intros Ho. destruct (IHo Ho) as (-> & Hall). split; [reflexivity|].
    constructor; assumption.
Qed.

(** A run that reads the clock at line 222 goes on to the initial
    request. *)
Lemma run_started (fuel : nat) (args : Args) (o : Outcome unit) (tr : list Event) (start : Q) :
  run_behaviour fuel args o tr ->
  head (readings AtStart tr) = Some start -> posts tr <> [].
Proof.
  intros [(_ & _ & ->)|[(_ & _ & descr & _ & ->)|(_ & value & pre & start' & t & r & tail & Hres & Hi & ->)]] Hs.
  - autorewrite with views in Hs. discriminate.
  - cbn [readings] in Hs. autorewrite with views in Hs. discriminate.
  - autorewrite with views. cbn [posts]. autorewrite with views.
    destruct (posts pre); discriminate.
Qed.
End Polling.

Section Passes.
Context {W : Type} `{!Environment W} `{!PyRuntime}.

(** X15. After a poll response with status ["ok"] that has no [hook_output]
    but [update_ongoing] or [update_pending], the script reads the clock,
    sleeps for half a second or for what remains until the deadline (the
    start of the initial request plus 30 seconds) if that is less, does not
    sleep at all when nothing remains, and goes back to the loop test. *)
Theorem pending_update_is_awaited (fuel : nat) (args : Args) (w : W) (i : nat) (rq : Request)
    (r : PostResult) (data : gmap string pyval) (start : Q) :
  (run fuel args w).2 !! i = Some (EvPost rq r) ->
  is_poll rq ->
  ok_response r data ->
  has_key data "hook_output" = false ->
  (has_key data "update_ongoing" || has_key data "update_pending")%bool = true ->
  head (readings AtStart (run fuel args w).2) = Some start ->
  exists t rest,
    drop (S i) (run fuel args w).2 =
      EvTime AtRemaining t ::
      (if Qlt_le_dec 0%Q (start + inject_Z update_timeout - t)%Q
       then [EvSleep (Qmin half (start + inject_Z update_timeout - t)%Q)] else []) ++ rest /\
    ((rest = [] /\ (run fuel args w).1 = OutOfFuel) \/
     exists t' rest', rest = EvTime AtLoopTest t' :: rest').
Proof.
  intros Hi Hq Hok Hout Hwait Hs.
  exact (each_post_lookup _ _ _ _ _ (run_waits _ _ _ _ _ (run_behaves fuel args w) Hs) Hi
           Hq data Hok Hout Hwait).
Qed.

(** X16. A run that reads the clock at line 222 makes one request more than
    it has loop tests that find the deadline ahead: the initial request, and
    in every pass of the loop exactly one poll request.  The model gives up
    on a run only after as many loop tests as it has fuel, all of which
    found the deadline ahead. *)
Theorem one_request_per_pass (fuel : nat) (args : Args) (w : W) (start : Q) :
  head (readings AtStart (run fuel args w).2) = Some start ->
  length (posts (run fuel args w).2) =
    S (length (List.filter (before (start + inject_Z update_timeout))
                 (readings AtLoopTest (run fuel args w).2))) /\
  (length (readings AtLoopTest (run fuel args w).2) <= fuel)%nat /\
  ((run fuel args w).1 = OutOfFuel ->
   length (readings AtLoopTest (run fuel args w).2) = fuel /\
   Forall (fun t => (t < start + inject_Z update_timeout)%Q)
     (readings AtLoopTest (run fuel args w).2)).
Proof.
  intros Hs.
  destruct (run_shape _ _ _ _ (run_behaves fuel args w)) as
    [(Hp & _)|[(Hp & _)|
     (_ & value & pre & start' & t & r & tail & pfx & _ & Hi & _ & Hp & _ & _ & Hst & Hl)]];
    try (now destruct (run_started _ _ _ _ _ (run_behaves fuel args w) Hs)).
  - rewrite Hst in Hs. injection Hs as <-. rewrite Hp, Hl.
    destruct (initial_cases _ _ _ _ _ _ _ Hi) as
      [(Hpt & Hlt & Ho)|(polling & Hpoll & Hpt & Hlt & _)].
    + rewrite Hpt, Hlt. cbn [length List.filter]. split; [reflexivity|]. split; [lia|].
      intros Hout. destruct Ho as [Ho|[(e & _ & Ho)|Ho]]; congruence.
    + rewrite Hpt, Hlt. destruct (poll_run_count _ _ _ _ _ _ Hpoll) as (Hc & Hn & Ho).
      cbn [length]. rewrite Hc. auto.
Qed.
End Passes.

(** ** The endpoint and the credentials *)
Section Endpoint.





(** X18. The requests are authenticated exactly when both a user name and
    a password are given and neither is empty, with that pair; the
    [--verify] flag is handed to [requests.post] as it is. *)
Theorem credentials_need_both (args : Args) (u pw : string) :
  (kw_auth (make_kwargs args) = Some (u, pw) <->
   username args = Some u /\ password args = Some pw /\ u <> "" /\ pw <> "") /\
  kw_verify (make_kwargs args) = verify args.
Proof.
  split; [|reflexivity]. unfold make_kwargs. cbn [kw_auth]. unfold str_truthy.
  destruct (username args) as [u'|], (password args) as [pw'|];
    cbn [andb default from_option id].
  - destruct (String.eqb_spec u' ""), (String.eqb_spec pw' ""); cbn [negb andb].
    + split; [discriminate|]. intros (Hu & _ & Hn & _). congruence.
    + split; [discriminate|]. intros (Hu & _ & Hn & _). congruence.
    + split; [discriminate|]. intros (_ & Hp & _ & Hn). congruence.
    + split.
      * intros Heq. injection Heq as <- <-. auto.
      * intros (Hu & Hp & _). congruence.
  - destruct (negb (String.eqb u' "")); cbn [andb];
      (split; [discriminate|intros (_ & Hp & _); discriminate]).
  - split; [discriminate|intros (Hu & _); discriminate].
  - split; [discriminate|intros (Hu & _); discriminate].
Qed.
End Endpoint.

(** ** What [--debug] changes *)
Section Debug.
Context {W : Type} `{!Environment W} `{!PyRuntime}.

Lemma alike_ret {A : Type} (a : A) : alike (W:=W) (mret a) (mret a).
Proof. intros st st' Hw. cbn. auto. Qed.

Lemma alike_raise {A : Type} (e : Exn) : alike (W:=W) (A:=A) (raise e) (raise e).
Proof. intros st st' Hw. cbn. auto. Qed.

Lemma alike_out_of_fuel {A : Type} : alike (W:=W) (A:=A) out_of_fuel out_of_fuel.
Proof. intros st st' Hw. cbn. auto. Qed.

Lemma alike_bind {A B : Type} (m m' : @Run W A) (f f' : A -> @Run W B) :
  alike m m' -> (forall a, alike (f a) (f' a)) -> alike (m ≫= f) (m' ≫= f').
Proof.
  intros Hm Hf st st' Hw. specialize (Hm st st' Hw).
  unfold mbind, run_bind.
  destruct (m st) as [[o s1] tr], (m' st') as [[o' s1'] tr']. cbn [fst snd] in Hm.
  destruct Hm as (<- & Hw1 & Htr). destruct o as [a|e|]; cbn [fst snd]; auto.
  specialize (Hf a s1 s1' Hw1).
  destruct (f a s1) as [[o2 s2] tr2], (f' a s1') as [[o2' s2'] tr2']. cbn [fst snd] in *.
  destruct Hf as (-> & Hw2 & Htr2). rewrite !map_app, Htr, Htr2. auto.
Qed.

Lemma alike_try {A : Type} (m m' : @Run W A) (catches : Exn -> bool)
    (h h' : Exn -> @Run W A) :
  alike m m' -> (forall e, alike (h e) (h' e)) ->
  alike (try_except m catches h) (try_except m' catches h').
Proof.
  intros Hm Hh st st' Hw. specialize (Hm st st' Hw).
  unfold try_except.
  destruct (m st) as [[o s1] tr], (m' st') as [[o' s1'] tr']. cbn [fst snd] in Hm.
  destruct Hm as (<- & Hw1 & Htr). destruct o as [a|e|]; cbn [fst snd]; auto.
  destruct (catches e); cbn [fst snd]; auto.
  specialize (Hh e s1 s1' Hw1).
  destruct (h e s1) as [[o2 s2] tr2], (h' e s1') as [[o2' s2'] tr2']. cbn [fst snd] in *.
  destruct Hh as (-> & Hw2 & Htr2). rewrite !map_app, Htr, Htr2. auto.
Qed.

Lemma alike_for_each {A : Type} (l : list A) (body body' : A -> @Run W unit) :
  (forall x, alike (body x) (body' x)) -> alike (for_each l body) (for_each l body').
Proof.
  intros Hb. induction l as [|x l IH]; cbn [for_each].
  - apply alike_ret.
  - apply alike_bind; [apply Hb|intros _; exact IH].
Qed.

Lemma alike_now (site : ClockSite) : alike (W:=W) (now site) (now site).
Proof.
  intros st st' Hw. unfold now. rewrite Hw.
  destruct (time_time (world st')). cbn. auto.
Qed.

Lemma alike_sleep (d : Q) : alike (W:=W) (sleep d) (sleep d).
Proof. intros st st' Hw. unfold sleep. rewrite Hw. cbn. auto. Qed.

Lemma alike_post (rq : Request) : alike (W:=W) (post rq) (post rq).
Proof.
  intros st st' Hw. unfold post. rewrite Hw.
  destruct (requests_post rq (world st')). cbn. auto.
Qed.

Lemma alike_rev_parse (name : string) : alike (W:=W) (rev_parse name) (rev_parse name).
Proof.
  intros st st' Hw. unfold rev_parse. rewrite Hw.
  destruct (git_rev_parse name (world st')). cbn. auto.
Qed.

Lemma alike_set_debug (b b' : bool) : alike (W:=W) (set_debug b) (set_debug b').
Proof. intros st st' Hw. cbn. auto. Qed.

Lemma alike_log (line : string) (b : bool) :
  alike (W:=W) (print_and_log line b) (print_and_log line b).
Proof. intros st st' Hw. unfold print_and_log. cbn [fst snd map unprinted]. auto. Qed.

Lemma alike_encode (line : string) : alike (W:=W) (encode line) (encode line).
Proof.
  intros st st' Hw. rewrite !encode_run.
  destruct (encodable line); cbn [fst snd map]; auto.
Qed.

(** [print_debug] reads the flag, and does nothing with it but pass it to
    [print_and_log]. *)
Lemma alike_print_debug (message : string) :
  alike (W:=W) (print_debug message) (print_debug message).
Proof.
  unfold print_debug. apply alike_for_each. intros line.
  apply alike_bind; [apply alike_encode|intros b].
  intros st st' Hw.
  unfold mbind, run_bind, get_debug, print_and_log. cbn [fst snd map unprinted app]. auto.
Qed.

Lemma alike_print_progress (message : string) :
  alike (W:=W) (print_progress message) (print_progress message).
Proof.
  unfold print_progress. apply alike_for_each. intros line.
  apply alike_bind; [apply alike_encode|intros b; apply alike_log].
Qed.

Lemma alike_print_error (message : string) :
  alike (W:=W) (print_error message) (print_error message).
Proof.
  unfold print_error. apply alike_for_each. intros line.
  apply alike_bind; [apply alike_encode|intros b; apply alike_log].
Qed.

Lemma alike_print_hook (message : pyval) :
  alike (W:=W) (print_hook message) (print_hook message).
Proof.
  unfold print_hook.
  apply alike_bind; [apply alike_log|intros _].
  apply alike_bind; [destruct message; (apply alike_ret || apply alike_raise)|intros lines].
  apply alike_bind; [|intros _; apply alike_log].
  apply alike_for_each. intros line.
  apply alike_bind; [apply alike_encode|intros b; apply alike_log].
Qed.

Lemma alike_subscript (d : gmap string pyval) (key : string) :
  alike (W:=W) (subscript d key) (subscript d key).
Proof. unfold subscript. destruct (d !! key); [apply alike_ret|apply alike_raise]. Qed.

Lemma alike_issue_request (c : Ctx) (deadline : Q) (trigger : bool) :
  alike (W:=W) (issue_request c deadline trigger) (issue_request c deadline trigger).
Proof.
  unfold issue_request, print_debug_json. cbv zeta.
  apply alike_bind; [apply alike_print_debug|intros _].
  apply alike_bind; [apply alike_now|intros t].
  apply alike_bind; [apply alike_post|intros r].
  destruct (check_response r); [apply alike_raise|apply alike_ret].
Qed.

Lemma alike_poll_body (c : Ctx) (deadline : Q) :
  alike (W:=W) (poll_body c deadline) (poll_body c deadline).
Proof.
  unfold poll_body.
  apply alike_bind.
  - apply alike_try; [|intros ?; apply alike_ret].
    apply alike_bind; [apply alike_issue_request|intros ?; apply alike_ret].
  - intros [data|]; [|apply alike_ret].
    destruct (has_key data "hook_output").
    + apply alike_bind; [apply alike_subscript|intros ok].
      apply alike_bind;
        [destruct (negb (truthy ok)); [apply alike_print_error|apply alike_ret]|intros _].
      apply alike_bind; [apply alike_subscript|intros out].
      apply alike_bind; [apply alike_print_hook|intros _; apply alike_ret].
    + destruct (negb _).
      * apply alike_bind; [apply alike_print_progress|intros _; apply alike_ret].
      * apply alike_bind; [apply alike_now|intros t]. cbv zeta.
        apply alike_bind; [|intros _; apply alike_ret].
        destruct (Qlt_le_dec 0 (deadline - t)); [apply alike_sleep|apply alike_ret].
Qed.

Lemma alike_poll_loop (fuel : nat) (c : Ctx) (deadline : Q) :
  alike (W:=W) (poll_loop fuel c deadline) (poll_loop fuel c deadline).
Proof.
  induction fuel as [|fuel IH]; cbn [poll_loop]; [apply alike_out_of_fuel|].
  apply alike_bind; [apply alike_now|intros t].
  destruct (Qlt_le_dec t deadline).
  - apply alike_bind; [apply alike_poll_body|intros [|]]; [exact IH|apply alike_ret].
  - apply alike_print_progress.
Qed.

Lemma alike_status_flags (fuel : nat) (c : Ctx) (start : Q) (data : gmap string pyval) :
  alike (W:=W) (status_flags fuel c start data) (status_flags fuel c start data).
Proof.
  unfold status_flags. cbv zeta.
  destruct (has_key data "disabled"); [apply alike_print_progress|].
  destruct (has_key data "update_ongoing"); [apply alike_print_progress|].
  destruct (has_key data "update_pending"); [apply alike_print_progress|].
  destruct (has_key data "update_triggered"); [|apply alike_ret].
  destruct (negb (has_key data "review")); [apply alike_print_progress|].
  apply alike_bind; [apply alike_print_progress|intros _].
  apply alike_bind; [apply alike_sleep|intros _]. apply alike_poll_loop.
Qed.

Lemma alike_notify (fuel : nat) (c : Ctx) : alike (W:=W) (notify fuel c) (notify fuel c).
Proof.
  unfold notify, print_debug_json. cbv zeta.
  apply alike_bind; [apply alike_now|intros start].
  apply alike_bind.
  - apply alike_try; [apply alike_issue_request|intros e].
    apply alike_bind; [apply alike_print_error|intros _; apply alike_raise].
  - intros data. apply alike_bind; [apply alike_print_debug|intros _].
    destruct (data !! "review"); [|destruct (data !! "branch")].
    + apply alike_bind; [apply alike_print_progress|intros _; apply alike_status_flags].
    + apply alike_bind; [apply alike_print_progress|intros _; apply alike_status_flags].
    + apply alike_print_debug.
Qed.

Lemma alike_resolve_value (args : Args) :
  alike (W:=W) (resolve_value args) (resolve_value args).
Proof.
  unfold resolve_value, check_output_rev_parse.
  apply alike_try; [|intros _; apply alike_ret].
  destruct (str_truthy (sha args)); [apply alike_ret|].
  apply alike_bind; [|intros out; apply alike_ret].
  apply alike_bind; [apply alike_rev_parse|].
  intros [out| |descr]; [apply alike_ret|apply alike_raise|apply alike_raise].
Qed.

Lemma alike_main (fuel : nat) (args : Args) (b : bool) :
  alike (W:=W) (main fuel (with_debug args b)) (main fuel args).
Proof.
  unfold main.
  change (resolve_value (with_debug args b)) with (resolve_value args).
  change (make_kwargs (with_debug args b)) with (make_kwargs args).
  cbn [with_debug critic_url repository_url ref debug]. cbv zeta.
  apply alike_bind; [apply alike_set_debug|intros _].
  apply alike_bind.
  { destruct (String.eqb (critic_url args) ""); [|apply alike_ret].
    apply alike_bind; [apply alike_print_error|intros _; apply alike_raise]. }
  intros _. apply alike_try.
  - apply alike_bind; [apply alike_resolve_value|intros value].
    apply alike_bind; [apply alike_print_debug|intros _].
    cbn [for_each]. apply alike_bind; [apply alike_notify|intros _; apply alike_ret].
  - intros e. apply alike_bind; [apply alike_print_debug|intros _].
    apply alike_bind; [apply alike_print_debug|intros _; apply alike_raise].
Qed.

Lemma posts_unprinted (tr : list Event) : posts (map unprinted tr) = posts tr.
Proof. induction tr as [|[] tr IH]; cbn [map unprinted posts]; now rewrite ?IH. Qed.

Lemma rev_parses_unprinted (tr : list Event) : rev_parses (map unprinted tr) = rev_parses tr.
Proof. induction tr as [|[] tr IH]; cbn [map unprinted rev_parses]; now rewrite ?IH. Qed.

Lemma sleeps_unprinted (tr : list Event) : sleeps (map unprinted tr) = sleeps tr.
Proof. induction tr as [|[] tr IH]; cbn [map unprinted sleeps]; now rewrite ?IH. Qed.

Lemma log_lines_unprinted (tr : list Event) : log_lines (map unprinted tr) = log_lines tr.
Proof. induction tr as [|[] tr IH]; cbn [map unprinted log_lines]; now rewrite ?IH. Qed.

Lemma reports_unprinted (tr : list Event) : reports (map unprinted tr) = reports tr.
Proof. induction tr as [|[] tr IH]; cbn [map unprinted reports]; now rewrite ?IH. Qed.

Lemma readings_unprinted (site : ClockSite) (tr : list Event) :
  readings site (map unprinted tr) = readings site tr.
Proof. induction tr as [|[] tr IH]; cbn [map unprinted readings]; now rewrite ?IH. Qed.

(** What [main] does with and without the flag, from the same world. *)
Lemma run_with_debug (fuel : nat) (args : Args) (w : W) (b : bool) :
  (run fuel (with_debug args b) w).1 = (run fuel args w).1 /\
  map unprinted (run fuel (with_debug args b) w).2 = map unprinted (run fuel args w).2.
Proof.
  unfold run.
  pose proof (alike_main fuel args b {| world := w; g_debug := false |}
                {| world := w; g_debug := false |} eq_refl) as (Ho & _ & Htr).
  destruct (main fuel (with_debug args b) _) as [[o s] tr].
  destruct (main fuel args _) as [[o' s'] tr']. cbn [fst snd] in *. auto.
Qed.

(** X19. The [--debug] flag changes nothing but what is written to
    standard output and the debug line of [pars_arguments], which shows the
    flag.  From the same outside world, a run of the script with the flag
    and one without it end in the same way, call git and the server in the
    same way, sleep alike, and report the same progress, hook and error
    lines; and after the lines of [pars_arguments] the same lines are
    appended to the in-memory log by [print_and_log].  (The log starts with
    the four lines of lines 98-101, one of which shows the command line and
    with it the flag.) *)
Theorem debug_only_prints (fuel : nat) (args : Args) (w : W) (b : bool) :
  (script fuel (with_debug args b) w).1 = (script fuel args w).1 /\
  posts (script fuel (with_debug args b) w).2 = posts (script fuel args w).2 /\
  rev_parses (script fuel (with_debug args b) w).2 = rev_parses (script fuel args w).2 /\
  sleeps (script fuel (with_debug args b) w).2 = sleeps (script fuel args w).2 /\
  reports (script fuel (with_debug args b) w).2 = reports (script fuel args w).2 /\
  log_lines (script fuel (with_debug args b) w).2 =
    map (fun line => "[critic:debug] " +:+ bytes_str line)
        (splitlines (str_args (with_debug args b))) ++
    log_lines (run fuel args w).2 /\
  log_lines (script fuel args w).2 =
    map (fun line => "[critic:debug] " +:+ bytes_str line) (splitlines (str_args args)) ++
    log_lines (run fuel args w).2.
Proof.
  destruct (run_with_debug fuel args w b) as (Ho & Htr).
  rewrite !script_run. cbn [fst snd].
  rewrite !log_lines_app, !log_lines_dbg, !sleeps_app, !sleeps_dbg.
  autorewrite with views. cbn [app].
  rewrite <- (posts_unprinted (run fuel args w).2), <- (rev_parses_unprinted (run fuel args w).2),
    <- (sleeps_unprinted (run fuel args w).2), <- (log_lines_unprinted (run fuel args w).2),
    <- (reports_unprinted (run fuel args w).2), <- Htr.
  now rewrite posts_unprinted, rev_parses_unprinted, sleeps_unprinted, log_lines_unprinted,
    reports_unprinted.
Qed.
End Debug.

(** ** How a run starts and how it ends *)
Section Ends.
Context {W : Type} `{!Environment W} `{!PyRuntime}.

(** X20. Git is asked at most once in a run of the script, about the ref
    given on the command line and only when no value came with [--sha]; the
    call then comes right after the debug line of [pars_arguments], before
    [main] logs anything and before any request. *)
Theorem git_asked_at_most_once (fuel : nat) (args : Args) (w : W) :
  rev_parses (script fuel args w).2 = [] \/
  exists g rest,
    rev_parses (script fuel args w).2 = [(ref args, g)] /\
    (script fuel args w).2 =
      dbg_events false (str_args args) ++ EvRevParse (ref args) g :: rest /\
    str_truthy (sha args) = false /\
    critic_url args <> "".
Proof.
  rewrite script_run. cbn [snd]. autorewrite with views. cbn [app].
  destruct (run_behaves fuel args w) as
    [(_ & _ & Htr)|[(Hu & Hs & descr & _ & Htr)|(Hu & value & pre & start & t & r & tail & Hres & Hi & Htr)]];
    rewrite Htr.
  - left. now autorewrite with views.
  - right. eexists (GitFails descr), _. cbn [rev_parses]. autorewrite with views. auto.
  - destruct (handler_silent (debug args) (run fuel args w).1) as (_ & _ & Hv' & _).
    destruct (initial_views _ _ _ _ _ _ _ Hi) as (_ & Hv & _).
    autorewrite with views. cbn [rev_parses]. autorewrite with views.
    rewrite Hv, Hv'. autorewrite with views.
    unfold resolved in Hres. destruct (str_truthy (sha args)).
    + destruct Hres as (_ & ->). left. now autorewrite with views.
    + destruct Hres as (g & -> & _). right. eexists g, _.
      cbn [rev_parses app]. autorewrite with views. auto.
Qed.

(** X21. A run exits with status 0 or 1: 0 when [main] returns, 1 when
    it leaves with [sys.exit(1)] or with an exception.  The model gives up
    on a run only in the polling loop, after as many loop tests as it has
    fuel. *)
Theorem exit_status_is_binary (fuel : nat) (args : Args) (w : W) :
  ((run fuel args w).1 = Ok tt /\ exit_status (run fuel args w).1 = Some 0%Z) \/
  (exists e, (run fuel args w).1 = Raised e /\ exit_status (run fuel args w).1 = Some 1%Z) \/
  ((run fuel args w).1 = OutOfFuel /\
   length (readings AtLoopTest (run fuel args w).2) = fuel).
Proof.
  destruct (run_shape _ _ _ _ (run_behaves fuel args w)) as
    [(_ & _ & _ & _ & Ho)|[(_ & _ & _ & descr & _ & Ho)|
     (_ & value & pre & start & t & r & tail & pfx & _ & Hi & _ & _ & _ & _ & _ & Hl)]].
  - right. left. rewrite Ho. eauto.
  - right. left. rewrite Ho. eauto.
  - rewrite Hl.
    destruct (initial_cases _ _ _ _ _ _ _ Hi) as
      [(_ & _ & [Ho|[(e & Hc & Ho)|Ho]])|(polling & Hpoll & _ & Hlt & _)].
    + left. rewrite Ho. auto.
    + right. left. exists e. rewrite Ho. split; [reflexivity|].
      eapply check_response_exception; eassumption.
    + right. left. exists UnicodeEncodeError. rewrite Ho. auto.
    + rewrite Hlt. destruct (run fuel args w).1 as [[]|e|] eqn:Ho.
      * left. auto.
      * right. left. exists e. split; [reflexivity|].
        destruct (poll_run_raised _ _ _ _ _ _ Hpoll) as (_ & He). now destruct e.
      * right. right. split; [reflexivity|].
        now destruct (poll_run_count _ _ _ _ _ _ Hpoll) as (_ & _ & Hfuel), (Hfuel eq_refl).
Qed.
End Ends.

(** ** The further properties on sample runs *)

(** X5 on the rejected update: three requests, the first with [trigger]. *)
Lemma trigger_only_first_witness :
  exists p rest,
    posts (run 5 (sim_args (Some a_sha) false) rejected_world).2 = p :: rest /\
    length rest = 2%nat /\
    rq_data p.1 !! "trigger" = Some (PyBool true) /\
    Forall (fun p' : Request * PostResult =>
              dom (rq_data p'.1) =
                ({["remote"; "name"; "value"; "disable_remote_transform"]} : gset string))
      rest.
Proof.
  assert (Hp : exists p rest,
            posts (run 5 (sim_args (Some a_sha) false) rejected_world).2 = p :: rest /\
            length rest = 2%nat).
  { vm_compute. eexists _, _. split; reflexivity. }
  destruct Hp as (p & rest & Hp & Hlen).
  destruct (trigger_only_first 5 (sim_args (Some a_sha) false) rejected_world p rest Hp)
    as (Ht & _ & Hrest).
  exists p, rest. auto.
Defined.

(** X7 on a command line with [--critic_url ""]. *)
Lemma empty_url_exits_witness :
  exit_status (script 3 no_url_args accepted_world).1 = Some 1%Z /\
  stdout (script 3 no_url_args accepted_world).2 = ["[critic:error] b'No Critic URL set!'"] /\
  log_lines (script 3 no_url_args accepted_world).2 =
    ["[critic:debug] b'Namespace(...)'"; "[critic:error] b'No Critic URL set!'"].
Proof.
  destruct (empty_url_exits 3 no_url_args accepted_world eq_refl)
    as (Hrun & Hexit & Hout & _).
  split; [exact Hexit|]. split; [exact Hout|]. rewrite Hrun. reflexivity.
Defined.

(** X8 on a machine without git. *)
Lemma git_failure_is_fatal_witness :
  (run 3 (sim_args None false) broken_git_world).1 =
    Raised (OSError "[Errno 2] No such file or directory: 'git'") /\
  posts (run 3 (sim_args None false) broken_git_world).2 = [].
Proof.
  destruct (git_failure_is_fatal 3 (sim_args None false) broken_git_world
              "refs/heads/master" "[Errno 2] No such file or directory: 'git'")
    as (Ho & _ & Hp & _); [vm_compute; reflexivity|auto].
Defined.

(** X9 on a repository where git answers. *)
Lemma resolved_ref_is_stripped_witness :
  Forall (carries_value "52b1e1ac0bd1b2dd43e3bd06b4c1a0ff4dc6d9ae")
    (posts (run 3 (sim_args None false) newline_world).2) /\
  length (posts (run 3 (sim_args None false) newline_world).2) = 1%nat.
Proof.
  destruct (resolved_ref_is_stripped 3 (sim_args None false) newline_world
              "refs/heads/master"
              ("52b1e1ac0bd1b2dd43e3bd06b4c1a0ff4dc6d9ae" +:+ String "010" ""))
    as (_ & _ & _ & Hline); [vm_compute; reflexivity|].
  split; [now apply Hline|vm_compute; reflexivity].
Defined.


(** X11 on a run with [--debug] whose initial response has status
    ["error"]. *)
Lemma exceptions_are_logged_witness :
  exit_status (run 3 (sim_args (Some a_sha) true) failed_world).1 = Some 1%Z /\
  exists before after,
    (run 3 (sim_args (Some a_sha) true) failed_world).2 =
      before ++ EvLog "[critic:debug] b'Exception:'" true :: after.
Proof.
  destruct (exceptions_are_logged 3 (sim_args (Some a_sha) true) failed_world
              (PyException "Request failed: no such repository"))
    as (Hexit & before & after & Htr & _).
  - vm_compute. reflexivity.
  - reflexivity.
  - split; [exact Hexit|]. exists before, after. exact Htr.
Defined.

(** X12 on an update that completes without hook output: the third
    request of the run is event 18 of its trace. *)
Lemma completed_without_output_witness :
  (run 5 (sim_args (Some a_sha) false) completed_world).1 = Ok tt /\
  reports (drop 19 (run 5 (sim_args (Some a_sha) false) completed_world).2) =
    ["[critic] b'Update completed without output.'"].
Proof.
  assert (Hpost : exists rq,
            (run 5 (sim_args (Some a_sha) false) completed_world).2 !! 18 =
              Some (EvPost rq (json_reply [ok_status])) /\ is_poll rq).
  { vm_compute. eexists. split; reflexivity. }
  destruct Hpost as (rq & Hi & Hq).
  destruct (completed_without_output 5 (sim_args (Some a_sha) false) completed_world 18 rq
              (json_reply [ok_status]) (list_to_map [ok_status]) Hi Hq)
    as (Ho & _ & _ & Hr); try (vm_compute; reflexivity).
  auto.
Defined.

(** X13 on a poll response whose [hook_output] is [null]. *)
Lemma hook_output_must_be_text_witness :
  (run 5 (sim_args (Some a_sha) false) null_hook_world).1 = Raised AttributeError /\
  reports (drop 13 (run 5 (sim_args (Some a_sha) false) null_hook_world).2) =
    ["[critic:error] b'Critic rejected the update!'"; hook_rule].
Proof.
  assert (Hpost : exists rq,
            (run 5 (sim_args (Some a_sha) false) null_hook_world).2 !! 12 =
              Some (EvPost rq (json_reply null_hook_fields)) /\ is_poll rq).
  { vm_compute. eexists. split; reflexivity. }
  destruct Hpost as (rq & Hi & Hq).
  destruct (hook_output_must_be_text 5 (sim_args (Some a_sha) false) null_hook_world 12 rq
              (json_reply null_hook_fields) (list_to_map null_hook_fields)
              PyNone (PyBool false) Hi Hq)
    as (Ho & _ & _ & Hr); try (vm_compute; reflexivity).
  - discriminate.
  - auto.
Defined.

(** X14 on an initial response with [review] and [branch] and no flag,
    and on one whose review id is the number 42. *)
Lemma unflagged_response_is_reported_witness :
  ((run 3 (sim_args (Some a_sha) false) plain_world).1 = Ok tt /\
   reports (run 3 (sim_args (Some a_sha) false) plain_world).2 =
     ["[critic] b'Review: R1'"]) /\
  reports (run 3 (sim_args (Some a_sha) false) numbered_world).2 =
    ["[critic] b'Review: 42'"].
Proof.
  split.
  - destruct (unflagged_response_is_reported 3 (sim_args (Some a_sha) false) plain_world
                (sample_request (sim_args (Some a_sha) false) a_sha)
                (json_reply plain_fields) (list_to_map plain_fields))
      as (Ho & _ & _ & Hrev & _); try (vm_compute; reflexivity).
    split; [exact Ho|]. rewrite (Hrev "R1"); vm_compute; reflexivity.
  - destruct (unflagged_response_is_reported 3 (sim_args (Some a_sha) false) numbered_world
                (sample_request (sim_args (Some a_sha) false) a_sha)
                (json_reply numbered_fields) (list_to_map numbered_fields))
      as (_ & _ & _ & _ & Hnum & _); [vm_compute; reflexivity ..|].
    rewrite (Hnum 42%Z); vm_compute; reflexivity.
Defined.

(** X15 on the rejected update, whose first poll is answered "ongoing". *)
Lemma pending_update_is_awaited_witness :
  exists t rest,
    drop 13 (run 5 (sim_args (Some a_sha) false) rejected_world).2 =
      EvTime AtRemaining t ::
      (if Qlt_le_dec 0%Q (1000 + inject_Z update_timeout - t)%Q
       then [EvSleep (Qmin half (1000 + inject_Z update_timeout - t)%Q)] else []) ++ rest /\
    ((rest = [] /\ (run 5 (sim_args (Some a_sha) false) rejected_world).1 = OutOfFuel) \/
     exists t' rest', rest = EvTime AtLoopTest t' :: rest').
Proof.
  assert (Hpost : exists rq,
            (run 5 (sim_args (Some a_sha) false) rejected_world).2 !! 12 =
              Some (EvPost rq (json_reply ongoing_fields)) /\ is_poll rq).
  { vm_compute. eexists. split; reflexivity. }
  destruct Hpost as (rq & Hi & Hq).
  apply (pending_update_is_awaited 5 (sim_args (Some a_sha) false) rejected_world 12 rq
           (json_reply ongoing_fields) (list_to_map ongoing_fields) 1000%Q Hi Hq);
    vm_compute; reflexivity.
Defined.

(** X16 on the rejected update: three requests, two passes of the loop. *)
Lemma one_request_per_pass_witness :
  length (posts (run 5 (sim_args (Some a_sha) false) rejected_world).2) = 3%nat /\
  (length (readings AtLoopTest (run 5 (sim_args (Some a_sha) false) rejected_world).2) <= 5)%nat.
Proof.
  destruct (one_request_per_pass 5 (sim_args (Some a_sha) false) rejected_world 1000%Q)
    as (Hc & Hn & _); [vm_compute; reflexivity|].
  split; [|exact Hn]. rewrite Hc. vm_compute. reflexivity.
Defined.
